(** * Vending machine (Flask application [app.py]): embedding and properties

    The money values of the application are Python [float]s (IEEE 754
    binary64); they are modelled by Rocq's primitive floats, whose
    operations are the IEEE ones.  Python [int]s are unbounded and are
    modelled by [Z].  Handlers are functions from the state they read
    (session, product table, transaction log) to a response and a new
    state; a Python exception that escapes a handler is an explicit
    outcome ([BadRequestKeyError] is the exception of a missing form
    field, which the framework answers by a 400; the others are answered
    by a 500). *)

From Stdlib Require Import ZArith Lia Bool List String Ascii.
From Stdlib Require Import Floats.
From stdpp Require Import gmap strings list pretty.

Set Warnings "-inexact-float".
Local Open Scope Z_scope.

(** ** Python exceptions and the error monad *)

Inductive py_exception :=
| ValueError
| OverflowError
| ZeroDivisionError
| KeyError
| BadRequestKeyError.

Inductive result (A : Type) :=
| Ok (a : A)
| Raise (e : py_exception).
Arguments Ok {A} a.
Arguments Raise {A} e.

#[global] Instance result_ret : MRet result := @Ok.
#[global] Instance result_bind : MBind result := fun A B k r =>
  match r with
  | Ok a => k a
  | Raise e => Raise e
  end.

(** ** Python numbers *)

Module PyNum.

(** A Python number of the program: an [int] or a [float]. *)
Inductive pynum :=
| PyInt (z : Z)
| PyFloat (f : float).

(** Exact integer part of a finite binary64 value, towards minus infinity
    and towards plus infinity. *)
Definition sf_floor (x : spec_float) : Z :=
  match x with
  | S754_finite s m e =>
      if 0 <=? e then (if s then - Z.shiftl (Z.pos m) e else Z.shiftl (Z.pos m) e)
      else if s then - Z.shiftr (Z.pos m + Z.shiftl 1 (- e) - 1) (- e)
           else Z.shiftr (Z.pos m) (- e)
  | _ => 0
  end.

Definition sf_ceil (x : spec_float) : Z := - sf_floor (SFopp x).

(** [int(x)]: truncation towards zero; [ValueError] on a NaN and
    [OverflowError] on an infinity. *)
Definition py_int (x : float) : result Z :=
  match Prim2SF x with
  | S754_nan => Raise ValueError
  | S754_infinity _ => Raise OverflowError
  | S754_zero _ => Ok 0
  | S754_finite s m e =>
      let mag := if 0 <=? e then Z.shiftl (Z.pos m) e else Z.shiftr (Z.pos m) (- e) in
      Ok (if s then - mag else mag)
  end.

(** The binary64 value nearest to a non-negative [int] (ties to even).
    Below [2^53] the value is exact and the primitive conversion gives it;
    above, the mantissa is rounded. *)
Definition two53 : Z := Eval compute in 2 ^ 53.
Definition two48 : Z := Eval compute in 2 ^ 48.

Definition float_of_nonneg (z : Z) : float :=
  if z <? two53 then of_uint63 (Uint63.of_Z z)
  else SF2Prim (binary_normalize prec emax z 0 false).

(** [float(n)] for an [int] [n], as the arithmetic operators apply it to
    the [int] operand of a mixed operation: the nearest binary64 value,
    [OverflowError] when that would be an infinity. *)
Definition float_of_int (z : Z) : result float :=
  let f := float_of_nonneg (Z.abs z) in
  if is_infinity f then Raise OverflowError
  else Ok (if z <? 0 then (- f)%float else f).

(** Comparison of a [float] with an [int]: the two values are compared
    exactly.  An [int] of at most 48 bits is converted (exactly) and the
    comparison is the one of floats; otherwise the integer part of the
    float is compared. *)
Definition small_int (n : Z) : bool := Z.abs n <? two48.

Definition float_of_small (n : Z) : float :=
  if n <? 0 then (- float_of_nonneg (- n))%float else float_of_nonneg n.

Definition float_ge_int (x : float) (n : Z) : bool :=
  if small_int n then
    (float_of_small n <=? x)%float
  else
    match Prim2SF x with
    | S754_nan => false
    | S754_infinity s => negb s
    | sx => n <=? sf_floor sx
    end.

Definition float_lt_int (x : float) (n : Z) : bool :=
  if small_int n then
    (x <? float_of_small n)%float
  else
    match Prim2SF x with
    | S754_nan => false
    | S754_infinity s => s
    | sx => sf_floor sx <? n
    end.

Definition int_lt_float (n : Z) (x : float) : bool :=
  if small_int n then
    (float_of_small n <? x)%float
  else
    match Prim2SF x with
    | S754_nan => false
    | S754_infinity s => negb s
    | sx => n <? sf_ceil sx
    end.

(** [a < b], [a >= b] on Python numbers. *)
Definition py_lt (a b : pynum) : bool :=
  match a, b with
  | PyInt x, PyInt y => x <? y
  | PyFloat x, PyFloat y => (x <? y)%float
  | PyFloat x, PyInt y => float_lt_int x y
  | PyInt x, PyFloat y => int_lt_float x y
  end.

Definition py_ge (a b : pynum) : bool :=
  match a, b with
  | PyInt x, PyInt y => y <=? x
  | PyFloat x, PyFloat y => (y <=? x)%float
  | PyFloat x, PyInt y => float_ge_int x y
  | PyInt x, PyFloat y => negb (int_lt_float x y) && negb (is_nan y)
  end.

(** [x / d] with a [float] dividend. *)
Definition float_truediv (x : float) (d : pynum) : result float :=
  df ← match d with
       | PyInt n => float_of_int n
       | PyFloat f => Ok f
       end;
  if (df =? 0)%float then Raise ZeroDivisionError else Ok (x / df)%float.

(** [count * d] with an [int] count. *)
Definition int_mul (count : Z) (d : pynum) : result pynum :=
  match d with
  | PyInt n => Ok (PyInt (count * n))
  | PyFloat f => c ← float_of_int count; Ok (PyFloat (c * f)%float)
  end.

(** [x - y] with a [float] minuend. *)
Definition float_sub (x : float) (y : pynum) : result float :=
  match y with
  | PyInt n => yf ← float_of_int n; Ok (x - yf)%float
  | PyFloat f => Ok (x - f)%float
  end.

(** [x * n] for a [float] and an [int]. *)
Definition float_mul_int (x : float) (n : Z) : result float :=
  nf ← float_of_int n; Ok (x * nf)%float.

(** The integer nearest to [|x| * 100] (ties to even) for a finite [x]:
    the digits of the decimal with two places nearest to [x]. *)
Definition sf_cents (x : spec_float) : Z :=
  match x with
  | S754_finite _ m e =>
      if 0 <=? e then Z.shiftl (Z.pos m * 100) e
      else
        let q := Z.shiftr (Z.pos m * 100) (- e) in
        let r := Z.pos m * 100 - Z.shiftl q (- e) in
        match 2 * r ?= Z.shiftl 1 (- e) with
        | Lt => q
        | Gt => q + 1
        | Eq => if Z.even q then q else q + 1
        end
  | _ => 0
  end.

(** The binary64 value nearest to [n / 100] for [n >= 0]: the conversion
    of a decimal with two places.  When [n] is below [2^53] both [n] and
    [100] are floats and the IEEE division rounds their quotient
    correctly; above, the quotient of the two integers is rounded by the
    division of the specification. *)
Definition float_of_cents (n : Z) : float :=
  if n <? two53 then (of_uint63 (Uint63.of_Z n) / 100)%float
  else
    match n with
    | Z.pos p => SF2Prim (SF64div (S754_finite false p 0) (S754_finite false 100 0))
    | _ => 0%float
    end.

(** [round(x, 2)] on a [float]: infinities and NaN round to themselves;
    a finite value is converted to the decimal with two places nearest
    to it, and that decimal is converted back to binary64, with the sign
    of [x]. *)
Definition round2 (x : float) : float :=
  match Prim2SF x with
  | S754_finite s m e =>
      let r := float_of_cents (sf_cents (S754_finite s m e)) in
      if s then (- r)%float else r
  | _ => x
  end.

(** [a == b] on Python numbers (exact, also between [int] and [float]). *)
Definition py_eq (a b : pynum) : bool :=
  match a, b with
  | PyInt x, PyInt y => x =? y
  | PyFloat x, PyFloat y => (x =? y)%float
  | PyFloat x, PyInt y => float_ge_int x y && negb (float_lt_int x y) && negb (int_lt_float y x)
  | PyInt x, PyFloat y => float_ge_int y x && negb (float_lt_int y x) && negb (int_lt_float x y)
  end.

End PyNum.
Export PyNum.

(** ** Conversions between strings and numbers

    [int(s)] and [float(s)] on the text of a form field, and [str(x)].
    The text is read as ASCII: white space is the ASCII white space and the
    digits are [0]..[9] (Python also reads the digits and the white space
    of other scripts), and the length of the text of an [int] is not
    limited (recent interpreters refuse more than 4300 digits). *)

Module PyStr.

Definition digit_of (c : ascii) : option Z :=
  let n := Z.of_N (N_of_ascii c) in
  if (48 <=? n) && (n <=? 57) then Some (n - 48) else None.

Definition is_space (c : ascii) : bool :=
  let n := Z.of_N (N_of_ascii c) in
  (n =? 32) || ((9 <=? n) && (n <=? 13)).

Definition lower (c : ascii) : ascii :=
  let n := N_of_ascii c in
  if ((65 <=? n) && (n <=? 90))%N then ascii_of_N (n + 32) else c.

Fixpoint lstrip (l : list ascii) : list ascii :=
  match l with
  | c :: rest => if is_space c then lstrip rest else l
  | [] => []
  end.

Definition strip (l : list ascii) : list ascii :=
  rev (lstrip (rev (lstrip l))).

(** The rest of a digit part, [(["_"] digit)*]: the value accumulated, the
    number of digits read and the text that follows. *)
Fixpoint digits_rest (acc n : Z) (l : list ascii) : Z * Z * list ascii :=
  match l with
  | c :: l' =>
      match digit_of c with
      | Some d => digits_rest (10 * acc + d) (n + 1) l'
      | None =>
          if Ascii.eqb c "_" then
            match l' with
            | c2 :: l'' =>
                match digit_of c2 with
                | Some d => digits_rest (10 * acc + d) (n + 1) l''
                | None => (acc, n, l)
                end
            | [] => (acc, n, l)
            end
          else (acc, n, l)
      end
  | [] => (acc, n, [])
  end.

(** A digit part, [digit (["_"] digit)*], continuing the value [acc]. *)
Definition digitpart (acc : Z) (l : list ascii) : option (Z * Z * list ascii) :=
  match l with
  | c :: l' =>
      match digit_of c with
      | Some d => Some (digits_rest (10 * acc + d) 1 l')
      | None => None
      end
  | [] => None
  end.

Definition take_sign (l : list ascii) : bool * list ascii :=
  match l with
  | c :: l' =>
      if Ascii.eqb c "-" then (true, l')
      else if Ascii.eqb c "+" then (false, l')
      else (false, l)
  | [] => (false, [])
  end.

(** [int(s)] for a string [s]. *)
Definition int_of_string (s : string) : result Z :=
  let '(neg, l) := take_sign (strip (list_ascii_of_string s)) in
  match digitpart 0 l with
  | Some (v, _, []) => Ok (if neg then - v else v)
  | _ => Raise ValueError
  end.

(** The binary64 value nearest to [n * 10^k] ([n >= 0]) with the sign [s]:
    decimal to binary conversion, correctly rounded; an overflow gives an
    infinity and an underflow a zero. *)
Definition sf_of_decimal (s : bool) (n : Z) (k : Z) : spec_float :=
  match n with
  | Z.pos p =>
      if 0 <=? k then
        binary_normalize prec emax (if s then - (n * 10 ^ k) else n * 10 ^ k) 0 s
      else SF64div (S754_finite s p 0) (S754_finite false (Z.to_pos (10 ^ (- k))) 0)
  | _ => S754_zero s
  end.

(** The optional exponent of a float literal and the end of the text. *)
Definition exponent_part (l : list ascii) : option Z :=
  match l with
  | [] => Some 0
  | c :: l' =>
      if Ascii.eqb (lower c) "e" then
        let '(neg, l'') := take_sign l' in
        match digitpart 0 l'' with
        | Some (v, _, []) => Some (if neg then - v else v)
        | _ => None
        end
      else None
  end.

(** The mantissa of a float literal: [digitpart ["." [digitpart]]] or
    ["." digitpart]; the digits as one integer, the number of digits after
    the point and the text that follows. *)
Definition mantissa_part (l : list ascii) : option (Z * Z * list ascii) :=
  match digitpart 0 l with
  | Some (v, _, c :: l') =>
      if Ascii.eqb c "." then
        match digitpart v l' with
        | Some (v', n, l'') => Some (v', n, l'')
        | None => Some (v, 0, l')
        end
      else Some (v, 0, c :: l')
  | Some (v, _, []) => Some (v, 0, [])
  | None =>
      match l with
      | c :: l' => if Ascii.eqb c "." then digitpart 0 l' else None
      | [] => None
      end
  end.

(** [float(s)] for a string [s]. *)
Definition float_of_string (s : string) : result float :=
  let '(neg, l) := take_sign (strip (list_ascii_of_string s)) in
  let word := string_of_list_ascii (map lower l) in
  if String.eqb word "inf" || String.eqb word "infinity" then
    Ok (if neg then neg_infinity else infinity)
  else if String.eqb word "nan" then Ok nan
  else
    match mantissa_part l with
    | Some (v, frac, l') =>
        match exponent_part l' with
        | Some e => Ok (SF2Prim (sf_of_decimal neg v (e - frac)))
        | None => Raise ValueError
        end
    | None => Raise ValueError
    end.

(** [str(n)] for an [int]. *)
Definition str_int (n : Z) : string := pretty n.

(** *** [str(x)] for a [float]: the shortest decimal that reads back as [x] *)

(** Comparison of [a * 10^j] with [b * 2^e] for non-negative [a], [b]. *)
Definition cmp_dec_bin (a j b e : Z) : comparison :=
  (a * 10 ^ Z.max j 0 * 2 ^ Z.max (- e) 0 ?= b * 2 ^ Z.max e 0 * 10 ^ Z.max (- j) 0).

(** [floor (b * 2^e / 10^j)]. *)
Definition div_bin_dec (b e j : Z) : Z :=
  (b * 2 ^ Z.max e 0 * 10 ^ Z.max (- j) 0) / (10 ^ Z.max j 0 * 2 ^ Z.max (- e) 0).

(** The decimal exponent [j] of [m * 2^e]: [10^j <= m * 2^e < 10^(j+1)]. *)
Definition decimal_exponent (m : positive) (e : Z) : Z :=
  let b := Z.pos (digits2_pos m) + e in
  let j0 := ((b - 1) * 30103) / 100000 in
  match cmp_dec_bin 1 (j0 + 1) (Z.pos m) e with
  | Gt =>
      match cmp_dec_bin 1 j0 (Z.pos m) e with
      | Gt => j0 - 1
      | _ => j0
      end
  | _ => j0 + 1
  end.

(** The decimals that read back as the float [m * 2^e] are those of its
    rounding interval: in units of [2^(e-2)] the float is [4m] and the
    interval goes from [lo] to [4m + 2], its ends included when [m] is
    even. *)
Definition in_interval (m : positive) (e : Z) (d k : Z) : bool :=
  let lo := if (Z.pos m =? 2 ^ 52) && (emin <? e) then 4 * Z.pos m - 1 else 4 * Z.pos m - 2 in
  let hi := 4 * Z.pos m + 2 in
  match cmp_dec_bin d k lo (e - 2), cmp_dec_bin d k hi (e - 2) with
  | Gt, Lt => true
  | Eq, Lt | Gt, Eq => Z.even (Z.pos m)
  | _, _ => false
  end.

(** Among the decimals with [p] digits, the one that reads back as the
    float and is nearest to it, if there is one. *)
Definition candidate (m : positive) (e : Z) (j : Z) (p : Z) : option (Z * Z) :=
  let k := j - p + 1 in
  let d := div_bin_dec (Z.pos m) e k in
  let low := in_interval m e d k in
  let high := in_interval m e (d + 1) k in
  (* twice the float against the sum of the two candidates *)
  let nearer := cmp_dec_bin (2 * d + 1) k (2 * Z.pos m) e in
  if low && high then
    match nearer with
    | Gt => Some (d, k)
    | Lt => Some (d + 1, k)
    | Eq => Some (if Z.even d then d else d + 1, k)
    end
  else if low then Some (d, k)
  else if high then Some (d + 1, k)
  else None.

Fixpoint shortest (m : positive) (e : Z) (j : Z) (p : Z) (fuel : nat) : Z * Z :=
  match fuel with
  | O => (div_bin_dec (Z.pos m) e (j - p + 1), j - p + 1)
  | S fuel' =>
      match candidate m e j p with
      | Some dk => dk
      | None => shortest m e j (p + 1) fuel'
      end
  end.

Fixpoint strip_zeros (fuel : nat) (d k : Z) : Z * Z :=
  match fuel with
  | O => (d, k)
  | S fuel' => if (d mod 10 =? 0) && (0 <? d) then strip_zeros fuel' (d / 10) (k + 1) else (d, k)
  end.

Fixpoint zeros (n : nat) : string :=
  match n with O => EmptyString | S n' => String "0" (zeros n') end.

(** The text of the digits [ds] with the decimal point after [decpt]
    digits: exponent notation when [decpt <= -4] or [decpt > 16]. *)
Definition format_repr (ds : string) (decpt : Z) : string :=
  let nd := Z.of_nat (String.length ds) in
  if (decpt <=? -4) || (16 <? decpt) then
    let ex := decpt - 1 in
    let mant :=
      match ds with
      | String c EmptyString => String c EmptyString
      | String c rest => String c ("." ++ rest)
      | EmptyString => EmptyString
      end in
    let exs := pretty (Z.abs ex) in
    mant ++ "e" ++ (if ex <? 0 then "-" else "+")
         ++ (if Z.abs ex <? 10 then "0" else EmptyString) ++ exs
  else if decpt <=? 0 then "0." ++ zeros (Z.to_nat (- decpt)) ++ ds
  else if decpt <? nd then
    substring 0 (Z.to_nat decpt) ds ++ "." ++ substring (Z.to_nat decpt) (Z.to_nat (nd - decpt)) ds
  else ds ++ zeros (Z.to_nat (decpt - nd)) ++ ".0".

(** [str(x)] for a [float]. *)
Definition float_repr (x : float) : string :=
  match Prim2SF x with
  | S754_nan => "nan"
  | S754_infinity s => if s then "-inf" else "inf"
  | S754_zero s => if s then "-0.0" else "0.0"
  | S754_finite s m e =>
      let '(d0, k0) := shortest m e (decimal_exponent m e) 1 17 in
      let '(d, k) := strip_zeros 400 d0 k0 in
      let ds := pretty d in
      (if s then "-" else EmptyString) ++ format_repr ds (Z.of_nat (String.length ds) + k)
  end.

(** [str(x)] for a number. *)
Definition py_str (x : pynum) : string :=
  match x with
  | PyInt n => str_int n
  | PyFloat f => float_repr f
  end.

End PyStr.
Export PyStr.

(** ** Dictionaries in insertion order

    The change breakdown and the per-denomination counters are Python
    [dict]s that the program iterates over; their order is the insertion
    order, so they are association lists with pairwise distinct keys. *)

Section Dict.
Context {K V : Type} (key_eq : K -> K -> bool).

Fixpoint dict_get (d : list (K * V)) (k : K) : option V :=
  match d with
  | [] => None
  | (k', v) :: rest => if key_eq k' k then Some v else dict_get rest k
  end.

(** [d[k] = v]: the value of an existing key is replaced in place, a new
    key goes to the end. *)
Fixpoint dict_set (d : list (K * V)) (k : K) (v : V) : list (K * V) :=
  match d with
  | [] => [(k, v)]
  | (k', v') :: rest =>
      if key_eq k' k then (k', v) :: rest else (k', v') :: dict_set rest k v
  end.
End Dict.

(** ** The change calculator *)

Definition NOTES : list pynum := [PyInt 100; PyInt 50; PyInt 25; PyInt 20].
Definition COINS : list pynum :=
  [PyInt 10; PyInt 5; PyInt 1; PyFloat 0.50; PyFloat 0.25; PyFloat 0.10; PyFloat 0.05].

(** [sorted(l, reverse=True)]: a stable sort into descending order. *)
Fixpoint insert_desc (x : pynum) (l : list pynum) : list pynum :=
  match l with
  | [] => [x]
  | y :: rest => if py_lt y x then x :: l else y :: insert_desc x rest
  end.

Definition sorted_reverse (l : list pynum) : list pynum :=
  fold_left (fun acc x => insert_desc x acc) l [].

Abbreviation breakdown := (list (pynum * Z)).

(** The body of the loop of [calculate_change] for one denomination. *)
Definition change_step (st : breakdown * float) (denom : pynum)
  : result (breakdown * float) :=
  let '(change_breakdown, remaining) := st in
  if py_ge (PyFloat remaining) denom then
    q ← float_truediv remaining denom;
    count ← py_int q;
    taken ← int_mul count denom;
    rest ← float_sub remaining taken;
    Ok (dict_set py_eq change_breakdown denom count, round2 rest)
  else Ok (change_breakdown, remaining).

Fixpoint change_loop (denoms : list pynum) (st : breakdown * float)
  : result (breakdown * float) :=
  match denoms with
  | [] => Ok st
  | denom :: rest => st' ← change_step st denom; change_loop rest st'
  end.

(** The denominations in the order of the loop,
    [sorted(NOTES + COINS, reverse=True)]. *)
Definition DENOMINATIONS : list pynum := sorted_reverse (NOTES ++ COINS).

Definition calculate_change (amount : float) : result breakdown :=
  st ← change_loop DENOMINATIONS ([], amount);
  Ok (fst st).

(** ** Text of the responses and of the log *)

Module Fmt.

Definition newline : string := String (ascii_of_nat 10) EmptyString.

(** [", ".join(l)] *)
Fixpoint join (sep : string) (l : list string) : string :=
  match l with
  | [] => EmptyString
  | [x] => x
  | x :: rest => x ++ sep ++ join sep rest
  end.

(** [f"{x:.2f}"] for a [float]. *)
Definition format_2f (x : float) : string :=
  match Prim2SF x with
  | S754_nan => "nan"
  | S754_infinity s => if s then "-inf" else "inf"
  | S754_zero s => if s then "-0.00" else "0.00"
  | S754_finite s m e =>
      let n := sf_cents (S754_finite s m e) in
      let frac := n mod 100 in
      (if s then "-" else EmptyString) ++ pretty (n / 100) ++ "."
        ++ (if frac <? 10 then "0" else EmptyString) ++ pretty frac
  end.

(** [f"{x:.2f}"] for a number. *)
Definition format_num_2f (x : pynum) : result string :=
  match x with
  | PyInt n => f ← float_of_int n; Ok (format_2f f)
  | PyFloat f => Ok (format_2f f)
  end.

(** [str(d)] for a [dict] whose keys are strings / numbers and whose
    values are [int]s. *)
Definition repr_str_dict (d : list (string * Z)) : string :=
  "{" ++ join ", " (map (fun kv : string * Z => ("'" ++ fst kv ++ "': " ++ str_int (snd kv))%string) d) ++ "}".

Definition repr_num_dict (d : list (pynum * Z)) : string :=
  "{" ++ join ", " (map (fun kv : pynum * Z => (py_str (fst kv) ++ ": " ++ str_int (snd kv))%string) d) ++ "}".

End Fmt.
Export Fmt.

(** ** The state of the application *)

(** A row of the table of products ([Product], without its key [id]). *)
Record Product := {
  name : string;
  type : string;
  price : float;
  quantity : Z
}.

(** A row of the table of transactions ([TransactionLog]). *)
Record TransactionLog := {
  date : string;
  time : string;
  amount_inserted_notes : string;
  amount_inserted_coins : string;
  change_returned_notes : string;
  change_returned_coins : string;
  total_amount : float;
  change_amount : float;
  products_purchased : string
}.

(** An entry of [session['current_transaction']]. *)
Record purchase_item := {
  item_product_id : Z;
  item_name : string;
  item_quantity : Z;
  item_price : float;
  item_total : float
}.

(** The three keys that [index] puts into the session. *)
Record session_data := {
  inserted_money : float;
  denominations_inserted : list (string * Z);
  current_transaction : list purchase_item
}.

(** What a request reads and writes: the table of products by [id], the
    table of transactions in the order of insertion, and the session of
    the client ([None] before [index] has initialised it). *)
Record state := {
  products : gmap Z Product;
  transactions : list TransactionLog;
  session : option session_data
}.

Definition set_session (st : state) (s : session_data) : state :=
  {| products := products st; transactions := transactions st; session := Some s |}.

(** [{str(denom): 0 for denom in NOTES + COINS}] *)
Definition zero_counters : list (string * Z) :=
  fold_left (fun d denom => dict_set String.eqb d (py_str denom) 0) (NOTES ++ COINS) [].

Definition fresh_session : session_data :=
  {| inserted_money := 0; denominations_inserted := zero_counters; current_transaction := [] |}.

(** The part of [index] that writes: the session is initialised when it
    has no ['inserted_money']. *)
Definition index (st : state) : state :=
  match session st with
  | Some _ => st
  | None => set_session st fresh_session
  end.

(** ** Responses *)

Inductive purchase_error :=
| InvalidInput
| InvalidProduct
| InsufficientStock (available : Z)
| InsufficientFunds (required : float).

(** The JSON bodies of the three routes, by the data they are built from. *)
Inductive response :=
| Inserted (inserted_money_rounded : float) (amount : float)
| PurchaseError (e : purchase_error)
| Purchased (item_quantity : Z) (item_name : string) (balance : float) (remaining_quantity : Z)
| ChangeReturned (change_amount : float) (change_message : string)
| ThankYou.

Inductive json_value :=
| JString (s : string)
| JNumber (x : pynum).

(** The status and the body of a response, as the handler writes them. *)
Definition render (r : response) : Z * list (string * json_value) :=
  match r with
  | Inserted m amount =>
      (200, [("inserted_money", JNumber (PyFloat m));
             ("message", JString ("Inserted: Rs " ++ format_2f amount))])
  | PurchaseError InvalidInput =>
      (400, [("error", JString "Please enter valid product ID and quantity")])
  | PurchaseError InvalidProduct =>
      (400, [("error", JString "Invalid product ID")])
  | PurchaseError (InsufficientStock available) =>
      (400, [("error", JString ("Insufficient quantity. Only " ++ str_int available ++ " available"))])
  | PurchaseError (InsufficientFunds required) =>
      (400, [("error", JString ("Insufficient funds. Required: Rs " ++ format_2f required))])
  | Purchased q n balance remaining =>
      (200, [("success", JString ("Purchase successful! Purchased " ++ str_int q ++ " x " ++ n
                                   ++ ". Remaining balance: Rs " ++ format_2f balance));
             ("inserted_money", JNumber (PyFloat (round2 balance)));
             ("remaining_quantity", JNumber (PyInt remaining))])
  | ChangeReturned amount message =>
      (200, [("success", JString ("Change returned: Rs " ++ format_2f amount));
             ("change_breakdown", JString message);
             ("inserted_money", JNumber (PyFloat 0))])
  | ThankYou =>
      (200, [("info", JString "Thank you for your purchase!")])
  end.

(** ** The handlers

    A handler maps the form of the request and the state to a response and
    a new state, or raises.  No handler writes before the last point where
    it can raise, so a request that raises leaves the state as it was. *)

Abbreviation handler_result := (result (response * state)).

Definition state_after (st : state) (r : handler_result) : state :=
  match r with
  | Ok (_, st') => st'
  | Raise _ => st
  end.

Definition status_of (r : handler_result) : Z :=
  match r with
  | Ok (resp, _) => fst (render resp)
  | Raise BadRequestKeyError => 400
  | Raise _ => 500
  end.

(** [request.form[key]] *)
Definition form_get (form : gmap string string) (key : string) : result string :=
  match form !! key with
  | Some v => Ok v
  | None => Raise BadRequestKeyError
  end.

(** [session[key]] for one of the three keys of the session. *)
Definition session_get (st : state) : result session_data :=
  match session st with
  | Some s => Ok s
  | None => Raise KeyError
  end.

Definition insert_money (form : gmap string string) (st : state) : handler_result :=
  field ← form_get form "amount";
  amount ← float_of_string field;
  s ← session_get st;
  let inserted := (inserted_money s + amount)%float in
  (* Update denominations *)
  let denom_key := float_repr amount in
  let counters :=
    match dict_get String.eqb (denominations_inserted s) denom_key with
    | Some n => dict_set String.eqb (denominations_inserted s) denom_key (n + 1)
    | None => denominations_inserted s
    end in
  let s' := {| inserted_money := inserted;
               denominations_inserted := counters;
               current_transaction := current_transaction s |} in
  Ok (Inserted (round2 inserted) amount, set_session st s').

(** The product after [product.quantity -= qty]. *)
Definition sold (p : Product) (qty : Z) : Product :=
  {| name := name p; type := type p; price := price p; quantity := quantity p - qty |}.

(** The body of the [try] of [purchase]: the two numbers of the form. *)
Definition purchase_fields (form : gmap string string) : result (Z * Z) :=
  p ← form_get form "product_id";
  product_id ← int_of_string p;
  q ← form_get form "quantity";
  qty ← int_of_string q;
  Ok (product_id, qty).

Definition purchase (form : gmap string string) (st : state) : handler_result :=
  match purchase_fields form with
  | Raise ValueError => Ok (PurchaseError InvalidInput, st)
  | Raise e => Raise e
  | Ok (product_id, qty) =>
      match products st !! product_id with
      | None => Ok (PurchaseError InvalidProduct, st)
      | Some product =>
          if quantity product <? qty then
            Ok (PurchaseError (InsufficientStock (quantity product)), st)
          else
            total_cost ← float_mul_int (price product) qty;
            s ← session_get st;
            if (inserted_money s <? total_cost)%float then
              Ok (PurchaseError (InsufficientFunds total_cost), st)
            else
              (* Process purchase *)
              let product' := sold product qty in
              let purchase_item := {| item_product_id := product_id;
                                      item_name := name product;
                                      item_quantity := qty;
                                      item_price := price product;
                                      item_total := total_cost |} in
              let s' := {| inserted_money := (inserted_money s - total_cost)%float;
                           denominations_inserted := denominations_inserted s;
                           current_transaction := current_transaction s ++ [purchase_item] |} in
              Ok (Purchased qty (name product) (inserted_money s') (quantity product'),
                  {| products := <[product_id := product']> (products st);
                     transactions := transactions st;
                     session := Some s' |})
      end
  end.

(** The lines of [format_change_message]: the denominations of at least
    one unit are notes, the others coins. *)
Fixpoint change_lines (change_breakdown : breakdown) : result (list string * list string) :=
  match change_breakdown with
  | [] => Ok ([], [])
  | (denom, count) :: rest =>
      if py_ge denom (PyInt 1) then
        let line := ("Rs " ++ py_str denom ++ ": " ++ str_int count ++ " note(s)")%string in
        nc ← change_lines rest; Ok (line :: fst nc, snd nc)
      else
        d ← format_num_2f denom;
        let line := ("Rs " ++ d ++ ": " ++ str_int count ++ " coin(s)")%string in
        nc ← change_lines rest; Ok (fst nc, line :: snd nc)
  end.

Definition format_change_message (change_breakdown : breakdown) : result string :=
  nc ← change_lines change_breakdown;
  let message := ("Change breakdown:" ++ newline)%string in
  let message :=
    match fst nc with
    | [] => message
    | notes => (message ++ "Notes: " ++ join ", " notes ++ newline)%string
    end in
  Ok match snd nc with
     | [] => message
     | coins => (message ++ "Coins: " ++ join ", " coins)%string
     end.

(** [{k: v for k, v in d.items() if test(float(k)) and v > 0}] *)
Fixpoint select_inserted (test : float -> bool) (d : list (string * Z))
  : result (list (string * Z)) :=
  match d with
  | [] => Ok []
  | (k, v) :: rest =>
      f ← float_of_string k;
      sel ← select_inserted test rest;
      Ok (if test f && (0 <? v) then (k, v) :: sel else sel)
  end.

(** [sum(float(denom) * count for denom, count in d.items())], the terms
    added from left to right. *)
Fixpoint total_of_counters (acc : float) (d : list (string * Z)) : result float :=
  match d with
  | [] => Ok acc
  | (denom, count) :: rest =>
      f ← float_of_string denom;
      x ← float_mul_int f count;
      total_of_counters (acc + x)%float rest
  end.

(** The row that [log_transaction] adds, from the clock, the session and
    the change breakdown. *)
Definition log_transaction (now : string * string) (s : session_data)
    (change_breakdown : breakdown) : result TransactionLog :=
  (* Format inserted denominations *)
  inserted_notes ← select_inserted (fun f => float_ge_int f 1) (denominations_inserted s);
  inserted_coins ← select_inserted (fun f => float_lt_int f 1) (denominations_inserted s);
  (* Format change denominations *)
  let change_notes :=
    filter (fun kv => Is_true (py_ge (fst kv) (PyInt 1) && (0 <? snd kv))) change_breakdown in
  let change_coins :=
    filter (fun kv => Is_true (py_lt (fst kv) (PyInt 1) && (0 <? snd kv))) change_breakdown in
  (* Calculate total inserted amount *)
  total_inserted ← total_of_counters 0 (denominations_inserted s);
  (* Format products purchased *)
  let purchased :=
    join ", " (map (fun item => (str_int (item_quantity item) ++ "x " ++ item_name item)%string)
                   (current_transaction s)) in
  Ok {| date := fst now;
        time := snd now;
        amount_inserted_notes := repr_str_dict inserted_notes;
        amount_inserted_coins := repr_str_dict inserted_coins;
        change_returned_notes := repr_num_dict change_notes;
        change_returned_coins := repr_num_dict change_coins;
        total_amount := total_inserted;
        change_amount := inserted_money s;
        products_purchased := purchased |}.

Definition add_transaction (st : state) (t : TransactionLog) : state :=
  {| products := products st; transactions := transactions st ++ [t]; session := session st |}.

Definition return_change (now : string * string) (st : state) : handler_result :=
  s ← session_get st;
  if (0 <? inserted_money s)%float then
    change_breakdown ← calculate_change (inserted_money s);
    change_message ← format_change_message change_breakdown;
    (* Log transaction *)
    entry ← log_transaction now s change_breakdown;
    let change_amount := inserted_money s in
    (* Reset session *)
    Ok (ChangeReturned change_amount change_message,
        set_session (add_transaction st entry) fresh_session)
  else
    (* Still log the transaction even if no change *)
    st' ← match current_transaction s with
          | [] => Ok st
          | _ => entry ← log_transaction now s []; Ok (add_transaction st entry)
          end;
    Ok (ThankYou, set_session st' fresh_session).

(** ** The sample data of [create_tables]

    The prices are written as [int]s and are stored in a column of
    floats. *)
Definition sample_products : list (Z * Product) :=
  [(1, {| name := "sando"; type := "cake"; price := 15; quantity := 10 |});
   (2, {| name := "lays"; type := "cake"; price := 20; quantity := 8 |});
   (3, {| name := "m&m"; type := "cake"; price := 30; quantity := 5 |});
   (4, {| name := "Coca Cola"; type := "drink"; price := 50; quantity := 15 |});
   (5, {| name := "Sprite"; type := "drink"; price := 45; quantity := 12 |});
   (6, {| name := "water"; type := "drink"; price := 25; quantity := 10 |})].

Definition create_tables (st : state) : state :=
  if decide (size (products st) = 0%nat) then
    {| products := list_to_map sample_products;
       transactions := transactions st;
       session := session st |}
  else st.

(** The state of a new installation after the first visit of a client. *)
Definition initial_state : state :=
  index (create_tables {| products := ∅; transactions := []; session := None |}).

(** A form with the given fields. *)
Definition form_of (fields : list (string * string)) : gmap string string :=
  list_to_map fields.

(** The decimal text of -10^400. *)
Definition minus_ten_pow_400 : string :=
  String.append "-1" (String.concat EmptyString (repeat "0000000000"%string 40)).

(** The state with the balance of the session set to [m]. *)
Definition with_balance (st : state) (m : float) : state :=
  match session st with
  | Some s => set_session st {| inserted_money := m;
                                denominations_inserted := denominations_inserted s;
                                current_transaction := current_transaction s |}
  | None => st
  end.

(** States of the examples: the new installation with a balance. *)
Definition state_70 : state := with_balance initial_state 70.
Definition state_55 : state := with_balance initial_state 55.

(** The state after a purchase that uses up a balance of 15. *)
Definition state_paid : state :=
  state_after (with_balance initial_state 15)
    (purchase (form_of [("product_id", "1"); ("quantity", "1")])
              (with_balance initial_state 15)).

(** The state after the note of 100 has been inserted into a new session. *)
Definition state_note : state :=
  state_after initial_state (insert_money (form_of [("amount", "100")]) initial_state).

(** The forms of the examples. *)
Definition two_sandos : gmap string string :=
  form_of [("product_id", "1"); ("quantity", "2")].

Definition sando : Product :=
  {| name := "sando"; type := "cake"; price := 15; quantity := 10 |}.

(** The scenario of the specification: insert 50, insert 20, buy one
    product 1, ask for the change. *)
Definition scenario_inserted : state :=
  let st1 := state_after initial_state
               (insert_money (form_of [("amount", "50")]) initial_state) in
  state_after st1 (insert_money (form_of [("amount", "20")]) st1).

Definition scenario_purchased : state :=
  state_after scenario_inserted
    (purchase (form_of [("product_id", "1"); ("quantity", "1")]) scenario_inserted).

Definition scenario_returned : handler_result :=
  return_change ("2024-01-01", "10:00:00")%string scenario_purchased.

(** The counters of a session of the application: every key is the text
    of a denomination and every count is a natural number below [2^53]. *)
Definition counters_ok (d : list (string * Z)) : Prop :=
  Forall (fun kv => In (fst kv) (map fst zero_counters) /\ 0 <= snd kv < two53) d.

(** The text contains a character that is not a digit. *)
Fixpoint has_non_digit (s : string) : bool :=
  match s with
  | EmptyString => false
  | String c rest =>
      match digit_of c with
      | Some _ => has_non_digit rest
      | None => true
      end
  end.

(** ** Exact values

    A finite binary64 value is a dyadic number [m * 2^e]; the amounts are
    compared with the sums of the breakdowns as exact numbers. *)

Module Exact.

Definition dyadic := (Z * Z)%type.

Definition dy_of_float (x : float) : dyadic :=
  match Prim2SF x with
  | S754_finite s m e => (if s then Z.neg m else Z.pos m, e)
  | _ => (0, 0)
  end.

Definition dy_of_num (d : pynum) : dyadic :=
  match d with
  | PyInt n => (n, 0)
  | PyFloat f => dy_of_float f
  end.

Definition dy_add (a b : dyadic) : dyadic :=
  let e := Z.min (snd a) (snd b) in
  (Z.shiftl (fst a) (snd a - e) + Z.shiftl (fst b) (snd b - e), e).

Definition dy_scale (c : Z) (a : dyadic) : dyadic := (c * fst a, snd a).

Definition dy_sub (a b : dyadic) : dyadic := dy_add a (dy_scale (-1) b).

(** [0 < a] *)
Definition dy_pos (a : dyadic) : bool := 0 <? fst a.

(** [|a| <= 1/100] *)
Definition dy_within_cent (a : dyadic) : bool :=
  if 0 <=? snd a then Z.shiftl (100 * Z.abs (fst a)) (snd a) <=? 1
  else 100 * Z.abs (fst a) <=? Z.shiftl 1 (- snd a).

(** [sum(denomination * count)] over a breakdown, exactly. *)
Definition breakdown_total (bd : breakdown) : dyadic :=
  fold_left (fun acc dc => dy_add acc (dy_scale (snd dc) (dy_of_num (fst dc)))) bd (0, 0).

(** The sum of the breakdown equals the amount within 0.01. *)
Definition sums_to (bd : breakdown) (amount : float) : bool :=
  dy_within_cent (dy_sub (breakdown_total bd) (dy_of_float amount)).

(** The sum of the breakdown is strictly below the amount. *)
Definition sums_below (bd : breakdown) (amount : float) : bool :=
  dy_pos (dy_sub (dy_of_float amount) (breakdown_total bd)).

End Exact.
Export Exact.

(** ** Amounts that are sums of denominations

    In hundredths the denominations are whole numbers; an amount of [c]
    hundredths is a sum of denominations when [c] is a combination of them
    with non-negative counts.  The amount itself is the float nearest to
    [c / 100]. *)

Definition denomination_cents (d : pynum) : Z :=
  match d with
  | PyInt n => 100 * n
  | PyFloat f => sf_cents (Prim2SF f)
  end.

Definition DENOMINATION_CENTS : list Z := map denomination_cents DENOMINATIONS.

Fixpoint combination (counts values : list Z) : Z :=
  match counts, values with
  | c :: counts', v :: values' => c * v + combination counts' values'
  | _, _ => 0
  end.

Definition expressible (c : Z) : Prop :=
  exists counts : list Z,
    length counts = length DENOMINATION_CENTS /\
    Forall (fun n => 0 <= n) counts /\
    c = combination counts DENOMINATION_CENTS.

(** The claim on the change of an amount of [c] hundredths. *)
Definition change_sums_to_amount (c : Z) : Prop :=
  exists bd, calculate_change (float_of_cents c) = Ok bd /\ sums_to bd (float_of_cents c) = true.

(** As a test that computes. *)
Definition change_ok (c : Z) : bool :=
  match calculate_change (float_of_cents c) with
  | Ok bd => sums_to bd (float_of_cents c)
  | Raise _ => false
  end.

(** [change_ok] on the [k] multiples of five hundredths from [5 * n] on. *)
Fixpoint change_ok_from (k : nat) (n : Z) : bool :=
  match k with
  | O => true
  | S k' => change_ok (5 * n) && change_ok_from k' (n + 1)
  end.

(** The amounts up to this many hundredths (1000.00) are checked one by
    one. *)
Definition CHECKED_CENTS : Z := 100000.

(** ** The procedure as the specification words it

    "Iterate denominations in strictly descending order; at each
    denomination [d], take [count = floor(remaining / d)], record if
    [count > 0], set [remaining = round(remaining - count*d, 2)]." *)

(** [math.floor(x)] *)
Definition py_floor (x : float) : result Z :=
  match Prim2SF x with
  | S754_nan => Raise ValueError
  | S754_infinity _ => Raise OverflowError
  | sx => Ok (sf_floor sx)
  end.

Definition spec_change_step (st : breakdown * float) (d : pynum)
  : result (breakdown * float) :=
  let '(bd, remaining) := st in
  q ← float_truediv remaining d;
  count ← py_floor q;
  taken ← int_mul count d;
  rest ← float_sub remaining taken;
  Ok (if 0 <? count then dict_set py_eq bd d count else bd, round2 rest).

Fixpoint spec_change_loop (denoms : list pynum) (st : breakdown * float)
  : result (breakdown * float) :=
  match denoms with
  | [] => Ok st
  | d :: rest => st' ← spec_change_step st d; spec_change_loop rest st'
  end.

Definition spec_calculate_change (amount : float) : result breakdown :=
  st ← spec_change_loop DENOMINATIONS ([], amount);
  Ok (fst st).

(** ** The loop of the code as a relation

    [greedy denoms remaining bd]: going through [denoms] from the
    remainder [remaining] yields the entries [bd], in this order.  A
    denomination that the remainder does not reach is skipped and leaves
    the remainder as it is; a denomination that it reaches is recorded
    with a count of at least one, [int(remaining / d)], and the remainder
    becomes [round(remaining - count * d, 2)]. *)
Inductive greedy : list pynum -> float -> breakdown -> Prop :=
| greedy_done remaining :
    greedy [] remaining []
| greedy_skip d denoms remaining bd :
    py_ge (PyFloat remaining) d = false ->
    greedy denoms remaining bd ->
    greedy (d :: denoms) remaining bd
| greedy_take d denoms remaining q count taken rest bd :
    py_ge (PyFloat remaining) d = true ->
    float_truediv remaining d = Ok q ->
    py_int q = Ok count ->
    1 <= count ->
    int_mul count d = Ok taken ->
    float_sub remaining taken = Ok rest ->
    greedy denoms (round2 rest) bd ->
    greedy (d :: denoms) remaining ((d, count) :: bd).

(** The keys of a list are pairwise different as Python numbers. *)
Fixpoint distinct_keys (l : list pynum) : bool :=
  match l with
  | [] => true
  | d :: rest => forallb (fun k => negb (py_eq d k) && negb (py_eq k d)) rest && distinct_keys rest
  end.

(** A denomination that is a positive finite float [df], or an [int] that
    converts to it exactly: dividing by the denomination is the division by
    [df] and reaching the denomination is the comparison with [df]. *)
Definition positive_denomination (d : pynum) : Prop :=
  exists df md ed,
    Prim2SF df = S754_finite false md ed /\
    (forall r, float_truediv r d = Ok (r / df)%float) /\
    (forall r, py_ge (PyFloat r) d = (df <=? r)%float).

(** Each element of the list is strictly below the one before it. *)
Fixpoint strictly_descending (l : list pynum) : bool :=
  match l with
  | a :: (b :: _) as rest => py_lt b a && negb (py_ge b a) && strictly_descending rest
  | _ => true
  end.

(** ** Notions for the lemmas on binary64 arithmetic *)

Abbreviation fexp64 := (fexp prec emax).
Abbreviation emin64 := (SpecFloat.emin prec emax).

(** The number of places by which [shr_fexp] shifts. *)
Definition shift_of (m e : Z) : Z := Z.max 0 (fexp64 (Zdigits2 m + e) - e).

(** [m * 2^e] is at least [2^k], and [m] is at least one. *)
Definition ge_pow2 (m e k : Z) : Prop := 1 <= m /\ (e <= k -> 2 ^ (k - e) <= m).

(** The sign of a result: a NaN has none. *)
Definition sign_is (s : bool) (x : spec_float) : Prop :=
  match x with
  | S754_zero s' | S754_infinity s' | S754_finite s' _ _ => s' = s
  | S754_nan => True
  end.


(** ** The routes of the administrator

    [update_product], [add_product] and [delete_product] end with
    [flash(message, category)] and a redirection to the page of the
    administrator: the flashed message is their response.  The table of
    products keeps what it is given; the limits that the database sets on
    the types of its columns are not part of the application. *)

Inductive admin_response :=
| Flash (message category : string).

Abbreviation admin_result := (result (admin_response * state)).

(** The state with the table of products replaced. *)
Definition set_products (st : state) (table : gmap Z Product) : state :=
  {| products := table; transactions := transactions st; session := session st |}.

(** The state after a request that may have raised. *)
Definition admin_state_after (st : state) (r : admin_result) : state :=
  match r with
  | Ok (_, st') => st'
  | Raise _ => st
  end.

(** The body of the [try] of [update_product]: the five fields of the
    form, read in this order. *)
Definition update_fields (form : gmap string string) : result (Z * Product) :=
  p ← form_get form "product_id";
  product_id ← int_of_string p;
  new_name ← form_get form "name";
  product_type ← form_get form "type";
  pr ← form_get form "price";
  new_price ← float_of_string pr;
  q ← form_get form "quantity";
  new_quantity ← int_of_string q;
  Ok (product_id,
      {| name := new_name; type := product_type; price := new_price;
         quantity := new_quantity |}).

Definition update_product (form : gmap string string) (st : state) : admin_result :=
  match update_fields form with
  | Raise ValueError => Ok (Flash "Please enter valid values for all fields" "error", st)
  | Raise e => Raise e
  | Ok (product_id, updated) =>
      match products st !! product_id with
      | Some _ =>
          Ok (Flash "Product updated successfully!" "success",
              set_products st (<[product_id := updated]> (products st)))
      | None => Ok (Flash "Product not found!" "error", st)
      end
  end.

(** The body of the [try] of [add_product]. *)
Definition add_fields (form : gmap string string) : result Product :=
  new_name ← form_get form "new_name";
  product_type ← form_get form "new_type";
  pr ← form_get form "new_price";
  new_price ← float_of_string pr;
  q ← form_get form "new_quantity";
  new_quantity ← int_of_string q;
  Ok {| name := new_name; type := product_type; price := new_price;
        quantity := new_quantity |}.

(** [db.session.query(db.func.max(Product.id)).scalar()]: the greatest
    [id] of the table, [None] when the table is empty. *)
Definition max_id (table : gmap Z Product) : option Z :=
  foldr (fun row acc => Some match acc with
                             | Some m => Z.max row.1 m
                             | None => row.1
                             end)
        None (map_to_list table).

(** [(max_id or 0) + 1]: [None] and [0] are both false. *)
Definition next_id (table : gmap Z Product) : Z :=
  match max_id table with
  | Some m => if m =? 0 then 0 else m
  | None => 0
  end + 1.

Definition add_product (form : gmap string string) (st : state) : admin_result :=
  match add_fields form with
  | Raise ValueError => Ok (Flash "Please enter valid values for all fields" "error", st)
  | Raise e => Raise e
  | Ok new_product =>
      (* Get next available ID *)
      let new_id := next_id (products st) in
      Ok (Flash ("Product added successfully with ID: " ++ str_int new_id) "success",
          set_products st (<[new_id := new_product]> (products st)))
  end.

Definition delete_product (product_id : Z) (st : state) : admin_response * state :=
  match products st !! product_id with
  | Some _ =>
      (Flash "Product deleted successfully!" "success",
       set_products st (delete product_id (products st)))
  | None => (Flash "Product not found!" "error", st)
  end.



(** ** Sequences of requests

    The requests of the routes that write, and the state after each of
    them: a request whose handler raises leaves the state as it was. *)

Inductive request :=
| GetIndex
| PostInsertMoney (form : gmap string string)
| PostPurchase (form : gmap string string)
| PostReturnChange (now : string * string)
| PostUpdateProduct (form : gmap string string)
| PostAddProduct (form : gmap string string)
| GetDeleteProduct (product_id : Z).

Definition handle (req : request) (st : state) : state :=
  match req with
  | GetIndex => index st
  | PostInsertMoney form => state_after st (insert_money form st)
  | PostPurchase form => state_after st (purchase form st)
  | PostReturnChange now => state_after st (return_change now st)
  | PostUpdateProduct form => admin_state_after st (update_product form st)
  | PostAddProduct form => admin_state_after st (add_product form st)
  | GetDeleteProduct product_id => (delete_product product_id st).2
  end.

Definition run (reqs : list request) (st : state) : state :=
  fold_left (fun st req => handle req st) reqs st.



(** The state of a new installation before the first visit of a client,
    and the form of the amount "nan". *)
Definition boot_state : state :=
  create_tables {| products := ∅; transactions := []; session := None |}.


(** A session in which a note of 100 and a note of 50 were inserted and
    one product 1 was bought, and then the change was asked for. *)
Definition notes_session : list request :=
  [GetIndex;
   PostInsertMoney (form_of [("amount", "100")]);
   PostInsertMoney (form_of [("amount", "50")]);
   PostPurchase (form_of [("product_id", "1"); ("quantity", "1")]);
   PostReturnChange ("2024-01-01", "10:00:00")%string].

(** The counters of a session in which no note and no coin of 10, 5 or 1
    is counted: the keys are those of [index], and the count of every key
    that is the text of an [int] is zero. *)
Definition integer_keys_at_zero (d : list (string * Z)) : Prop :=
  map fst d = map fst zero_counters /\
  Forall (fun kv => has_non_digit kv.1 = false -> kv.2 = 0) d.

Definition session_uncounted (st : state) : Prop :=
  match session st with
  | Some s => integer_keys_at_zero (denominations_inserted s)
  | None => True
  end.

Definition no_inserted_notes (st : state) : Prop :=
  Forall (fun t => amount_inserted_notes t = "{}"%string) (transactions st).

(** A session with a balance of 123456789.99. *)
Definition state_rich : state := with_balance initial_state 123456789.99.


(** ** The change in exact arithmetic

    The greedy breakdown of a whole number of hundredths, computed on
    integers: the largest denomination first, each taken as often as it
    fits.  A breakdown of the program is compared with it through the
    values of its denominations in hundredths. *)

Fixpoint greedy_cents (values : list Z) (c : Z) : list (Z * Z) :=
  match values with
  | [] => []
  | v :: rest =>
      if v <=? c then (v, c / v) :: greedy_cents rest (c mod v) else greedy_cents rest c
  end.

Definition in_cents (bd : breakdown) : list (Z * Z) :=
  map (fun dc => (denomination_cents dc.1, dc.2)) bd.

(** The value of a breakdown in hundredths and the number of its notes
    and coins. *)
Definition cents_total (l : list (Z * Z)) : Z :=
  fold_right (fun vc acc => vc.1 * vc.2 + acc) 0 l.

Definition pieces (l : list (Z * Z)) : Z :=
  fold_right (fun vc acc => vc.2 + acc) 0 l.

Fixpoint cents_eqb (a b : list (Z * Z)) : bool :=
  match a, b with
  | [], [] => true
  | x :: a', y :: b' => (x.1 =? y.1) && (x.2 =? y.2) && cents_eqb a' b'
  | _, _ => false
  end.

(** [calculate_change] on [c] hundredths gives the greedy breakdown, and
    the breakdown adds up to [c] less what is left of it below five
    hundredths. *)
Definition change_exact (c : Z) : bool :=
  match calculate_change (float_of_cents c) with
  | Ok bd =>
      cents_eqb (in_cents bd) (greedy_cents DENOMINATION_CENTS c)
      && (cents_total (in_cents bd) =? c - c mod 5)
  | Raise _ => false
  end.

Fixpoint change_exact_from (k : nat) (n : Z) : bool :=
  match k with
  | O => true
  | S k' => change_exact n && change_exact_from k' (n + 1)
  end.

(** Every amount up to this many hundredths (100.00) is checked. *)
Definition CHECKED_EVERY_CENT : Z := 10000.

(** The header of the message of [format_change_message]. *)
Definition change_header : string := "Change breakdown:" ++ newline.

(** The entries of a breakdown that [log_transaction] writes as notes
    and as coins. *)
Definition logged_notes (bd : breakdown) : breakdown :=
  filter (fun kv => Is_true (py_ge kv.1 (PyInt 1) && (0 <? kv.2))) bd.

Definition logged_coins (bd : breakdown) : breakdown :=
  filter (fun kv => Is_true (py_lt kv.1 (PyInt 1) && (0 <? kv.2))) bd.

(** A session with a balance of 0.04 and no counted coin. *)
Definition state_4_cents : state := with_balance initial_state 0.04.




(** A request that inserts no amount below zero. *)
Definition inserts_no_negative (req : request) : bool :=
  match req with
  | PostInsertMoney form =>
      match form !! "amount"%string with
      | Some field =>
          match float_of_string field with
          | Ok amount => negb (amount <? 0)%float
          | Raise _ => true
          end
      | None => true
      end
  | _ => true
  end.

(** The balance of the session, if there is one, is not below zero. *)
Definition balance_not_negative (st : state) : Prop :=
  match session st with
  | Some s => (inserted_money s <? 0)%float = false
  | None => True
  end.

(** ** Magnitudes

    [below_pow2 k x]: [x] is a zero or a finite float of absolute value
    below [2^k]. *)
Definition below_pow2 (k : Z) (x : spec_float) : Prop :=
  match x with
  | S754_zero _ => True
  | S754_finite _ m e => Zdigits2 (Z.pos m) + e <= k
  | _ => False
  end.

(** The float [df] by which [calculate_change] divides for the
    denomination [d]: a positive float between 0.05 and 100, equal to the
    denomination. *)
Definition denomination_float (d : pynum) (df : float) : Prop :=
  exists md ed,
    Prim2SF df = S754_finite false md ed /\
    -4 <= Zdigits2 (Z.pos md) + ed <= 7 /\
    (forall r, float_truediv r d = Ok (r / df)%float) /\
    (forall r, py_ge (PyFloat r) d = (df <=? r)%float) /\
    match d with
    | PyInt n => 1 <= n <= 100
    | PyFloat f => f = df
    end.

(** The amounts below this bound are shown to have a breakdown. *)
Definition CHANGE_BOUND : float := 1e200.

(** * Properties *)

(** One step of a computation in the error monad. *)
Tactic Notation "step_bind" := cbn [mbind result_bind mret result_ret].
Tactic Notation "step_bind" "in" hyp(H) := cbn [mbind result_bind mret result_ret] in H.

(** ** Binary64 arithmetic

    Lemmas on the operations of the specification of binary64
    ([SpecFloat]), which the axioms of the primitive floats relate to the
    primitive operations. *)

Module FloatFacts.

Lemma digits2_size p : digits2_pos p = Pos.size p.
Proof. induction p; simpl; congruence. Qed.

Lemma digits_bounds p :
  2 ^ (Z.pos (digits2_pos p) - 1) <= Z.pos p < 2 ^ Z.pos (digits2_pos p).
Proof.
  rewrite digits2_size. split.
  - pose proof (Pos.size_le p) as H.
    assert (Hs : 1 <= Z.pos (Pos.size p)) by lia.
    assert (2 ^ Z.pos (Pos.size p) <= 2 * Z.pos p).
    { change (2 * Z.pos p) with (Z.pos (p~0)). rewrite <- Pos2Z.inj_pow. apply Pos2Z.pos_le_pos, H. }
    replace (Z.pos (Pos.size p)) with (Z.succ (Z.pos (Pos.size p) - 1)) in H0 by lia.
    rewrite Z.pow_succ_r in H0 by lia. lia.
  - pose proof (Pos.size_gt p) as H.
    rewrite <- Pos2Z.inj_pow. apply Pos2Z.pos_lt_pos, H.
Qed.

Lemma Zdigits2_bounds m : 0 < m -> 2 ^ (Zdigits2 m - 1) <= m < 2 ^ Zdigits2 m.
Proof. destruct m; try lia. intros _. apply digits_bounds. Qed.

Lemma Zdigits2_le m k : 0 <= m -> 0 <= k -> m < 2 ^ k -> Zdigits2 m <= k.
Proof.
  intros Hm Hk Hlt. destruct (Z.eq_dec m 0) as [->|Hne]; [simpl; lia|].
  destruct (Zdigits2_bounds m ltac:(lia)) as [Hlo _].
  destruct (Z_le_gt_dec (Zdigits2 m) k) as [|Hgt]; [assumption|].
  assert (2 ^ k <= 2 ^ (Zdigits2 m - 1)) by (apply Z.pow_le_mono_r; lia).
  lia.
Qed.

(** Shifting the mantissa of a record to the right. *)
Lemma shr_1_m r : 0 <= shr_m r -> shr_m (shr_1 r) = shr_m r / 2.
Proof.
  destruct r as [m rb sb]. simpl. intros Hm.
  destruct m as [|p|p]; [reflexivity| |lia].
  destruct p; simpl.
  - rewrite Pos2Z.inj_xI. apply Z.div_unique with 1; lia.
  - rewrite Pos2Z.inj_xO. apply Z.div_unique with 0; lia.
  - reflexivity.
Qed.

Lemma iter_shr_1_m p : forall r,
  0 <= shr_m r -> shr_m (SpecFloat.iter_pos shr_1 p r) = shr_m r / 2 ^ Z.pos p.
Proof.
  assert (Hnn : forall r, 0 <= shr_m r -> 0 <= shr_m (shr_1 r)).
  { intros r Hr. rewrite shr_1_m by assumption. apply Z.div_pos; lia. }
  induction p as [p IH|p IH|]; intros r Hr; cbn [SpecFloat.iter_pos].
  - assert (H1 := Hnn r Hr).
    assert (H2 : 0 <= shr_m (SpecFloat.iter_pos shr_1 p (shr_1 r))).
    { rewrite IH by assumption. apply Z.div_pos; [assumption|]. apply Z.pow_pos_nonneg; lia. }
    rewrite IH by assumption. rewrite IH by assumption. rewrite shr_1_m by assumption.
    rewrite !Z.div_div by (try apply Z.pow_pos_nonneg; lia).
    f_equal. change 2 with (2 ^ 1) at 1.
    rewrite <- !Z.pow_add_r by lia. f_equal. lia.
  - assert (H2 : 0 <= shr_m (SpecFloat.iter_pos shr_1 p r)).
    { rewrite IH by assumption. apply Z.div_pos; [assumption|]. apply Z.pow_pos_nonneg; lia. }
    rewrite IH by assumption. rewrite IH by assumption.
    rewrite !Z.div_div by (try apply Z.pow_pos_nonneg; lia).
    f_equal. rewrite <- !Z.pow_add_r by lia. f_equal. lia.
  - rewrite shr_1_m by assumption. reflexivity.
Qed.

Lemma shr_fexp_m m e l :
  0 <= m ->
  shr_m (fst (shr_fexp prec emax m e l)) = m / 2 ^ shift_of m e /\
  snd (shr_fexp prec emax m e l) = e + shift_of m e.
Proof.
  intros Hm. unfold shr_fexp, shr, shift_of.
  assert (Hrec : shr_m (shr_record_of_loc m l) = m).
  { destruct l as [|[]]; reflexivity. }
  destruct (fexp64 (Zdigits2 m + e) - e) as [|p|p] eqn:Hn; simpl.
  - rewrite Hrec, Z.div_1_r. split; [reflexivity|lia].
  - rewrite iter_shr_1_m by (rewrite Hrec; assumption).
    rewrite Hrec. split; [reflexivity|lia].
  - rewrite Hrec, Z.div_1_r. split; [reflexivity|lia].
Qed.

Lemma round_nearest_even_bounds m l :
  m <= round_nearest_even m l <= m + 1.
Proof.
  unfold round_nearest_even. destruct l as [|[]]; try lia.
  destruct (Z.even m); lia.
Qed.

(** The shape of the result of [binary_round_aux]. *)
Lemma binary_round_aux_shape s mx ex lx :
  0 <= mx ->
  exists m2,
    mx / 2 ^ shift_of mx ex <= m2 <= mx / 2 ^ shift_of mx ex + 1 /\
    binary_round_aux prec emax s mx ex lx =
      let e1 := ex + shift_of mx ex in
      match m2 / 2 ^ shift_of m2 e1 with
      | Z0 => S754_zero s
      | Z.pos m => if e1 + shift_of m2 e1 <=? emax - prec
                   then S754_finite s m (e1 + shift_of m2 e1) else S754_infinity s
      | Z.neg _ => S754_nan
      end.
Proof.
  intros Hm. unfold binary_round_aux.
  destruct (shr_fexp_m mx ex lx Hm) as [Hm1 He1].
  destruct (shr_fexp prec emax mx ex lx) as [mrs' e'] eqn:H1. simpl in Hm1, He1.
  set (m2 := round_nearest_even (shr_m mrs') (loc_of_shr_record mrs')).
  assert (Hm2 : shr_m mrs' <= m2 <= shr_m mrs' + 1) by apply round_nearest_even_bounds.
  assert (Hm1nn : 0 <= shr_m mrs').
  { rewrite Hm1. apply Z.div_pos; [assumption|]. apply Z.pow_pos_nonneg; [lia|]. unfold shift_of; lia. }
  destruct (shr_fexp_m m2 e' loc_Exact ltac:(lia)) as [Hm3 He3].
  destruct (shr_fexp prec emax m2 e' loc_Exact) as [mrs'' e''] eqn:H2. simpl in Hm3, He3.
  exists m2. rewrite <- Hm1. split; [exact Hm2|].
  cbv zeta. rewrite <- He1, <- Hm3, <- He3. reflexivity.
Qed.

Lemma ge_pow2_mono m m' e k : ge_pow2 m e k -> m <= m' -> ge_pow2 m' e k.
Proof. intros [H1 H2] Hle. split; [lia|]. intros He. specialize (H2 He). lia. Qed.

Lemma shift_ge_pow2 m e k :
  emin64 <= k -> ge_pow2 m e k ->
  ge_pow2 (m / 2 ^ shift_of m e) (e + shift_of m e) k.
Proof.
  intros Hk [Hm Hpow]. unfold shift_of, fexp, SpecFloat.emin, prec, emax in *.
  destruct (Zdigits2_bounds m ltac:(lia)) as [Hlo _].
  set (d := Zdigits2 m) in *.
  set (n := Z.max 0 (Z.max (d + e - 53) (3 - 1024 - 53) - e)).
  assert (Hn0 : 0 <= n) by lia.
  destruct (Z.eq_dec n 0) as [Hz|Hnz].
  { rewrite Hz, Z.div_1_r, Z.add_0_r. split; assumption. }
  assert (Hpn : 0 < 2 ^ n) by (apply Z.pow_pos_nonneg; lia).
  assert (Hge : 2 ^ n <= m).
  { destruct (Z_le_gt_dec (3 - 1024 - 53) (d + e - 53)).
    - assert (n = d - 53) by lia.
      transitivity (2 ^ (d - 1)); [apply Z.pow_le_mono_r; lia|assumption].
    - assert (n = 3 - 1024 - 53 - e) by lia.
      transitivity (2 ^ (k - e)); [apply Z.pow_le_mono_r; lia|apply Hpow; lia]. }
  split.
  - apply Z.div_le_lower_bound; lia.
  - intros He. apply Z.div_le_lower_bound; [lia|].
    rewrite <- Z.pow_add_r by lia.
    replace (n + (k - (e + n))) with (k - e) by lia. apply Hpow. lia.
Qed.

Lemma binary_round_aux_sign s mx ex lx :
  sign_is s (binary_round_aux prec emax s mx ex lx).
Proof.
  unfold binary_round_aux.
  destruct (shr_fexp prec emax mx ex lx) as [mrs' e'].
  destruct (shr_fexp prec emax _ e' loc_Exact) as [mrs'' e''].
  destruct (shr_m mrs''); try reflexivity.
  destruct (e'' <=? emax - prec); reflexivity.
Qed.


Lemma binary_round_sign s m e : sign_is s (binary_round prec emax s m e).
Proof.
  unfold binary_round. destruct (shl_align m e _) as [mz ez].
  apply binary_round_aux_sign.
Qed.

Lemma binary_normalize_nonneg m e : 0 <= m -> sign_is false (binary_normalize prec emax m e false).
Proof.
  destruct m; simpl; intros H; [reflexivity|apply binary_round_sign|lia].
Qed.

(** Rounding does not go below a power of two that the value reaches. *)
Lemma binary_round_aux_ge s mx ex lx k :
  emin64 <= k -> ge_pow2 mx ex k ->
  match binary_round_aux prec emax s mx ex lx with
  | S754_finite s' m e => s' = s /\ ge_pow2 (Z.pos m) e k
  | S754_infinity s' => s' = s
  | _ => False
  end.
Proof.
  intros Hk Hge.
  destruct (binary_round_aux_shape s mx ex lx) as (m2 & Hm2 & ->); [destruct Hge; lia|].
  cbv zeta.
  pose proof (shift_ge_pow2 _ _ _ Hk Hge) as H1.
  pose proof (ge_pow2_mono _ m2 _ _ H1 ltac:(lia)) as H2.
  pose proof (shift_ge_pow2 _ _ _ Hk H2) as H3.
  destruct (m2 / 2 ^ shift_of m2 (ex + shift_of mx ex)) as [|m|m] eqn:Hm3.
  - destruct H3; lia.
  - destruct (_ <=? emax - prec); [split; [reflexivity|exact H3]|reflexivity].
  - destruct H3; lia.
Qed.

(** Rounding a value below [2^1023] does not overflow. *)
Lemma binary_round_aux_finite s mx ex lx :
  0 <= mx -> ex <= 970 -> Zdigits2 mx + ex <= 1023 ->
  forall s', binary_round_aux prec emax s mx ex lx <> S754_infinity s'.
Proof.
  intros Hm Hex Hd s'.
  destruct (binary_round_aux_shape s mx ex lx Hm) as (m2 & Hm2 & ->).
  cbv zeta.
  set (n1 := shift_of mx ex) in *. set (e1 := ex + n1).
  assert (Hn1 : 0 <= n1 /\ Zdigits2 mx - 53 <= n1 /\ -1074 <= e1 <= 970).
  { unfold e1, n1, shift_of, fexp, SpecFloat.emin, prec, emax. lia. }
  assert (Hm1 : mx / 2 ^ n1 < 2 ^ 53).
  { apply Z.div_lt_upper_bound; [apply Z.pow_pos_nonneg; lia|].
    rewrite <- Z.pow_add_r by lia.
    destruct (Z.eq_dec mx 0) as [->|]; [apply Z.pow_pos_nonneg; lia|].
    destruct (Zdigits2_bounds mx ltac:(lia)) as [_ Hhi].
    eapply Z.lt_le_trans; [exact Hhi|]. apply Z.pow_le_mono_r; lia. }
  assert (H0m1 : 0 <= mx / 2 ^ n1) by (apply Z.div_pos; [lia|apply Z.pow_pos_nonneg; lia]).
  assert (Hd2 : Zdigits2 m2 <= 54).
  { apply Zdigits2_le; lia. }
  assert (Hn2 : shift_of m2 e1 <= 1).
  { unfold shift_of, fexp, SpecFloat.emin, prec, emax. lia. }
  destruct (m2 / 2 ^ shift_of m2 e1); try discriminate.
  destruct (e1 + shift_of m2 e1 <=? emax - prec) eqn:Hle; [discriminate|].
  apply Z.leb_gt in Hle. unfold emax, prec in Hle. lia.
Qed.

(** *** Alignment and comparison of finite values *)

Lemma iter_xO m d : Z.pos (Pos.iter xO m d) = Z.pos m * 2 ^ Z.pos d.
Proof.
  induction d as [|d IH] using Pos.peano_ind.
  - cbn [Pos.iter]. change (2 ^ 1) with 2. lia.
  - rewrite Pos.iter_succ, Pos2Z.inj_xO, IH, Pos2Z.inj_succ, Z.pow_succ_r by lia. ring.
Qed.

Lemma shl_align_fst m e e' :
  e' <= e -> Z.pos (fst (shl_align m e e')) = Z.pos m * 2 ^ (e - e').
Proof.
  intros Hle. unfold shl_align.
  destruct (e' - e) as [|d|d] eqn:Hd; simpl.
  - replace (e - e') with 0 by lia. rewrite Z.pow_0_r. lia.
  - lia.
  - rewrite iter_xO. replace (e - e') with (Z.pos d) by lia. reflexivity.
Qed.

Lemma bounded_facts m e :
  bounded prec emax m e = true ->
  Z.pos (digits2_pos m) <= 53 /\ -1074 <= e <= 971 /\
  (-1074 < e -> Z.pos (digits2_pos m) = 53).
Proof.
  unfold bounded, canonical_mantissa, fexp, SpecFloat.emin, prec, emax.
  intros H. apply andb_true_iff in H as [H1 H2].
  apply Z.eqb_eq in H1. apply Z.leb_le in H2. lia.
Qed.

Lemma bounded_mantissa m e :
  bounded prec emax m e = true ->
  Z.pos m < 2 ^ 53 /\ (-1074 < e -> 2 ^ 52 <= Z.pos m).
Proof.
  intros H. destruct (bounded_facts m e H) as (Hd & _ & Hn).
  destruct (digits_bounds m) as [Hlo Hhi]. split.
  - eapply Z.lt_le_trans; [exact Hhi|]. apply Z.pow_le_mono_r; lia.
  - intros He. rewrite (Hn He) in Hlo. exact Hlo.
Qed.

(** The order of two positive finite floats is the order of their
    mantissas once aligned on the smaller exponent. *)
Lemma compare_finite_pos mx ex my ey :
  bounded prec emax mx ex = true -> bounded prec emax my ey = true ->
  SFcompare (S754_finite false mx ex) (S754_finite false my ey)
  = Some (Z.pos mx * 2 ^ (ex - Z.min ex ey) ?= Z.pos my * 2 ^ (ey - Z.min ex ey)).
Proof.
  intros Hx Hy. cbn [SFcompare]. f_equal.
  destruct (bounded_mantissa _ _ Hx) as [Hxhi Hxlo].
  destruct (bounded_mantissa _ _ Hy) as [Hyhi Hylo].
  destruct (bounded_facts _ _ Hx) as (_ & Hex & _).
  destruct (bounded_facts _ _ Hy) as (_ & Hey & _).
  destruct (Z.compare_spec ex ey) as [->|Hlt|Hgt].
  - rewrite Z.min_id, Z.sub_diag, Z.pow_0_r, !Z.mul_1_r. reflexivity.
  - rewrite Z.min_l by lia. rewrite Z.sub_diag, Z.pow_0_r, Z.mul_1_r.
    symmetry. apply Z.compare_lt_iff.
    assert (2 ^ 1 <= 2 ^ (ey - ex)) by (apply Z.pow_le_mono_r; lia).
    specialize (Hylo ltac:(lia)). change (2 ^ 1) with 2 in *. nia.
  - rewrite Z.min_r by lia. rewrite Z.sub_diag, Z.pow_0_r, Z.mul_1_r.
    symmetry. apply Z.compare_gt_iff.
    assert (2 ^ 1 <= 2 ^ (ex - ey)) by (apply Z.pow_le_mono_r; lia).
    specialize (Hxlo ltac:(lia)). change (2 ^ 1) with 2 in *. nia.
Qed.

Lemma not_lt_zero z : sign_is false z -> SFltb z (S754_zero false) = false.
Proof. destruct z; simpl; intros H; try subst; reflexivity. Qed.

(** *** Subtraction: a non-negative minuend that is not below the
    subtrahend leaves a difference that is not below zero. *)

Lemma SFsub_finite_not_negative mx ex sy my ey :
  bounded prec emax mx ex = true -> bounded prec emax my ey = true ->
  SFltb (S754_finite false mx ex) (S754_finite sy my ey) = false ->
  sign_is false (SF64sub (S754_finite false mx ex) (S754_finite sy my ey)).
Proof.
  intros Hx Hy Hlt. unfold SF64sub, SFsub.
  apply binary_normalize_nonneg.
  rewrite !shl_align_fst by lia.
  assert (Ha : 0 < Z.pos mx * 2 ^ (ex - Z.min ex ey)).
  { apply Z.mul_pos_pos; [lia|apply Z.pow_pos_nonneg; lia]. }
  assert (Hb : 0 < Z.pos my * 2 ^ (ey - Z.min ex ey)).
  { apply Z.mul_pos_pos; [lia|apply Z.pow_pos_nonneg; lia]. }
  destruct sy; unfold cond_Zopp.
  - lia.
  - unfold SFltb in Hlt. rewrite (compare_finite_pos _ _ _ _ Hx Hy) in Hlt.
    destruct (Z.compare_spec (Z.pos mx * 2 ^ (ex - Z.min ex ey))
                             (Z.pos my * 2 ^ (ey - Z.min ex ey))); try discriminate; lia.
Qed.

Lemma SFsub_not_negative x y :
  valid_binary x = true -> valid_binary y = true ->
  SFleb (S754_zero false) x = true -> SFltb x y = false ->
  SFltb (SF64sub x y) (S754_zero false) = false.
Proof.
  intros Hx Hy Hpos Hlt.
  destruct x as [sx|sx| |sx mx ex]; try discriminate Hpos.
  - destruct y as [sy|sy| |sy my ey]; try reflexivity.
    + destruct sx, sy; reflexivity.
    + destruct sy; [reflexivity|discriminate Hlt].
    + destruct sy; [reflexivity|discriminate Hlt].
  - destruct sx; [discriminate Hpos|].
    destruct y as [sy|sy| |sy my ey]; try reflexivity.
    destruct sy; reflexivity.
  - destruct sx; [discriminate Hpos|].
    destruct y as [sy|sy| |sy my ey]; try reflexivity.
    + destruct sy; [reflexivity|discriminate Hlt].
    + apply not_lt_zero, SFsub_finite_not_negative; assumption.
Qed.

(** *** Multiplication and the symmetries of the sign *)



(** *** Division: the quotient of a float by a positive float that is
    not above it is at least one. *)

Lemma SFleb_finite_pos md ed mr er :
  bounded prec emax md ed = true -> bounded prec emax mr er = true ->
  SFleb (S754_finite false md ed) (S754_finite false mr er) = true ->
  Z.pos md * 2 ^ (ed - Z.min ed er) <= Z.pos mr * 2 ^ (er - Z.min ed er).
Proof.
  intros Hd Hr Hle. unfold SFleb in Hle.
  rewrite (compare_finite_pos _ _ _ _ Hd Hr) in Hle.
  destruct (Z.compare_spec (Z.pos md * 2 ^ (ed - Z.min ed er))
                           (Z.pos mr * 2 ^ (er - Z.min ed er))); try discriminate; lia.
Qed.

Lemma SFdiv_core_ge_one mr er md ed :
  bounded prec emax mr er = true -> bounded prec emax md ed = true ->
  SFleb (S754_finite false md ed) (S754_finite false mr er) = true ->
  let '(q, e', _) := SFdiv_core_binary prec emax (Z.pos mr) er (Z.pos md) ed in
  ge_pow2 q e' 0.
Proof.
  intros Hr Hd Hle.
  pose proof (SFleb_finite_pos _ _ _ _ Hd Hr Hle) as Hord.
  unfold SFdiv_core_binary.
  set (d1 := Zdigits2 (Z.pos mr)). set (d2 := Zdigits2 (Z.pos md)).
  set (e' := Z.min (fexp64 (d1 + er - (d2 + ed))) (er - ed)).
  set (s := er - ed - e').
  assert (Hs : 0 <= s) by (unfold s, e'; lia).
  set (m' := match s with Z.pos _ => Z.shiftl (Z.pos mr) s | 0 => Z.pos mr | Z.neg _ => 0 end).
  assert (Hm' : m' = Z.pos mr * 2 ^ s).
  { unfold m'. destruct s as [|p|p] eqn:Hsp.
    - rewrite Z.pow_0_r. lia.
    - apply Z.shiftl_mul_pow2. lia.
    - lia. }
  destruct (Z.div_eucl m' (Z.pos md)) as [q rem] eqn:Hdiv.
  assert (Hq : q = m' / Z.pos md) by (unfold Z.div; rewrite Hdiv; reflexivity).
  destruct (Zdigits2_bounds (Z.pos mr) ltac:(lia)) as [Hrlo Hrhi].
  destruct (Zdigits2_bounds (Z.pos md) ltac:(lia)) as [Hdlo Hdhi].
  fold d1 in Hrlo, Hrhi. fold d2 in Hdlo, Hdhi.
  assert (Hps : 0 < 2 ^ s) by (apply Z.pow_pos_nonneg; lia).
  assert (Hlow : e' <= 0 -> Z.pos md * 2 ^ (- e') <= m').
  { intros He'. rewrite Hm'.
    destruct (Z_le_gt_dec ed er) as [Hc|Hc].
    - rewrite Z.min_l, Z.sub_diag, Z.pow_0_r, Z.mul_1_r in Hord by lia.
      replace s with ((er - ed) + (- e')) by (unfold s; lia).
      rewrite Z.pow_add_r by lia.
      assert (0 < 2 ^ (- e')) by (apply Z.pow_pos_nonneg; lia). nia.
    - rewrite Z.min_r, Z.sub_diag, Z.pow_0_r, Z.mul_1_r in Hord by lia.
      replace (- e') with ((ed - er) + s) by (unfold s; lia).
      rewrite Z.pow_add_r by lia. nia. }
  assert (Hone : Z.pos md <= m').
  { destruct (Z_le_gt_dec e' 0) as [He'|He'].
    - specialize (Hlow He').
      assert (1 <= 2 ^ (- e')) by (apply (Z.pow_le_mono_r 2 0); lia). nia.
    - assert (Hsd : d2 - d1 + 53 <= s).
      { unfold s, e', fexp, SpecFloat.emin, prec, emax in *. lia. }
      rewrite Hm'.
      assert (2 ^ d2 <= 2 ^ (d1 - 1 + s)) by (apply Z.pow_le_mono_r; lia).
      assert (0 <= d1 - 1) by (unfold d1; cbn [Zdigits2]; lia).
      rewrite Z.pow_add_r in H by lia. nia. }
  split.
  - rewrite Hq. apply Z.div_le_lower_bound; lia.
  - intros He'. rewrite Hq, Z.sub_0_l. apply Z.div_le_lower_bound; [lia|].
    specialize (Hlow He'). lia.
Qed.

Lemma SFdiv_ge_one mr er md ed :
  bounded prec emax mr er = true -> bounded prec emax md ed = true ->
  SFleb (S754_finite false md ed) (S754_finite false mr er) = true ->
  match SF64div (S754_finite false mr er) (S754_finite false md ed) with
  | S754_finite s m e => s = false /\ ge_pow2 (Z.pos m) e 0
  | S754_infinity s => s = false
  | _ => False
  end.
Proof.
  intros Hr Hd Hle.
  pose proof (SFdiv_core_ge_one _ _ _ _ Hr Hd Hle) as Hcore.
  unfold SF64div, SFdiv.
  destruct (SFdiv_core_binary prec emax (Z.pos mr) er (Z.pos md) ed) as [[q e'] l].
  apply (binary_round_aux_ge (xorb false false) q e' l 0); [|exact Hcore].
  unfold SpecFloat.emin, prec, emax. lia.
Qed.

End FloatFacts.
Import FloatFacts.

(** ** Python floats

    The facts above, on the primitive floats of the model. *)

Module PrimFacts.

Lemma Prim2SF_zero : Prim2SF 0 = S754_zero false.
Proof. reflexivity. Qed.

(** A balance that is not negative and covers a cost is not negative
    once the cost is taken off. *)
Lemma sub_not_negative (a c : float) :
  (0 <=? a)%float = true -> (a <? c)%float = false -> (a - c <? 0)%float = false.
Proof.
  intros Ha Hc. rewrite FloatAxioms.leb_spec, Prim2SF_zero in Ha. rewrite FloatAxioms.ltb_spec in Hc.
  rewrite FloatAxioms.ltb_spec, FloatAxioms.sub_spec, Prim2SF_zero.
  apply SFsub_not_negative; try apply Prim2SF_valid; assumption.
Qed.

(** A float that equals zero is not above zero. *)
Lemma eqb_zero_not_positive (x : float) :
  (x =? 0)%float = true -> (0 <? x)%float = false.
Proof.
  intros H. rewrite FloatAxioms.eqb_spec, Prim2SF_zero in H. rewrite FloatAxioms.ltb_spec, Prim2SF_zero.
  revert H.
  destruct (Prim2SF x) as [s|s| |s m e]; simpl; try discriminate; try reflexivity.
  - destruct s; discriminate.
  - destruct s; discriminate.
Qed.

(** The integer part of a quotient that is at least one. *)
Lemma py_int_quotient_ge_one (r d : float) md ed :
  Prim2SF d = S754_finite false md ed ->
  (d <=? r)%float = true ->
  forall c, py_int (r / d) = Ok c -> 1 <= c.
Proof.
  intros Hd Hle c. unfold py_int. rewrite FloatAxioms.div_spec, Hd.
  rewrite FloatAxioms.leb_spec, Hd in Hle.
  pose proof (Prim2SF_valid d) as Vd. rewrite Hd in Vd.
  pose proof (Prim2SF_valid r) as Vr.
  destruct (Prim2SF r) as [sr|sr| |sr mr er]; try discriminate Hle.
  - destruct sr; [discriminate Hle|]. simpl. discriminate.
  - destruct sr; [discriminate Hle|].
    pose proof (SFdiv_ge_one _ _ _ _ Vr Vd Hle) as Hq.
    destruct (SF64div _ _) as [s|s| |s m e]; try contradiction; try discriminate.
    destruct Hq as [-> [Hm Hpow]]. intros [= <-].
    destruct (Z.leb_spec 0 e) as [He|He].
    + rewrite Z.shiftl_mul_pow2 by lia.
      assert (0 < 2 ^ e) by (apply Z.pow_pos_nonneg; lia). nia.
    + rewrite Z.shiftr_div_pow2 by lia.
      apply Z.div_le_lower_bound; [apply Z.pow_pos_nonneg; lia|].
      rewrite Z.mul_1_r. specialize (Hpow ltac:(lia)).
      replace (0 - e) with (- e) in Hpow by lia. exact Hpow.
Qed.

(** *** Conversions of integers *)






Lemma digits2_iter_xO m d :
  Z.pos (digits2_pos (Pos.iter xO m d)) = Z.pos (digits2_pos m) + Z.pos d.
Proof.
  induction d as [|d IH] using Pos.peano_ind.
  - cbn [Pos.iter digits2_pos]. lia.
  - rewrite Pos.iter_succ. cbn [digits2_pos]. lia.
Qed.

(** An [int] below [2^53] is converted without overflow. *)
Lemma float_of_nonneg_small_finite z :
  0 <= z < two53 -> is_infinity (float_of_nonneg z) = false.
Proof.
  intros Hz. unfold float_of_nonneg. destruct (Z.ltb_spec z two53); [|lia].
  unfold is_infinity. rewrite FloatAxioms.eqb_spec, FloatAxioms.abs_spec, FloatAxioms.of_uint63_spec.
  rewrite Uint63.of_Z_spec, Z.mod_small by (unfold two53 in *; change Uint63.wB with (2 ^ 63); lia).
  assert (Hfin : forall s', binary_normalize prec emax z 0 false <> S754_infinity s').
  { destruct z as [|p|p]; simpl; try discriminate; [|lia].
    unfold binary_round.
    destruct (shl_align p 0 _) as [mz ez] eqn:Hal.
    assert (Hez : ez <= 0 /\ Z.pos (digits2_pos mz) + ez = Z.pos (digits2_pos p)).
    { unfold shl_align in Hal.
      destruct (fexp64 (Z.pos (digits2_pos p) + 0) - 0) as [|d|d] eqn:Hd;
        injection Hal as <- <-; try lia.
      rewrite digits2_iter_xO. lia. }
    apply binary_round_aux_finite; [lia|lia|].
    cbn [Zdigits2]. destruct (digits_bounds p) as [Hlo _].
    assert (Z.pos (digits2_pos p) <= 53); [|lia].
    destruct (Z_le_gt_dec (Z.pos (digits2_pos p)) 53); [assumption|].
    assert (2 ^ 53 <= 2 ^ (Z.pos (digits2_pos p) - 1)) by (apply Z.pow_le_mono_r; lia).
    unfold two53 in *. lia. }
  destruct (binary_normalize prec emax z 0 false) as [s|s| |s m e]; try reflexivity.
  exfalso. apply (Hfin s). reflexivity.
Qed.

Lemma float_of_int_small z :
  0 <= z < two53 -> float_of_int z = Ok (float_of_nonneg z).
Proof.
  intros Hz. unfold float_of_int. replace (Z.abs z) with z by lia.
  rewrite float_of_nonneg_small_finite by assumption.
  destruct (Z.ltb_spec z 0); [lia|reflexivity].
Qed.

(** *** Costs that are not positive *)





End PrimFacts.
Import PrimFacts.

(** ** The change calculator on amounts that are sums of denominations *)

Lemma denominations_sorted :
  DENOMINATIONS =
  [PyInt 100; PyInt 50; PyInt 25; PyInt 20; PyInt 10; PyInt 5; PyInt 1;
   PyFloat 0.5; PyFloat 0.25; PyFloat 0.1; PyFloat 0.05].
Proof. vm_compute. reflexivity. Qed.

Lemma denomination_cents_values :
  DENOMINATION_CENTS = [10000; 5000; 2500; 2000; 1000; 500; 100; 50; 25; 10; 5].
Proof. vm_compute. reflexivity. Qed.

(** Every denomination is a multiple of five hundredths, so every sum of
    denominations is. *)
Lemma combination_divide k values :
  Forall (fun v => (k | v)) values -> forall counts, (k | combination counts values).
Proof.
  induction 1 as [|v values Hv _ IH]; intros [|c counts]; simpl;
    try apply Z.divide_0_r.
  apply Z.divide_add_r; [apply Z.divide_mul_r, Hv|apply IH].
Qed.

Lemma expressible_multiple_of_five c : expressible c -> c mod 5 = 0.
Proof.
  intros (counts & _ & _ & ->). apply Z.mod_divide; [lia|].
  apply combination_divide. rewrite denomination_cents_values.
  repeat constructor;
    match goal with |- (5 | ?v) => exists (v / 5); reflexivity end.
Qed.


Lemma change_ok_from_spec k : forall n0 n,
  change_ok_from k n0 = true -> n0 <= n < n0 + Z.of_nat k -> change_ok (5 * n) = true.
Proof.
  induction k as [|k IH]; intros n0 n Hall Hn; [lia|].
  simpl in Hall. apply andb_true_iff in Hall as [Hhead Htail].
  destruct (Z.eq_dec n n0) as [->|Hne]; [exact Hhead|].
  apply (IH (n0 + 1)); [exact Htail|lia].
Qed.

Lemma change_ok_sound c : change_ok c = true -> change_sums_to_amount c.
Proof.
  unfold change_ok, change_sums_to_amount.
  destruct (calculate_change (float_of_cents c)) as [bd|e]; [|discriminate].
  intros H. exists bd. split; [reflexivity|exact H].
Qed.

Lemma change_ok_checked :
  change_ok_from (Z.to_nat (CHECKED_CENTS / 5 + 1)) 0 = true.
Proof. vm_compute. reflexivity. Qed.

Lemma change_ok_below_bound c :
  0 <= c <= CHECKED_CENTS -> expressible c -> change_ok c = true.
Proof.
  intros Hc Hexp.
  apply expressible_multiple_of_five in Hexp.
  apply Z.mod_divide in Hexp as [n ->]; [|lia].
  rewrite Z.mul_comm.
  apply (change_ok_from_spec _ 0 n change_ok_checked).
  unfold CHECKED_CENTS in *. rewrite Z2Nat.id by (vm_compute; discriminate).
  change (100000 / 5) with 20000. lia.
Qed.




Lemma calculate_change_large_amount :
  float_of_cents 3602879701896410400 = 36028797018964104%float /\
  calculate_change 36028797018964104 =
    Ok [(PyInt 100, 360287970189641); (PyInt 5, 1); (PyInt 1, 3)].
Proof. split; vm_compute; reflexivity. Qed.

(** C10.  Seven hundredths are not a sum of denominations, and for the
    amount 0.07 [calculate_change] returns one coin of 0.05: the sum of
    the breakdown is strictly below the amount, and what is missing is
    less than the smallest denomination. *)
Theorem calculate_change_discards_residue :
  exists c bd,
    0 <= c /\ ~ expressible c /\
    float_of_cents c = 0.07%float /\
    calculate_change (float_of_cents c) = Ok bd /\
    bd = [(PyFloat 0.05, 1)] /\
    sums_below bd (float_of_cents c) = true /\
    dy_pos (dy_sub (dy_of_float 0.05)
                   (dy_sub (dy_of_float (float_of_cents c)) (breakdown_total bd))) = true.
Proof.
  exists 7, [(PyFloat 0.05, 1)]. split; [lia|]. split.
  - intros H. apply expressible_multiple_of_five in H. discriminate H.
  - repeat split; vm_compute; reflexivity.
Qed.

(** ** The procedure of the specification and the loop of the code *)

(** C2 (as stated) fails: on the balance that ten coins of 0.1 add up to,
    0.9999999999999999, the procedure of the specification rounds the
    remainder at the first denomination and gives one note of 1, while
    the code leaves the remainder as it is until a denomination fits and
    gives one coin of 0.5 and two of 0.25. *)
Lemma calculate_change_not_spec_procedure :
  ~ (forall amount, (0 <=? amount)%float = true ->
       calculate_change amount = spec_calculate_change amount).
Proof.
  intros H. specialize (H 0.9999999999999999%float eq_refl).
  vm_compute in H. discriminate H.
Qed.

Lemma ten_dimes :
  (0.1 + 0.1 + 0.1 + 0.1 + 0.1 + 0.1 + 0.1 + 0.1 + 0.1 + 0.1 = 0.9999999999999999)%float /\
  calculate_change 0.9999999999999999 = Ok [(PyFloat 0.5, 1); (PyFloat 0.25, 2)] /\
  spec_calculate_change 0.9999999999999999 = Ok [(PyInt 1, 1)].
Proof. repeat split; vm_compute; reflexivity. Qed.

(** ** The loop of [calculate_change] *)

Lemma denominations_distinct : distinct_keys DENOMINATIONS = true.
Proof. vm_compute. reflexivity. Qed.

Lemma denominations_positive : Forall positive_denomination DENOMINATIONS.
Proof.
  rewrite denominations_sorted.
  repeat constructor;
    match goal with
    | |- positive_denomination (PyInt ?n) =>
        let sf := eval vm_compute in (Prim2SF (float_of_nonneg n)) in
        match sf with
        | S754_finite false ?m ?e => exists (float_of_nonneg n), m, e
        end
    | |- positive_denomination (PyFloat ?f) =>
        let sf := eval vm_compute in (Prim2SF f) in
        match sf with
        | S754_finite false ?m ?e => exists f, m, e
        end
    end;
    (split; [vm_compute; reflexivity|split; intros r; vm_compute; reflexivity]).
Qed.

(** A key that is not in a dictionary goes to its end. *)
Lemma dict_set_fresh {V} (d : list (pynum * V)) k v :
  forallb (fun kv => negb (py_eq (fst kv) k)) d = true ->
  dict_set py_eq d k v = d ++ [(k, v)].
Proof.
  induction d as [|[k' v'] d IH]; simpl; [reflexivity|].
  intros H. apply andb_true_iff in H as [Hk Hd].
  apply negb_true_iff in Hk. rewrite Hk, IH by assumption. reflexivity.
Qed.

Lemma change_step_cases bd remaining d bd' remaining' :
  positive_denomination d ->
  change_step (bd, remaining) d = Ok (bd', remaining') ->
  (py_ge (PyFloat remaining) d = false /\ bd' = bd /\ remaining' = remaining) \/
  (exists q count taken rest,
     py_ge (PyFloat remaining) d = true /\
     float_truediv remaining d = Ok q /\ py_int q = Ok count /\ 1 <= count /\
     int_mul count d = Ok taken /\ float_sub remaining taken = Ok rest /\
     bd' = dict_set py_eq bd d count /\ remaining' = round2 rest).
Proof.
  intros (df & md & ed & Hsf & Hdiv & Hge). unfold change_step.
  destruct (py_ge (PyFloat remaining) d) eqn:Hreach.
  - rewrite Hdiv. step_bind.
    destruct (py_int (remaining / df)) as [count|e] eqn:Hcount; [|discriminate].
    step_bind.
    destruct (int_mul count d) as [taken|e] eqn:Htaken; [|discriminate].
    step_bind.
    destruct (float_sub remaining taken) as [rest|e] eqn:Hrest; [|discriminate].
    step_bind. intros [= <- <-]. right.
    exists (remaining / df)%float, count, taken, rest.
    rewrite Hge in Hreach.
    pose proof (py_int_quotient_ge_one remaining df md ed Hsf Hreach count Hcount).
    repeat split; auto.
  - intros [= <- <-]. left. repeat split.
Qed.

Lemma change_loop_greedy denoms : forall acc remaining bd' remaining',
  Forall positive_denomination denoms ->
  distinct_keys denoms = true ->
  (forall d, In d denoms -> forallb (fun kv => negb (py_eq (fst kv) d)) acc = true) ->
  change_loop denoms (acc, remaining) = Ok (bd', remaining') ->
  exists bd, bd' = acc ++ bd /\ greedy denoms remaining bd.
Proof.
  induction denoms as [|d denoms IH]; intros acc remaining bd' remaining' Hpos Hdist Hfresh.
  - simpl. intros [= <- <-]. exists []. split; [symmetry; apply app_nil_r|constructor].
  - cbn [change_loop]. inversion Hpos as [|? ? Hd Hrest]; subst.
    cbn [distinct_keys] in Hdist. apply andb_true_iff in Hdist as [Hnew Hdist].
    destruct (change_step (acc, remaining) d) as [[bd1 r1]|e] eqn:Hstep; [|discriminate].
    step_bind. intros Hloop.
    destruct (change_step_cases _ _ _ _ _ Hd Hstep)
      as [(Hskip & -> & ->)|(q & count & taken & rest & Hge & Hq & Hc & Hone & Ht & Hr & -> & ->)].
    + destruct (IH acc remaining bd' remaining' Hrest Hdist) as (bd & -> & Hg); auto.
      { intros d' Hin. apply Hfresh. right. exact Hin. }
      exists bd. split; [reflexivity|]. apply greedy_skip; assumption.
    + rewrite dict_set_fresh in Hloop by (apply Hfresh; left; reflexivity).
      assert (Hfresh' : forall d', In d' denoms ->
                forallb (fun kv => negb (py_eq (fst kv) d')) (acc ++ [(d, count)]) = true).
      { intros d' Hin. rewrite forallb_app. rewrite Hfresh by (right; exact Hin).
        simpl. rewrite andb_true_r.
        rewrite forallb_forall in Hnew. specialize (Hnew d' Hin).
        apply andb_true_iff in Hnew as [Hnew _]. exact Hnew. }
      destruct (IH _ _ bd' remaining' Hrest Hdist Hfresh' Hloop) as (bd & -> & Hg).
      exists ((d, count) :: bd). split; [rewrite <- app_assoc; reflexivity|].
      eapply greedy_take; eassumption.
Qed.

Lemma greedy_counts denoms remaining bd :
  greedy denoms remaining bd -> Forall (fun dc => 1 <= snd dc) bd.
Proof. induction 1; auto. Qed.

Lemma greedy_keys denoms remaining bd :
  greedy denoms remaining bd -> sublist (map fst bd) denoms.
Proof.
  induction 1; simpl.
  - constructor.
  - apply sublist_cons. assumption.
  - apply sublist_skip. assumption.
Qed.

(** The result of [calculate_change] is the list that the loop appends
    to the empty breakdown. *)
Lemma calculate_change_is_greedy amount bd :
  calculate_change amount = Ok bd -> greedy DENOMINATIONS amount bd.
Proof.
  unfold calculate_change.
  destruct (change_loop DENOMINATIONS ([], amount)) as [[bd' r']|e] eqn:Hloop;
    [|step_bind; discriminate].
  step_bind; cbn [fst]. intros [= <-].
  destruct (change_loop_greedy DENOMINATIONS [] amount bd' r'
              denominations_positive denominations_distinct) as (bd & -> & Hg);
    [reflexivity|exact Hloop|].
  exact Hg.
Qed.

(** C2 (as amended).  [calculate_change] goes through the denominations
    in strictly descending order; a denomination [d] that the remainder
    reaches is recorded with [count = int(remaining / d)], which is at
    least one, and the remainder becomes
    [round(remaining - count * d, 2)]; a denomination that the remainder
    does not reach is skipped and the remainder is left as it is.  So no
    denomination appears with a count of zero, the entries follow the
    order of the denominations, and [calculate_change(0)] is empty. *)
Theorem calculate_change_greedy :
  strictly_descending DENOMINATIONS = true /\
  (forall amount bd,
     calculate_change amount = Ok bd ->
     greedy DENOMINATIONS amount bd /\
     Forall (fun dc => 1 <= snd dc) bd /\
     sublist (map fst bd) DENOMINATIONS) /\
  calculate_change 0 = Ok [].
Proof.
  split; [vm_compute; reflexivity|]. split; [|vm_compute; reflexivity].
  intros amount bd Hbd. apply calculate_change_is_greedy in Hbd.
  split; [exact Hbd|].
  split; [eapply greedy_counts|eapply greedy_keys]; exact Hbd.
Qed.

Lemma calculate_change_greedy_witness :
  calculate_change 55 = Ok [(PyInt 50, 1); (PyInt 5, 1)] /\
  greedy DENOMINATIONS 55 [(PyInt 50, 1); (PyInt 5, 1)].
Proof.
  assert (H : calculate_change 55 = Ok [(PyInt 50, 1); (PyInt 5, 1)])
    by (vm_compute; reflexivity).
  split; [exact H|].
  exact (proj1 (proj1 (proj2 calculate_change_greedy) 55%float _ H)).
Defined.

(** ** Inserting money *)


(** An amount that [float] rejects is not caught by [insert_money]. *)
Lemma insert_money_value_error form st field :
  form !! "amount"%string = Some field ->
  float_of_string field = Raise ValueError ->
  insert_money form st = Raise ValueError /\
  status_of (insert_money form st) = 500 /\
  state_after st (insert_money form st) = st.
Proof.
  intros Hfield Hparse. unfold insert_money, form_get.
  rewrite Hfield. step_bind. rewrite Hparse. repeat split.
Qed.

(** C8 (the code at the failing input).  The amount "abc" makes
    [insert_money] raise [ValueError]: the request is answered by a 500
    and not by an error payload, whereas [purchase] answers a field that
    is not a number by its 400 payload. *)
Theorem insert_money_invalid_amount_uncaught st :
  insert_money (form_of [("amount", "abc")]) st = Raise ValueError /\
  status_of (insert_money (form_of [("amount", "abc")]) st) = 500 /\
  purchase (form_of [("product_id", "abc"); ("quantity", "1")]) st
    = Ok (PurchaseError InvalidInput, st) /\
  render (PurchaseError InvalidInput)
    = (400, [("error", JString "Please enter valid product ID and quantity")]).
Proof.
  destruct (insert_money_value_error (form_of [("amount", "abc")]) st "abc")
    as (H1 & H2 & _); [reflexivity|vm_compute; reflexivity|].
  repeat split; assumption || reflexivity.
Qed.

(** [str] of a float is never the text of an [int]: it has a point, an
    exponent, or is one of [inf] and [nan]. *)
Lemma has_non_digit_app a b :
  has_non_digit (a ++ b) = has_non_digit a || has_non_digit b.
Proof.
  induction a as [|c a IH]; simpl; [reflexivity|].
  destruct (digit_of c); [exact IH|reflexivity].
Qed.

Lemma format_repr_has_non_digit ds decpt : has_non_digit (format_repr ds decpt) = true.
Proof.
  unfold format_repr.
  destruct ((decpt <=? -4) || (16 <? decpt)).
  - rewrite has_non_digit_app. simpl. apply orb_true_r.
  - destruct (decpt <=? 0); [reflexivity|].
    destruct (decpt <? _).
    + rewrite has_non_digit_app. simpl. apply orb_true_r.
    + rewrite !has_non_digit_app. simpl. rewrite !orb_true_r. reflexivity.
Qed.

Lemma float_repr_has_non_digit x : has_non_digit (float_repr x) = true.
Proof.
  unfold float_repr.
  destruct (Prim2SF x) as [[]|[]| |s m e]; try reflexivity.
  destruct (shortest _ _ _ _ _) as [d0 k0]. destruct (strip_zeros _ _ _) as [d k].
  rewrite has_non_digit_app, format_repr_has_non_digit. apply orb_true_r.
Qed.

Lemma dict_get_set_other {V} (d : list (string * V)) k k' v :
  String.eqb k' k = false ->
  dict_get String.eqb (dict_set String.eqb d k' v) k = dict_get String.eqb d k.
Proof.
  intros Hne. induction d as [|[k0 v0] d IH]; simpl.
  - rewrite Hne. reflexivity.
  - destruct (String.eqb k0 k') eqn:Hk0; simpl.
    + apply String.eqb_eq in Hk0 as ->. rewrite Hne. reflexivity.
    + destruct (String.eqb k0 k); [reflexivity|exact IH].
Qed.

(** No call of [insert_money] changes the counter of a key that is made
    of digits only, as the keys of the notes and of the coins of 10, 5 and
    1 are: the key that it looks up is [str] of a float. *)
Lemma insert_money_keeps_digit_keys form st r st' s s' key :
  session st = Some s ->
  insert_money form st = Ok (r, st') ->
  session st' = Some s' ->
  has_non_digit key = false ->
  dict_get String.eqb (denominations_inserted s') key
  = dict_get String.eqb (denominations_inserted s) key.
Proof.
  intros Hs Hrun Hs' Hkey. unfold insert_money, session_get in Hrun. rewrite Hs in Hrun.
  destruct (form_get form "amount") as [field|e]; [|discriminate Hrun].
  step_bind in Hrun.
  destruct (float_of_string field) as [amount|e]; [|discriminate Hrun].
  step_bind in Hrun. injection Hrun as _ <-.
  cbn [set_session session] in Hs'. injection Hs' as <-. cbn [denominations_inserted].
  destruct (dict_get String.eqb (denominations_inserted s) (float_repr amount)); [|reflexivity].
  apply dict_get_set_other. apply String.eqb_neq. intros Heq.
  pose proof (float_repr_has_non_digit amount) as H. rewrite Heq, Hkey in H. discriminate H.
Qed.

Lemma integer_denomination_keys :
  forallb (fun k => negb (has_non_digit k))
          (map py_str [PyInt 100; PyInt 50; PyInt 25; PyInt 20; PyInt 10; PyInt 5; PyInt 1])
  = true.
Proof. vm_compute. reflexivity. Qed.

(** C3 (the code at the failing input).  On a new session the note of 100
    raises the balance to 100 and leaves every counter at zero, because
    the key that [insert_money] looks up is "100.0" and the key of the
    note is "100": the sum of the counters, which [log_transaction] takes
    as the total inserted, stays zero. *)
Theorem insert_money_note_not_counted :
  float_repr 100 = "100.0"%string /\
  py_str (PyInt 100) = "100"%string /\
  inserted_money <$> session state_note = Some 100%float /\
  denominations_inserted <$> session state_note = Some zero_counters /\
  total_of_counters 0 zero_counters = Ok 0%float /\
  (100 =? 0)%float = false.
Proof. repeat split; vm_compute; reflexivity. Qed.

(** The keys of the counters are those that [index] made: [insert_money]
    only changes the count of a key that is there. *)
Lemma dict_set_keys {V} (d : list (string * V)) k v v0 :
  dict_get String.eqb d k = Some v0 ->
  map fst (dict_set String.eqb d k v) = map fst d.
Proof.
  induction d as [|[k' v'] d IH]; simpl; [discriminate|].
  destruct (String.eqb k' k); simpl; [reflexivity|].
  intros H. rewrite IH by exact H. reflexivity.
Qed.

Lemma insert_money_keeps_keys form st r st' s s' :
  session st = Some s ->
  insert_money form st = Ok (r, st') ->
  session st' = Some s' ->
  map fst (denominations_inserted s') = map fst (denominations_inserted s).
Proof.
  intros Hs Hrun Hs'. unfold insert_money, session_get in Hrun. rewrite Hs in Hrun.
  destruct (form_get form "amount") as [field|e]; [|discriminate Hrun].
  step_bind in Hrun.
  destruct (float_of_string field) as [amount|e]; [|discriminate Hrun].
  step_bind in Hrun. injection Hrun as _ <-.
  cbn [set_session session] in Hs'. injection Hs' as <-. cbn [denominations_inserted].
  destruct (dict_get String.eqb (denominations_inserted s) (float_repr amount)) eqn:Hget;
    [|reflexivity].
  eapply dict_set_keys, Hget.
Qed.

(** ** Purchases *)



(** C5.  From a state where the stock of every product and the balance
    are not negative, [purchase] leaves the stock of every product not
    negative and a balance that is not below zero. *)
Theorem purchase_keeps_non_negative form st s :
  session st = Some s ->
  (0 <=? inserted_money s)%float = true ->
  (forall id p, products st !! id = Some p -> 0 <= quantity p) ->
  let st' := state_after st (purchase form st) in
  (forall id p', products st' !! id = Some p' -> 0 <= quantity p') /\
  (exists s', session st' = Some s' /\ (inserted_money s' <? 0)%float = false).
Proof.
  intros Hs Hbal Hstock.
  assert (Hsame : (forall id p', products st !! id = Some p' -> 0 <= quantity p') /\
                  (exists s', session st = Some s' /\ (inserted_money s' <? 0)%float = false)).
  { split; [exact Hstock|]. exists s. split; [exact Hs|].
    rewrite FloatAxioms.ltb_spec. rewrite FloatAxioms.leb_spec in Hbal.
    change (Prim2SF 0) with (S754_zero false) in *.
    destruct (Prim2SF (inserted_money s)) as [[]|[]| |[]]; try discriminate; reflexivity. }
  unfold purchase.
  destruct (purchase_fields form) as [[product_id qty]|e]; [|destruct e; exact Hsame].
  destruct (products st !! product_id) as [product|] eqn:Hproduct; [|exact Hsame].
  destruct (Z.ltb_spec (quantity product) qty) as [Hlt|Hge]; [exact Hsame|].
  destruct (float_mul_int (price product) qty) as [total_cost|e]; [|exact Hsame].
  step_bind. unfold session_get. rewrite Hs. step_bind.
  destruct (inserted_money s <? total_cost)%float eqn:Hfunds; [exact Hsame|].
  cbn [state_after products session]. split.
  - intros id p' Hlook. destruct (decide (product_id = id)) as [->|Hne].
    + rewrite lookup_insert_eq in Hlook. injection Hlook as <-. simpl. lia.
    + rewrite lookup_insert_ne in Hlook by assumption. eapply Hstock, Hlook.
  - eexists. split; [reflexivity|]. cbn [inserted_money].
    apply sub_not_negative; assumption.
Qed.

Lemma sample_stock_non_negative m id p :
  products (with_balance initial_state m) !! id = Some p -> 0 <= quantity p.
Proof.
  change (products (with_balance initial_state m)) with
    (list_to_map sample_products : gmap Z Product).
  intros H. apply elem_of_list_to_map_2 in H.
  unfold sample_products in H.
  repeat (apply elem_of_cons in H as [[= -> ->]|H]; [simpl; lia|]).
  apply elem_of_nil in H. contradiction.
Qed.

Lemma purchase_keeps_non_negative_witness :
  (forall id p',
     products (state_after state_70 (purchase two_sandos state_70)) !! id = Some p' ->
     0 <= quantity p') /\
  (exists s',
     session (state_after state_70 (purchase two_sandos state_70)) = Some s' /\
     (inserted_money s' <? 0)%float = false).
Proof.
  apply (purchase_keeps_non_negative two_sandos state_70
           {| inserted_money := 70; denominations_inserted := zero_counters;
              current_transaction := [] |}); [reflexivity|reflexivity|].
  apply sample_stock_non_negative.
Defined.



(** Every negative quantity above [-2^53] converts to a float. *)
Lemma float_of_int_negative_small qty :
  - two53 < qty < 0 -> float_of_int qty = Ok (- float_of_nonneg (- qty))%float.
Proof.
  intros Hq. unfold float_of_int. replace (Z.abs qty) with (- qty) by lia.
  rewrite float_of_nonneg_small_finite by lia.
  destruct (Z.ltb_spec qty 0); [reflexivity|lia].
Qed.

(** The quantity -10^400 of the counterexample below. *)
Lemma huge_negative_quantity :
  int_of_string minus_ten_pow_400 = Ok (- 10 ^ 400) /\
  float_of_int (- 10 ^ 400) = Raise OverflowError.
Proof. split; vm_compute; reflexivity. Qed.


(** ** Returning the change *)

Lemma zero_counters_value :
  zero_counters =
  [("100", 0); ("50", 0); ("25", 0); ("20", 0); ("10", 0); ("5", 0); ("1", 0);
   ("0.5", 0); ("0.25", 0); ("0.1", 0); ("0.05", 0)]%string.
Proof. vm_compute. reflexivity. Qed.

Lemma denomination_keys_parse k :
  In k (map fst zero_counters) -> exists f, float_of_string k = Ok f.
Proof.
  rewrite zero_counters_value. simpl.
  intros H. repeat (destruct H as [<-|H]; [eexists; vm_compute; reflexivity|]).
  contradiction.
Qed.

Lemma select_inserted_ok test d :
  counters_ok d -> exists sel, select_inserted test d = Ok sel.
Proof.
  induction 1 as [|[k v] d [Hk _] _ [sel IH]]; simpl; [eauto|].
  destruct (denomination_keys_parse k Hk) as [f ->]. step_bind.
  rewrite IH. step_bind. eauto.
Qed.

Lemma total_of_counters_ok d :
  counters_ok d -> forall acc, exists total, total_of_counters acc d = Ok total.
Proof.
  induction 1 as [|[k v] d [Hk Hv] _ IH]; intros acc; simpl; [eauto|].
  destruct (denomination_keys_parse k Hk) as [f ->]. step_bind.
  unfold float_mul_int. simpl in Hv. rewrite (float_of_int_small v Hv).
  step_bind. apply IH.
Qed.

(** The row of the log of a session of the application. *)
Lemma log_transaction_ok now s bd :
  counters_ok (denominations_inserted s) ->
  exists entry, log_transaction now s bd = Ok entry.
Proof.
  intros Hok. unfold log_transaction.
  destruct (select_inserted_ok (fun f => float_ge_int f 1) _ Hok) as [notes ->].
  destruct (select_inserted_ok (fun f => float_lt_int f 1) _ Hok) as [coins ->].
  destruct (total_of_counters_ok _ Hok 0%float) as [total ->].
  step_bind. eauto.
Qed.

(** What a row of the log records of the session and of the change. *)
Lemma log_transaction_fields now s bd entry :
  log_transaction now s bd = Ok entry ->
  exists notes coins,
    select_inserted (fun f => float_ge_int f 1) (denominations_inserted s) = Ok notes /\
    select_inserted (fun f => float_lt_int f 1) (denominations_inserted s) = Ok coins /\
    amount_inserted_notes entry = repr_str_dict notes /\
    amount_inserted_coins entry = repr_str_dict coins /\
    change_returned_notes entry =
      repr_num_dict (filter (fun kv => Is_true (py_ge (fst kv) (PyInt 1) && (0 <? snd kv))) bd) /\
    change_returned_coins entry =
      repr_num_dict (filter (fun kv => Is_true (py_lt (fst kv) (PyInt 1) && (0 <? snd kv))) bd) /\
    change_amount entry = inserted_money s.
Proof.
  unfold log_transaction.
  destruct (select_inserted (fun f => float_ge_int f 1) _) as [notes|e];
    [|step_bind; discriminate].
  step_bind.
  destruct (select_inserted (fun f => float_lt_int f 1) _) as [coins|e];
    [|step_bind; discriminate].
  step_bind.
  destruct (total_of_counters _ _) as [total|e]; [|step_bind; discriminate].
  step_bind. intros [= <-].
  exists notes, coins. repeat split.
Qed.




(** C7.  When [return_change] is called with a balance equal to zero: if
    the session has no purchase, no row is added to the log and the
    response is the acknowledgement; if it has purchases, a row with an
    empty change breakdown is added to the log. *)
Theorem return_change_nothing_inserted now st s :
  session st = Some s ->
  (inserted_money s =? 0)%float = true ->
  (current_transaction s = [] ->
   exists st',
     return_change now st = Ok (ThankYou, st') /\
     render ThankYou = (200, [("info", JString "Thank you for your purchase!")]) /\
     transactions st' = transactions st /\
     products st' = products st /\
     session st' = Some fresh_session) /\
  (current_transaction s <> [] ->
   counters_ok (denominations_inserted s) ->
   exists entry st',
     return_change now st = Ok (ThankYou, st') /\
     log_transaction now s [] = Ok entry /\
     change_returned_notes entry = "{}"%string /\
     change_returned_coins entry = "{}"%string /\
     transactions st' = transactions st ++ [entry] /\
     products st' = products st /\
     session st' = Some fresh_session).
Proof.
  intros Hs Hzero. apply eqb_zero_not_positive in Hzero.
  unfold return_change, session_get. rewrite Hs. step_bind. rewrite Hzero.
  split.
  - intros ->. step_bind. eexists. repeat split.
  - intros Hne Hok. destruct (current_transaction s) as [|item items] eqn:Hitems; [contradiction|].
    destruct (log_transaction_ok now s [] Hok) as [entry Hlog].
    rewrite Hlog. step_bind.
    destruct (log_transaction_fields _ _ _ _ Hlog) as (? & ? & _ & _ & _ & _ & Hn & Hc & _).
    exists entry. eexists. split; [reflexivity|]. split; [reflexivity|].
    split; [exact Hn|]. split; [exact Hc|]. repeat split.
Qed.

Lemma return_change_nothing_inserted_witness :
  exists entry st',
    return_change ("2024-01-01", "10:00:00")%string state_paid = Ok (ThankYou, st') /\
    products_purchased entry = "1x sando"%string /\
    change_returned_notes entry = "{}"%string /\
    transactions st' = [entry].
Proof.
  pose proof (return_change_nothing_inserted ("2024-01-01", "10:00:00")%string state_paid
                {| inserted_money := 0; denominations_inserted := zero_counters;
                   current_transaction :=
                     [{| item_product_id := 1; item_name := "sando"; item_quantity := 1;
                         item_price := 15; item_total := 15 |}] |}
                eq_refl eq_refl) as [_ H].
  destruct H as (entry & st' & Hrun & Hlog & Hnotes & _ & Htx & _).
  - discriminate.
  - cbn [denominations_inserted]. unfold counters_ok. rewrite zero_counters_value.
    repeat (apply Forall_cons_2; [split; [simpl; tauto|unfold two53; simpl; lia]|]).
    apply Forall_nil_2.
  - exists entry, st'. split; [exact Hrun|].
    vm_compute in Hlog. injection Hlog as <-.
    split; [reflexivity|]. split; [reflexivity|]. exact Htx.
Defined.

(** *** When [return_change] returns

    For the counters of a session of the application, [return_change]
    raises exactly when the balance is above zero and [calculate_change]
    raises on it. *)

Lemma change_lines_ok bd :
  Forall (fun dc => In (fst dc) DENOMINATIONS) bd ->
  exists lines, change_lines bd = Ok lines.
Proof.
  induction 1 as [|[d c] bd Hd _ [lines IH]]; simpl; [eauto|].
  destruct (py_ge d (PyInt 1)).
  - rewrite IH. step_bind. eauto.
  - assert (Hfmt : exists text, format_num_2f d = Ok text).
    { cbn [fst] in Hd. rewrite denominations_sorted in Hd.
      repeat (destruct Hd as [<-|Hd]; [eexists; vm_compute; reflexivity|]).
      contradiction. }
    destruct Hfmt as [text ->]. step_bind. rewrite IH. step_bind. eauto.
Qed.

Lemma format_change_message_ok amount bd :
  calculate_change amount = Ok bd -> exists message, format_change_message bd = Ok message.
Proof.
  intros Hbd. unfold format_change_message.
  destruct (change_lines_ok bd) as [lines ->]; [|step_bind; eauto].
  pose proof (greedy_keys _ _ _ (calculate_change_is_greedy _ _ Hbd)) as Hkeys.
  apply Forall_forall. intros [d c] Hin.
  apply list_elem_of_In. eapply elem_of_sublist; [|exact Hkeys].
  apply list_elem_of_fmap. exists (d, c). split; [reflexivity|exact Hin].
Qed.

Lemma return_change_returns now st s :
  session st = Some s ->
  counters_ok (denominations_inserted s) ->
  ((0 <? inserted_money s)%float = true ->
   exists bd, calculate_change (inserted_money s) = Ok bd) ->
  exists r st', return_change now st = Ok (r, st').
Proof.
  intros Hs Hok Hchange. unfold return_change, session_get. rewrite Hs. step_bind.
  destruct (0 <? inserted_money s)%float.
  - destruct (Hchange eq_refl) as [bd Hbd]. rewrite Hbd. step_bind.
    destruct (format_change_message_ok _ _ Hbd) as [message ->]. step_bind.
    destruct (log_transaction_ok now s bd Hok) as [entry ->]. step_bind. eauto.
  - destruct (current_transaction s).
    + step_bind. eauto.
    + destruct (log_transaction_ok now s [] Hok) as [entry ->]. step_bind. eauto.
Qed.

(** In particular it returns for every balance of at most
    [CHECKED_CENTS] hundredths that is a sum of denominations. *)
Lemma return_change_returns_checked now st s c :
  session st = Some s ->
  counters_ok (denominations_inserted s) ->
  0 <= c <= CHECKED_CENTS -> expressible c ->
  inserted_money s = float_of_cents c ->
  exists r st', return_change now st = Ok (r, st').
Proof.
  intros Hs Hok Hc Hexp Hbal. apply (return_change_returns now st s Hs Hok).
  intros _. rewrite Hbal.
  destruct (change_ok_sound c (change_ok_below_bound c Hc Hexp)) as (bd & Hbd & _). eauto.
Qed.

(** ** The scenario of the specification *)

(** Insert 50, insert 20: the balance is 70.  Buy one product 1 at 15:
    the balance is 55 and the stock 9.  The change of 55 is one note of
    50 and one of 5, and the session is reset.  The row of the log has no
    inserted note, as C3 explains. *)
Lemma scenario :
  inserted_money <$> session scenario_inserted = Some 70%float /\
  inserted_money <$> session scenario_purchased = Some 55%float /\
  quantity <$> products scenario_purchased !! 1 = Some 9 /\
  calculate_change 55 = Ok [(PyInt 50, 1); (PyInt 5, 1)] /\
  session (state_after scenario_purchased scenario_returned) = Some fresh_session /\
  (fun t => (amount_inserted_notes t, change_returned_notes t, products_purchased t))
    <$> transactions (state_after scenario_purchased scenario_returned)
  = [("{}", "{50: 1, 5: 1}", "1x sando")]%string.
Proof. repeat split; vm_compute; reflexivity. Qed.

(** ** The change calculator and exact arithmetic *)

Lemma cents_eqb_eq a : forall b, cents_eqb a b = true -> a = b.
Proof.
  induction a as [|[v c] a IH]; intros [|[v' c'] b]; simpl; try discriminate; [reflexivity|].
  intros H. apply andb_true_iff in H as [H Hrest]. apply andb_true_iff in H as [Hv Hc].
  apply Z.eqb_eq in Hv, Hc. subst. f_equal. apply IH, Hrest.
Qed.

Lemma change_exact_from_spec k : forall n0 n,
  change_exact_from k n0 = true -> n0 <= n < n0 + Z.of_nat k -> change_exact n = true.
Proof.
  induction k as [|k IH]; intros n0 n Hall Hn; [lia|].
  simpl in Hall. apply andb_true_iff in Hall as [Hhead Htail].
  destruct (Z.eq_dec n n0) as [->|Hne]; [exact Hhead|].
  apply (IH (n0 + 1)); [exact Htail|lia].
Qed.

Lemma change_exact_checked :
  change_exact_from (Z.to_nat (CHECKED_EVERY_CENT + 1)) 0 = true.
Proof. vm_compute. reflexivity. Qed.

(** X1.  For every amount of a whole number of hundredths up to
    [CHECKED_EVERY_CENT], the breakdown that [calculate_change]
    computes on floats is the greedy breakdown of exact arithmetic,
    and it adds up to the amount less the rest of its division by five
    hundredths: the rounding of the floats loses nothing. *)
Theorem calculate_change_exact c :
  0 <= c <= CHECKED_EVERY_CENT ->
  exists bd,
    calculate_change (float_of_cents c) = Ok bd /\
    in_cents bd = greedy_cents DENOMINATION_CENTS c /\
    cents_total (in_cents bd) = c - c mod 5.
Proof.
  intros Hc.
  assert (H : change_exact c = true).
  { apply (change_exact_from_spec _ 0 c change_exact_checked).
    unfold CHECKED_EVERY_CENT in *. lia. }
  unfold change_exact in H.
  destruct (calculate_change (float_of_cents c)) as [bd|e]; [|discriminate].
  apply andb_true_iff in H as [Heq Htotal].
  exists bd. split; [reflexivity|]. split; [apply cents_eqb_eq, Heq|apply Z.eqb_eq, Htotal].
Qed.

Lemma calculate_change_exact_witness :
  exists bd,
    calculate_change (float_of_cents 8888) = Ok bd /\
    in_cents bd = [(5000, 1); (2500, 1); (1000, 1); (100, 3); (50, 1); (25, 1); (10, 1)] /\
    cents_total (in_cents bd) = 8885.
Proof.
  apply (calculate_change_exact 8888). unfold CHECKED_EVERY_CENT. lia.
Defined.

(** X2.  The breakdown of [calculate_change] is not always the one
    with the fewest notes and coins: for 40 it is 25 + 10 + 5, three
    notes and coins, and two notes of 20 make 40. *)
Theorem calculate_change_not_fewest :
  exists c bd other,
    calculate_change (float_of_cents c) = Ok bd /\
    cents_total (in_cents bd) = c /\
    Forall (fun dc => In dc.1 DENOMINATIONS /\ 1 <= dc.2) other /\
    cents_total (in_cents other) = c /\
    pieces (in_cents other) < pieces (in_cents bd).
Proof.
  exists 4000, [(PyInt 25, 1); (PyInt 10, 1); (PyInt 5, 1)], [(PyInt 20, 2)].
  split; [vm_compute; reflexivity|]. split; [reflexivity|].
  split; [|split; reflexivity].
  constructor; [|constructor]. split; [|simpl; lia].
  rewrite denominations_sorted. simpl. tauto.
Qed.

(** *** Amounts below the smallest coin *)

Lemma aligned_le_scale ma a mb b e0 :
  0 < ma -> 0 < mb -> e0 <= Z.min a b ->
  (ma * 2 ^ (a - Z.min a b) <= mb * 2 ^ (b - Z.min a b) <->
   ma * 2 ^ (a - e0) <= mb * 2 ^ (b - e0)).
Proof.
  intros Ha Hb He.
  replace (a - e0) with ((a - Z.min a b) + (Z.min a b - e0)) by lia.
  replace (b - e0) with ((b - Z.min a b) + (Z.min a b - e0)) by lia.
  rewrite !Z.pow_add_r by lia.
  assert (0 < 2 ^ (Z.min a b - e0)) by (apply Z.pow_pos_nonneg; lia).
  rewrite !Z.mul_assoc. split; intros H0.
  - apply Z.mul_le_mono_nonneg_r; lia.
  - apply Z.mul_le_mono_pos_r in H0; lia.
Qed.

(** The order of the floats is transitive from a positive finite float
    upwards. *)
Lemma SFleb_trans_pos mx ex my ey z :
  bounded prec emax mx ex = true -> bounded prec emax my ey = true ->
  valid_binary z = true ->
  SFleb (S754_finite false mx ex) (S754_finite false my ey) = true ->
  SFleb (S754_finite false my ey) z = true ->
  SFleb (S754_finite false mx ex) z = true.
Proof.
  intros Hx Hy Hz Hxy Hyz.
  destruct z as [s|s| |s mz ez]; try discriminate Hyz.
  - destruct s; [discriminate Hyz|reflexivity].
  - destruct s; [discriminate Hyz|].
    pose proof (SFleb_finite_pos _ _ _ _ Hx Hy Hxy) as H1.
    pose proof (SFleb_finite_pos _ _ _ _ Hy Hz Hyz) as H2.
    unfold SFleb. rewrite (compare_finite_pos _ _ _ _ Hx Hz).
    set (e0 := Z.min ex (Z.min ey ez)).
    apply (aligned_le_scale _ _ _ _ e0) in H1; [|lia|lia|unfold e0; lia].
    apply (aligned_le_scale _ _ _ _ e0) in H2; [|lia|lia|unfold e0; lia].
    assert (H3 : Z.pos mx * 2 ^ (ex - Z.min ex ez) <= Z.pos mz * 2 ^ (ez - Z.min ex ez)).
    { apply (aligned_le_scale _ _ _ _ e0); [lia|lia|unfold e0; lia|lia]. }
    destruct (Z.compare_spec (Z.pos mx * 2 ^ (ex - Z.min ex ez))
                             (Z.pos mz * 2 ^ (ez - Z.min ex ez))); try reflexivity; lia.
Qed.

(** An amount that does not reach 0.05 reaches no float from 0.05 on. *)
Lemma below_smallest_coin (amount d : float) md ed :
  (0.05 <=? amount)%float = false ->
  Prim2SF d = S754_finite false md ed ->
  (0.05 <=? d)%float = true ->
  (d <=? amount)%float = false.
Proof.
  intros Hlow Hd Hle.
  destruct (d <=? amount)%float eqn:Hreach; [|reflexivity].
  rewrite <- Hlow. symmetry.
  rewrite FloatAxioms.leb_spec in *. rewrite Hd in *.
  pose proof (Prim2SF_valid d) as Vd. rewrite Hd in Vd.
  pose proof (Prim2SF_valid 0.05) as Vc.
  let sf := eval vm_compute in (Prim2SF 0.05) in change (Prim2SF 0.05) with sf in *.
  eapply (SFleb_trans_pos _ _ md ed); [exact Vc|exact Vd|apply Prim2SF_valid|exact Hle|exact Hreach].
Qed.

Lemma no_denomination_reached amount d :
  (0.05 <=? amount)%float = false ->
  In d DENOMINATIONS -> py_ge (PyFloat amount) d = false.
Proof.
  intros Hlow. rewrite denominations_sorted. intros H. cbn [In] in H.
  repeat (destruct H as [<-|H];
          [first [ match goal with
                   | |- py_ge _ (PyInt ?n) = false =>
                       change (py_ge (PyFloat amount) (PyInt n))
                         with (float_of_nonneg n <=? amount)%float;
                       let sf := eval vm_compute in (Prim2SF (float_of_nonneg n)) in
                       match sf with
                       | S754_finite false ?m ?e =>
                           apply (below_smallest_coin amount (float_of_nonneg n) m e Hlow);
                           vm_compute; reflexivity
                       end
                   | |- py_ge _ (PyFloat ?f) = false =>
                       let sf := eval vm_compute in (Prim2SF f) in
                       match sf with
                       | S754_finite false ?m ?e =>
                           apply (below_smallest_coin amount f m e Hlow);
                           vm_compute; reflexivity
                       end
                   end ]|]).
  contradiction.
Qed.

Lemma change_loop_nothing_reached amount denoms :
  (forall d, In d denoms -> py_ge (PyFloat amount) d = false) ->
  change_loop denoms ([], amount) = Ok ([], amount).
Proof.
  induction denoms as [|d denoms IH]; intros H; [reflexivity|].
  cbn [change_loop change_step]. rewrite (H d) by (left; reflexivity). step_bind.
  apply IH. intros d' Hin. apply H. right. exact Hin.
Qed.

(** X3.  An amount that does not reach the smallest coin, 0.05, has an
    empty breakdown, also a negative amount and a NaN. With such a
    balance above zero, [return_change] answers that the change was
    returned with a breakdown that names no note and no coin, logs
    that and resets the session. *)
Theorem change_below_smallest_coin amount :
  (0.05 <=? amount)%float = false ->
  calculate_change amount = Ok [] /\
  format_change_message [] = Ok change_header /\
  (forall now st s,
     session st = Some s ->
     inserted_money s = amount ->
     (0 <? amount)%float = true ->
     counters_ok (denominations_inserted s) ->
     exists entry,
       return_change now st
         = Ok (ChangeReturned amount change_header,
               set_session (add_transaction st entry) fresh_session) /\
       change_returned_notes entry = "{}"%string /\
       change_returned_coins entry = "{}"%string /\
       change_amount entry = amount).
Proof.
  intros Hlow.
  assert (Hbd : calculate_change amount = Ok []).
  { unfold calculate_change.
    rewrite (change_loop_nothing_reached amount DENOMINATIONS); [reflexivity|].
    intros d. apply no_denomination_reached, Hlow. }
  split; [exact Hbd|]. split; [reflexivity|].
  intros now st s Hs Hbal Hpos Hok.
  unfold return_change, session_get. rewrite Hs. step_bind. rewrite Hbal, Hpos, Hbd.
  step_bind. change (format_change_message []) with (Ok change_header : result string).
  step_bind.
  destruct (log_transaction_ok now s [] Hok) as [entry Hlog]. rewrite Hlog. step_bind.
  exists entry. split; [reflexivity|].
  destruct (log_transaction_fields _ _ _ _ Hlog) as (? & ? & _ & _ & _ & _ & Hn & Hc & Ha).
  split; [exact Hn|]. split; [exact Hc|]. rewrite Ha. exact Hbal.
Qed.

Lemma zero_counters_ok : counters_ok zero_counters.
Proof.
  unfold counters_ok. rewrite zero_counters_value.
  repeat (apply Forall_cons_2; [split; [simpl; tauto|unfold two53; simpl; lia]|]).
  apply Forall_nil_2.
Qed.

Lemma change_below_smallest_coin_witness :
  calculate_change 0.04 = Ok [] /\
  exists entry,
    return_change ("2024-01-01", "10:00:00")%string state_4_cents
      = Ok (ChangeReturned 0.04 change_header,
            set_session (add_transaction state_4_cents entry) fresh_session) /\
    change_returned_coins entry = "{}"%string.
Proof.
  destruct (change_below_smallest_coin 0.04 eq_refl) as (Hbd & _ & Hreturn).
  split; [exact Hbd|].
  destruct (Hreturn ("2024-01-01", "10:00:00")%string state_4_cents
              {| inserted_money := 0.04; denominations_inserted := zero_counters;
                 current_transaction := [] |}
              eq_refl eq_refl eq_refl zero_counters_ok) as (entry & Hrun & _ & Hcoins & _).
  exists entry. split; [exact Hrun|exact Hcoins].
Defined.

(** ** Magnitudes of the results of the binary64 operations *)

Module FloatBounds.

Lemma Zdigits2_nonneg m : 0 <= Zdigits2 m.
Proof. destruct m; simpl; lia. Qed.

Lemma Zdigits2_lt_pow2 m : 0 <= m -> m < 2 ^ Zdigits2 m.
Proof.
  intros Hm. destruct (Z.eq_dec m 0) as [->|Hne]; [reflexivity|].
  apply Zdigits2_bounds. lia.
Qed.

Lemma Zdigits2_ge m k : 0 < m -> 2 ^ (k - 1) <= m -> k <= Zdigits2 m.
Proof.
  intros Hm Hk. destruct (Zdigits2_bounds m Hm) as [_ Hhi].
  destruct (Z_le_gt_dec k (Zdigits2 m)) as [|Hgt]; [assumption|].
  assert (2 ^ Zdigits2 m <= 2 ^ (k - 1)) by (apply Z.pow_le_mono_r; lia). lia.
Qed.

Lemma Zdigits2_unique m d : 0 < m -> 2 ^ (d - 1) <= m < 2 ^ d -> Zdigits2 m = d.
Proof.
  intros Hm [Hlo Hhi].
  assert (0 <= d).
  { destruct (Z_le_gt_dec 0 d); [assumption|]. rewrite Z.pow_neg_r in Hhi by lia. lia. }
  apply Z.le_antisymm; [apply Zdigits2_le; lia|apply Zdigits2_ge; assumption].
Qed.

Lemma Zdigits2_mono a b : 0 <= a <= b -> Zdigits2 a <= Zdigits2 b.
Proof.
  intros [Ha Hab]. apply Zdigits2_le; [assumption|apply Zdigits2_nonneg|].
  eapply Z.le_lt_trans; [exact Hab|apply Zdigits2_lt_pow2; lia].
Qed.

(** Rounding a value below [2^k] gives a zero or a finite float below
    [2^(k+1)]. *)
Lemma binary_round_aux_below s mx ex lx k :
  0 <= mx -> ex <= 970 -> Zdigits2 mx + ex <= k -> -1074 <= k <= 1023 ->
  below_pow2 (k + 1) (binary_round_aux prec emax s mx ex lx).
Proof.
  intros Hm Hex Hd Hk.
  pose proof (binary_round_aux_finite s mx ex lx Hm Hex ltac:(lia)) as Hfin.
  destruct (binary_round_aux_shape s mx ex lx Hm) as (m2 & Hm2 & Heq).
  rewrite Heq in *. clear Heq. cbv zeta in *.
  set (n1 := shift_of mx ex) in *. set (e1 := ex + n1) in *.
  set (n2 := shift_of m2 e1) in *.
  assert (Hn1 : 0 <= n1) by (unfold n1, shift_of; lia).
  assert (Hn2 : 0 <= n2) by (unfold n2, shift_of; lia).
  assert (He1 : e1 <= k).
  { unfold e1, n1, shift_of, fexp, SpecFloat.emin, prec, emax.
    pose proof (Zdigits2_nonneg mx). lia. }
  assert (Hm1 : mx / 2 ^ n1 < 2 ^ (k - e1)).
  { apply Z.div_lt_upper_bound; [apply Z.pow_pos_nonneg; lia|].
    rewrite <- Z.pow_add_r by lia.
    eapply Z.lt_le_trans; [apply Zdigits2_lt_pow2, Hm|].
    apply Z.pow_le_mono_r; unfold e1; lia. }
  assert (H0m1 : 0 <= mx / 2 ^ n1) by (apply Z.div_pos; [lia|apply Z.pow_pos_nonneg; lia]).
  destruct (m2 / 2 ^ n2) as [|m|m] eqn:Hm3; simpl; [exact I| |].
  - destruct (e1 + n2 <=? emax - prec); [|exfalso; eapply Hfin; reflexivity].
    simpl. change (Z.pos (digits2_pos m)) with (Zdigits2 (Z.pos m)).
    assert (Hpos : 0 < 2 ^ n2) by (apply Z.pow_pos_nonneg; lia).
    assert (Hm3' : Z.pos m * 2 ^ n2 <= m2).
    { rewrite <- Hm3. rewrite Z.mul_comm. apply Z.mul_div_le. exact Hpos. }
    assert (Hn2k : n2 <= k - e1).
    { destruct (Z_le_gt_dec n2 (k - e1)); [assumption|].
      assert (2 ^ (k - e1 + 1) <= 2 ^ n2) by (apply Z.pow_le_mono_r; lia).
      rewrite Z.pow_add_r in H by lia. change (2 ^ 1) with 2 in H. nia. }
    assert (Z.pos m < 2 ^ (k + 1 - (e1 + n2))).
    { replace (k + 1 - (e1 + n2)) with ((k - e1 - n2) + 1) by lia.
      rewrite Z.pow_add_r by lia. change (2 ^ 1) with 2.
      assert (Z.pos m * 2 ^ n2 <= 2 ^ (k - e1 - n2) * 2 ^ n2).
      { rewrite <- Z.pow_add_r by lia. replace (k - e1 - n2 + n2) with (k - e1) by lia. lia. }
      assert (0 < 2 ^ (k - e1 - n2)) by (apply Z.pow_pos_nonneg; lia).
      nia. }
    assert (Zdigits2 (Z.pos m) <= k + 1 - (e1 + n2)) by (apply Zdigits2_le; lia).
    lia.
  - assert (0 <= m2 / 2 ^ n2) by (apply Z.div_pos; [lia|apply Z.pow_pos_nonneg; lia]). lia.
Qed.

Lemma Zdigits2_div_pow2 m n :
  0 < m -> 0 <= n < Zdigits2 m -> Zdigits2 (m / 2 ^ n) = Zdigits2 m - n.
Proof.
  intros Hm Hn. destruct (Zdigits2_bounds m Hm) as [Hlo Hhi].
  assert (Hpn : 0 < 2 ^ n) by (apply Z.pow_pos_nonneg; lia).
  assert (Hlow : 2 ^ (Zdigits2 m - n - 1) <= m / 2 ^ n).
  { apply Z.div_le_lower_bound; [exact Hpn|].
    rewrite <- Z.pow_add_r by lia. replace (n + (Zdigits2 m - n - 1)) with (Zdigits2 m - 1) by lia.
    exact Hlo. }
  assert (0 < 2 ^ (Zdigits2 m - n - 1)) by (apply Z.pow_pos_nonneg; lia).
  apply Zdigits2_unique; [lia|]. split; [exact Hlow|].
  apply Z.div_lt_upper_bound; [exact Hpn|].
  rewrite <- Z.pow_add_r by lia. replace (n + (Zdigits2 m - n)) with (Zdigits2 m) by lia.
  exact Hhi.
Qed.

(** Rounding a mantissa that is wide enough gives a float of the
    format. *)
Lemma binary_round_aux_valid s mx ex lx :
  0 <= mx -> ex <= fexp64 (Zdigits2 mx + ex) ->
  valid_binary (binary_round_aux prec emax s mx ex lx) = true.
Proof.
  intros Hm Hwide.
  destruct (binary_round_aux_shape s mx ex lx Hm) as (m2 & Hm2 & ->). cbv zeta.
  set (n1 := shift_of mx ex) in *. set (e1 := ex + n1) in *.
  set (n2 := shift_of m2 e1).
  assert (Hn1 : n1 = fexp64 (Zdigits2 mx + ex) - ex) by (unfold n1, shift_of; lia).
  assert (He1 : e1 = fexp64 (Zdigits2 mx + ex)) by (unfold e1; lia).
  assert (Hn2 : 0 <= n2) by (unfold n2, shift_of; lia).
  assert (H0m1 : 0 <= mx / 2 ^ n1) by (apply Z.div_pos; [lia|apply Z.pow_pos_nonneg; lia]).
  destruct (m2 / 2 ^ n2) as [|m|m] eqn:Hm3; [reflexivity| |reflexivity].
  destruct (e1 + n2 <=? emax - prec) eqn:Hle; [|reflexivity].
  cbn [SpecFloat.valid_binary]. unfold bounded. rewrite Hle, andb_true_r.
  unfold canonical_mantissa. apply Z.eqb_eq.
  change (Z.pos (digits2_pos m)) with (Zdigits2 (Z.pos m)). rewrite <- Hm3.
  assert (Hm2pos : 0 < m2).
  { destruct (Z.eq_dec m2 0) as [->|]; [|lia]. rewrite Z.div_0_l in Hm3; [discriminate|].
    apply Z.pow_nonzero; lia. }
  destruct (Z.eq_dec n2 0) as [Hz|Hnz].
  - rewrite Hz, Z.pow_0_r, Z.div_1_r, Z.add_0_r.
    assert (Hshift : fexp64 (Zdigits2 m2 + e1) <= e1) by (unfold n2, shift_of in Hz; lia).
    apply Z.le_antisymm; [exact Hshift|].
    unfold fexp, SpecFloat.emin, prec, emax in *.
    destruct (Z_le_gt_dec (Zdigits2 mx + ex - 53) (3 - 1024 - 53)) as [Hsub|Hnorm]; [lia|].
    assert (Hmx : 0 < mx).
    { destruct (Z.eq_dec mx 0) as [->|]; [simpl in *; lia|lia]. }
    assert (Hw : Zdigits2 mx - n1 = 53) by lia.
    assert (Hd1 : Zdigits2 (mx / 2 ^ n1) = 53).
    { rewrite Zdigits2_div_pow2; lia. }
    assert (53 <= Zdigits2 m2).
    { rewrite <- Hd1. apply Zdigits2_mono. lia. }
    lia.
  - assert (Hshift : n2 = fexp64 (Zdigits2 m2 + e1) - e1) by (unfold n2, shift_of in *; lia).
    assert (Hlt : n2 < Zdigits2 m2).
    { destruct (Z_le_gt_dec (Zdigits2 m2) n2) as [Hge|]; [|lia].
      exfalso. assert (m2 < 2 ^ n2).
      { eapply Z.lt_le_trans; [apply Zdigits2_lt_pow2; lia|apply Z.pow_le_mono_r; lia]. }
      rewrite Z.div_small in Hm3 by lia. discriminate. }
    rewrite Zdigits2_div_pow2 by lia.
    replace (Zdigits2 m2 - n2 + (e1 + n2)) with (Zdigits2 m2 + e1) by lia. lia.
Qed.

(** [shl_align] keeps the value and the number of digits plus the
    exponent. *)
Lemma shl_align_facts m e e' :
  let '(mz, ez) := shl_align m e e' in
  ez = Z.min e e' /\ Z.pos mz = Z.pos m * 2 ^ (e - ez) /\
  Zdigits2 (Z.pos mz) + ez = Zdigits2 (Z.pos m) + e.
Proof.
  unfold shl_align. destruct (e' - e) as [|d|d] eqn:Hd.
  - split; [lia|]. replace (e - e) with 0 by lia. rewrite Z.pow_0_r. split; [lia|reflexivity].
  - split; [lia|]. replace (e - e) with 0 by lia. rewrite Z.pow_0_r. split; [lia|reflexivity].
  - split; [lia|]. split.
    + rewrite iter_xO. f_equal. f_equal. lia.
    + simpl. rewrite digits2_iter_xO. lia.
Qed.

Lemma binary_round_below s m e k :
  Zdigits2 (Z.pos m) + e <= k -> -1074 <= k <= 1023 ->
  below_pow2 (k + 1) (binary_round prec emax s m e).
Proof.
  intros Hd Hk. unfold binary_round.
  pose proof (shl_align_facts m e (fexp64 (Z.pos (digits2_pos m) + e))) as H.
  destruct (shl_align m e _) as [mz ez]. destruct H as (Hez & _ & Hdig).
  apply binary_round_aux_below; [lia| |lia|exact Hk].
  change (Z.pos (digits2_pos m)) with (Zdigits2 (Z.pos m)) in Hez.
  unfold fexp, SpecFloat.emin, prec, emax in Hez. lia.
Qed.

Lemma binary_round_valid s m e : valid_binary (binary_round prec emax s m e) = true.
Proof.
  unfold binary_round.
  pose proof (shl_align_facts m e (fexp64 (Z.pos (digits2_pos m) + e))) as H.
  destruct (shl_align m e _) as [mz ez]. destruct H as (Hez & _ & Hdig).
  apply binary_round_aux_valid; [lia|].
  rewrite Hdig. change (Z.pos (digits2_pos m)) with (Zdigits2 (Z.pos m)) in Hez. lia.
Qed.

Lemma binary_normalize_below m e sz k :
  Zdigits2 m + e <= k -> -1074 <= k <= 1023 ->
  below_pow2 (k + 1) (binary_normalize prec emax m e sz).
Proof.
  intros Hd Hk. destruct m as [|p|p]; [exact I| |]; apply binary_round_below; assumption.
Qed.

Lemma binary_normalize_valid m e sz : valid_binary (binary_normalize prec emax m e sz) = true.
Proof. destruct m; [reflexivity| |]; apply binary_round_valid. Qed.

Lemma below_pow2_mono k k' x : below_pow2 k x -> k <= k' -> below_pow2 k' x.
Proof. destruct x; simpl; intros; try assumption. lia. Qed.

Lemma fexp64_mono a b : a <= b -> fexp64 a <= fexp64 b.
Proof. unfold fexp, SpecFloat.emin, prec, emax. lia. Qed.

(** The quotient and the exponent that [SFdiv] rounds. *)
Lemma SFdiv_core_facts mr er md ed :
  let '(q, e', _) := SFdiv_core_binary prec emax (Z.pos mr) er (Z.pos md) ed in
  let D := Zdigits2 (Z.pos mr) + er - (Zdigits2 (Z.pos md) + ed) in
  0 <= q /\ e' <= fexp64 D /\ Zdigits2 q + e' <= Z.max (D + 1) (fexp64 D) /\
  e' <= fexp64 (Zdigits2 q + e').
Proof.
  unfold SFdiv_core_binary.
  set (d1 := Zdigits2 (Z.pos mr)). set (d2 := Zdigits2 (Z.pos md)).
  set (D := d1 + er - (d2 + ed)).
  set (e' := Z.min (fexp64 D) (er - ed)).
  set (s := er - ed - e').
  assert (Hs : 0 <= s) by (unfold s, e'; lia).
  set (m' := match s with Z.pos _ => Z.shiftl (Z.pos mr) s | 0 => Z.pos mr | Z.neg _ => 0 end).
  assert (Hm' : m' = Z.pos mr * 2 ^ s).
  { unfold m'. destruct s as [|p|p] eqn:Hsp.
    - rewrite Z.pow_0_r. lia.
    - apply Z.shiftl_mul_pow2. lia.
    - lia. }
  destruct (Z.div_eucl m' (Z.pos md)) as [q rem] eqn:Hdiv.
  assert (Hq : q = m' / Z.pos md) by (unfold Z.div; rewrite Hdiv; reflexivity).
  destruct (Zdigits2_bounds (Z.pos mr) ltac:(lia)) as [Hrlo Hrhi].
  destruct (Zdigits2_bounds (Z.pos md) ltac:(lia)) as [Hdlo Hdhi].
  fold d1 in Hrlo, Hrhi. fold d2 in Hdlo, Hdhi.
  assert (Hd1 : 1 <= d1) by (unfold d1; simpl; lia).
  assert (Hd2 : 1 <= d2) by (unfold d2; simpl; lia).
  assert (Hps : 0 < 2 ^ s) by (apply Z.pow_pos_nonneg; lia).
  assert (Hq0 : 0 <= q) by (rewrite Hq; apply Z.div_pos; nia).
  assert (He' : e' <= fexp64 D) by (unfold e'; lia).
  split; [exact Hq0|]. split; [exact He'|].
  assert (Hup : Zdigits2 q + e' <= Z.max (D + 1) (fexp64 D)).
  { destruct (Z_le_gt_dec 0 (d1 + s - d2 + 1)) as [Hnn|Hneg].
    - assert (q < 2 ^ (d1 + s - d2 + 1)).
      { rewrite Hq. apply Z.div_lt_upper_bound; [lia|].
        assert (2 ^ (d1 + s) = 2 ^ (d2 - 1) * 2 ^ (d1 + s - d2 + 1)).
        { rewrite <- Z.pow_add_r by lia. f_equal. lia. }
        assert (m' < 2 ^ (d1 + s)).
        { rewrite Hm', Z.pow_add_r by lia. nia. }
        assert (0 < 2 ^ (d1 + s - d2 + 1)) by (apply Z.pow_pos_nonneg; lia).
        nia. }
      assert (Zdigits2 q <= d1 + s - d2 + 1) by (apply Zdigits2_le; lia).
      unfold s in *. unfold D. lia.
    - assert (q = 0).
      { rewrite Hq. apply Z.div_small. split; [nia|].
        assert (2 ^ (d1 + s) <= 2 ^ (d2 - 1)) by (apply Z.pow_le_mono_r; lia).
        rewrite Hm'. rewrite Z.pow_add_r in H by lia. nia. }
      subst q. rewrite H. simpl. lia. }
  split; [exact Hup|].
  destruct (Z_le_gt_dec 0 (d1 + s - d2 - 1)) as [Hnn|Hneg].
  - assert (2 ^ (d1 + s - d2 - 1) <= q).
    { rewrite Hq. apply Z.div_le_lower_bound; [lia|].
      assert (2 ^ (d1 - 1 + s) = 2 ^ (d1 + s - d2 - 1) * 2 ^ d2).
      { rewrite <- Z.pow_add_r by lia. f_equal. lia. }
      assert (2 ^ (d1 - 1 + s) <= m').
      { rewrite Hm', Z.pow_add_r by lia. nia. }
      assert (0 < 2 ^ (d1 + s - d2 - 1)) by (apply Z.pow_pos_nonneg; lia).
      nia. }
    assert (0 < q).
    { assert (0 < 2 ^ (d1 + s - d2 - 1)) by (apply Z.pow_pos_nonneg; lia). lia. }
    assert (d1 + s - d2 <= Zdigits2 q).
    { apply Zdigits2_ge; [assumption|]. replace (d1 + s - d2 - 1) with (d1 + s - d2 - 1) by lia.
      assumption. }
    transitivity (fexp64 D); [exact He'|]. apply fexp64_mono. unfold D, s in *. lia.
  - assert (e' <= -1074).
    { unfold e', D, s, fexp, SpecFloat.emin, prec, emax in *. lia. }
    unfold fexp, SpecFloat.emin, prec, emax. lia.
Qed.

Lemma SFdiv_valid x y : valid_binary (SF64div x y) = true.
Proof.
  destruct x as [sx|sx| |sx mx ex], y as [sy|sy| |sy my ey]; try reflexivity.
  unfold SF64div, SFdiv.
  pose proof (SFdiv_core_facts mx ex my ey) as H.
  destruct (SFdiv_core_binary prec emax (Z.pos mx) ex (Z.pos my) ey) as [[q e'] l].
  destruct H as (Hq & _ & _ & Hwide).
  apply binary_round_aux_valid; assumption.
Qed.

(** The quotient of a float below [2^kx] by a finite float of at least
    [2^(ky - 1)] is below [2^(kx - ky + 2)]. *)
Lemma SFdiv_below sx mx ex sy my ey k :
  Zdigits2 (Z.pos mx) + ex - (Zdigits2 (Z.pos my) + ey) + 1 <= k ->
  -1074 <= k <= 1023 ->
  below_pow2 (k + 1)
    (SF64div (S754_finite sx mx ex) (S754_finite sy my ey)).
Proof.
  intros HD Hk. unfold SF64div, SFdiv.
  pose proof (SFdiv_core_facts mx ex my ey) as H.
  destruct (SFdiv_core_binary prec emax (Z.pos mx) ex (Z.pos my) ey) as [[q e'] l].
  cbv zeta in H. destruct H as (Hq & He' & Hup & _).
  apply binary_round_aux_below; [exact Hq| | |exact Hk];
    unfold fexp, SpecFloat.emin, prec, emax in *; lia.
Qed.

Lemma Zdigits2_abs z : Zdigits2 z = Zdigits2 (Z.abs z).
Proof. destruct z; reflexivity. Qed.

Lemma Zdigits2_abs_le z k : 0 <= k -> Z.abs z < 2 ^ k -> Zdigits2 z <= k.
Proof. intros Hk Hz. rewrite Zdigits2_abs. apply Zdigits2_le; lia. Qed.

Lemma aligned_lt_pow2 m e ez k :
  ez <= e -> Zdigits2 (Z.pos m) + e <= k -> Z.pos m * 2 ^ (e - ez) < 2 ^ (k - ez).
Proof.
  intros He Hd.
  destruct (Zdigits2_bounds (Z.pos m) ltac:(lia)) as [_ Hhi].
  assert (0 < 2 ^ (e - ez)) by (apply Z.pow_pos_nonneg; lia).
  assert (2 ^ Zdigits2 (Z.pos m) * 2 ^ (e - ez) <= 2 ^ (k - ez)).
  { rewrite <- Z.pow_add_r by (try apply Zdigits2_nonneg; lia).
    apply Z.pow_le_mono_r; lia. }
  nia.
Qed.

(** The difference of two floats below [2^k] is below [2^(k+2)]. *)
Lemma SFsub_below x y k :
  below_pow2 k x -> below_pow2 k y -> -1074 <= k <= 1021 ->
  below_pow2 (k + 2) (SF64sub x y).
Proof.
  intros Hx Hy Hk.
  destruct x as [sx|sx| |sx mx ex]; try contradiction;
    destruct y as [sy|sy| |sy my ey]; try contradiction.
  - destruct sx, sy; exact I.
  - simpl in *. lia.
  - simpl in *. lia.
  - simpl in Hx, Hy. unfold SF64sub, SFsub.
    set (ez := Z.min ex ey).
    rewrite !shl_align_fst by (unfold ez; lia).
    apply (below_pow2_mono (k + 1 + 1)); [|lia].
    apply binary_normalize_below; [|lia].
    pose proof (aligned_lt_pow2 mx ex ez k ltac:(unfold ez; lia) Hx) as Hax.
    pose proof (aligned_lt_pow2 my ey ez k ltac:(unfold ez; lia) Hy) as Hay.
    assert (Ha0 : 0 < Z.pos mx * 2 ^ (ex - ez)).
    { apply Z.mul_pos_pos; [lia|apply Z.pow_pos_nonneg; unfold ez; lia]. }
    assert (Hb0 : 0 < Z.pos my * 2 ^ (ey - ez)).
    { apply Z.mul_pos_pos; [lia|apply Z.pow_pos_nonneg; unfold ez; lia]. }
    assert (Hkz : 0 <= k - ez).
    { destruct (Z_le_gt_dec 0 (k - ez)); [assumption|].
      rewrite Z.pow_neg_r in Hax by lia. lia. }
    assert (Zdigits2 (cond_Zopp sx (Z.pos mx * 2 ^ (ex - ez))
                      - cond_Zopp sy (Z.pos my * 2 ^ (ey - ez))) <= k - ez + 1).
    { apply Zdigits2_abs_le; [lia|].
      rewrite Z.pow_add_r by lia. change (2 ^ 1) with 2.
      destruct sx, sy; unfold cond_Zopp; lia. }
    lia.
Qed.

Lemma Zdigits2_mul a b : 0 < a -> 0 < b -> Zdigits2 (a * b) <= Zdigits2 a + Zdigits2 b.
Proof.
  intros Ha Hb.
  destruct (Zdigits2_bounds a Ha) as [_ Hah]. destruct (Zdigits2_bounds b Hb) as [_ Hbh].
  apply Zdigits2_le; [nia| |].
  - pose proof (Zdigits2_nonneg a). pose proof (Zdigits2_nonneg b). lia.
  - rewrite Z.pow_add_r by apply Zdigits2_nonneg. nia.
Qed.

(** The product of a float below [2^kx] and a float below [2^ky] is
    below [2^(kx+ky+1)]. *)
Lemma SFmul_below x y kx ky :
  below_pow2 kx x -> below_pow2 ky y -> -1074 <= kx + ky <= 972 ->
  below_pow2 (kx + ky + 1) (SF64mul x y).
Proof.
  intros Hx Hy Hk.
  destruct x as [sx|sx| |sx mx ex]; try contradiction;
    destruct y as [sy|sy| |sy my ey]; try contradiction; try exact I.
  simpl in Hx, Hy. unfold SF64mul, SFmul.
  assert (Hdx : 1 <= Z.pos (digits2_pos mx)) by lia.
  assert (Hdy : 1 <= Z.pos (digits2_pos my)) by lia.
  apply binary_round_aux_below; [lia|lia| |lia].
  rewrite Pos2Z.inj_mul.
  pose proof (Zdigits2_mul (Z.pos mx) (Z.pos my) ltac:(lia) ltac:(lia)) as H.
  simpl in H. simpl. lia.
Qed.

Lemma SFopp_below k x : below_pow2 k x -> below_pow2 k (SFopp x).
Proof. destruct x; simpl; auto. Qed.

End FloatBounds.
Import FloatBounds.

(** ** Magnitudes of Python floats *)

Module PrimBounds.

(** The float of a non-negative [int] is what [binary_normalize] makes of
    it. *)
Lemma float_of_nonneg_spec z :
  0 <= z -> Prim2SF (float_of_nonneg z) = binary_normalize prec emax z 0 false.
Proof.
  intros Hz. unfold float_of_nonneg. destruct (Z.ltb_spec z two53) as [Hlt|Hge].
  - rewrite FloatAxioms.of_uint63_spec, Uint63.of_Z_spec.
    rewrite Z.mod_small; [reflexivity|].
    unfold two53 in Hlt. change Uint63.wB with (2 ^ 63). lia.
  - apply FloatAxioms.Prim2SF_SF2Prim, binary_normalize_valid.
Qed.

Lemma below_not_infinity k (f : float) :
  below_pow2 k (Prim2SF f) -> is_infinity f = false.
Proof.
  unfold is_infinity. rewrite FloatAxioms.eqb_spec, FloatAxioms.abs_spec.
  change (Prim2SF infinity) with (S754_infinity false).
  destruct (Prim2SF f) as [s|s| |s m e]; simpl; try contradiction; reflexivity.
Qed.

(** An [int] of absolute value below [2^k] converts to a float below
    [2^(k+1)]. *)
Lemma float_of_int_below z k :
  Zdigits2 z <= k -> 0 <= k <= 1023 ->
  exists f, float_of_int z = Ok f /\ below_pow2 (k + 1) (Prim2SF f).
Proof.
  intros Hd Hk.
  assert (Hb : below_pow2 (k + 1) (Prim2SF (float_of_nonneg (Z.abs z)))).
  { rewrite float_of_nonneg_spec by lia.
    apply binary_normalize_below; [|lia]. rewrite <- Zdigits2_abs. lia. }
  unfold float_of_int. rewrite (below_not_infinity _ _ Hb).
  destruct (z <? 0); eexists; (split; [reflexivity|]).
  - rewrite FloatAxioms.opp_spec. apply SFopp_below, Hb.
  - exact Hb.
Qed.

(** The integer part of a float below [2^k]. *)
Lemma py_int_below (q : float) k :
  below_pow2 k (Prim2SF q) -> 0 <= k ->
  exists c, py_int q = Ok c /\ Zdigits2 c <= k.
Proof.
  intros Hq Hk. unfold py_int.
  destruct (Prim2SF q) as [s|s| |s m e]; try contradiction.
  - exists 0. split; [reflexivity|simpl; lia].
  - simpl in Hq. eexists. split; [reflexivity|].
    assert (Hmag : Zdigits2 (if 0 <=? e then Z.shiftl (Z.pos m) e else Z.shiftr (Z.pos m) (- e))
                   <= k).
    { destruct (Zdigits2_bounds (Z.pos m) ltac:(lia)) as [_ Hhi].
      change (Zdigits2 (Z.pos m)) with (Z.pos (digits2_pos m)) in Hhi.
      destruct (Z.leb_spec 0 e) as [He|He].
      - rewrite Z.shiftl_mul_pow2 by lia.
        apply Zdigits2_le; [|lia|].
        + apply Z.mul_nonneg_nonneg; [lia|apply Z.pow_nonneg; lia].
        + assert (0 < 2 ^ e) by (apply Z.pow_pos_nonneg; lia).
          assert (2 ^ Z.pos (digits2_pos m) * 2 ^ e <= 2 ^ k).
          { rewrite <- Z.pow_add_r by lia. apply Z.pow_le_mono_r; lia. }
          nia.
      - rewrite Z.shiftr_div_pow2 by lia.
        apply Zdigits2_le; [|lia|].
        + apply Z.div_pos; [lia|apply Z.pow_pos_nonneg; lia].
        + apply Z.div_lt_upper_bound; [apply Z.pow_pos_nonneg; lia|].
          destruct (Z_le_gt_dec 0 (Z.pos (digits2_pos m) + e)).
          * assert (2 ^ Z.pos (digits2_pos m) <= 2 ^ (- e) * 2 ^ k).
            { rewrite <- Z.pow_add_r by lia. apply Z.pow_le_mono_r; lia. }
            lia.
          * assert (2 ^ Z.pos (digits2_pos m) <= 2 ^ (- e)) by (apply Z.pow_le_mono_r; lia).
            assert (1 <= 2 ^ k) by (apply (Z.pow_le_mono_r 2 0); lia).
            nia. }
    destruct s; [|exact Hmag].
    rewrite Zdigits2_abs, Z.abs_opp, <- Zdigits2_abs. exact Hmag.
Qed.

(** The number of hundredths of a float below [2^k]. *)
Lemma sf_cents_below x k :
  below_pow2 k x -> 0 <= k -> 0 <= sf_cents x /\ Zdigits2 (sf_cents x) <= k + 8.
Proof.
  intros Hx Hk. destruct x as [s|s| |s m e]; try contradiction; [simpl; lia|].
  simpl in Hx. unfold sf_cents.
  destruct (Zdigits2_bounds (Z.pos m) ltac:(lia)) as [_ Hhi].
  change (Zdigits2 (Z.pos m)) with (Z.pos (digits2_pos m)) in Hhi.
  assert (H100 : 100 < 2 ^ 7) by reflexivity.
  destruct (Z.leb_spec 0 e) as [He|He].
  - rewrite Z.shiftl_mul_pow2 by lia.
    assert (0 < 2 ^ e) by (apply Z.pow_pos_nonneg; lia).
    split; [nia|]. apply Zdigits2_le; [nia|lia|].
    assert (2 ^ Z.pos (digits2_pos m) * 2 ^ 7 * 2 ^ e <= 2 ^ (k + 8)).
    { rewrite <- !Z.pow_add_r by lia. apply Z.pow_le_mono_r; lia. }
    nia.
  - rewrite Z.shiftr_div_pow2, Z.shiftl_mul_pow2 by lia.
    set (q := Z.pos m * 100 / 2 ^ (- e)).
    assert (Hp : 0 < 2 ^ (- e)) by (apply Z.pow_pos_nonneg; lia).
    assert (Hq0 : 0 <= q) by (apply Z.div_pos; lia).
    assert (Hq : q + 1 < 2 ^ (k + 8)).
    { assert (q < 2 ^ (k + 7)).
      { apply Z.div_lt_upper_bound; [exact Hp|].
        destruct (Z_le_gt_dec 0 (Z.pos (digits2_pos m) + e)).
        - assert (2 ^ Z.pos (digits2_pos m) * 2 ^ 7 <= 2 ^ (- e) * 2 ^ (k + 7)).
          { rewrite <- !Z.pow_add_r by lia. apply Z.pow_le_mono_r; lia. }
          nia.
        - assert (2 ^ Z.pos (digits2_pos m) <= 2 ^ (- e)) by (apply Z.pow_le_mono_r; lia).
          assert (2 ^ 7 <= 2 ^ (k + 7)) by (apply Z.pow_le_mono_r; lia).
          nia. }
      assert (1 <= 2 ^ (k + 7)) by (apply (Z.pow_le_mono_r 2 0); lia).
      replace (k + 8) with (k + 7 + 1) by lia. rewrite Z.pow_add_r by lia.
      change (2 ^ 1) with 2. lia. }
    assert (Hres : forall n, 0 <= n <= q + 1 -> 0 <= n /\ Zdigits2 n <= k + 8).
    { intros n Hn. split; [lia|]. apply Zdigits2_le; lia. }
    match goal with |- context [match ?c with Eq => _ | Lt => _ | Gt => _ end] => destruct c end;
      try (apply Hres; lia).
    destruct (Z.even q); apply Hres; lia.
Qed.

(** The float nearest to [n / 100]. *)
Lemma float_of_cents_below n j :
  0 <= n -> Zdigits2 n <= j -> 0 <= j <= 1020 ->
  below_pow2 (j - 4) (Prim2SF (float_of_cents n)).
Proof.
  intros Hn Hd Hj. unfold float_of_cents.
  destruct (Z.ltb_spec n two53) as [Hlt|Hge].
  - rewrite FloatAxioms.div_spec.
    assert (Hnum : Prim2SF (of_uint63 (Uint63.of_Z n)) = Prim2SF (float_of_nonneg n)).
    { unfold float_of_nonneg. destruct (Z.ltb_spec n two53); [reflexivity|lia]. }
    rewrite Hnum, float_of_nonneg_spec by exact Hn.
    pose proof (binary_normalize_below n 0 false j ltac:(lia) ltac:(lia)) as Hb.
    let sf := eval vm_compute in (Prim2SF 100) in change (Prim2SF 100) with sf.
    destruct (binary_normalize prec emax n 0 false) as [s|s| |s m e]; try contradiction;
      [exact I|].
    simpl in Hb. apply (below_pow2_mono (j - 5 + 1)); [|lia].
    apply SFdiv_below; [|lia]. simpl. lia.
  - destruct n as [|p|p]; [exact I| |exact I].
    rewrite FloatAxioms.Prim2SF_SF2Prim by apply SFdiv_valid.
    apply (below_pow2_mono (j - 6 + 1)); [|lia].
    apply SFdiv_below; [|lia]. simpl in *. lia.
Qed.

(** [round(x, 2)] of a float below [2^k] is below [2^(k+4)]. *)
Lemma round2_below (x : float) k :
  below_pow2 k (Prim2SF x) -> 0 <= k <= 1012 ->
  below_pow2 (k + 4) (Prim2SF (round2 x)).
Proof.
  intros Hx Hk. unfold round2.
  destruct (Prim2SF x) as [s|s| |s m e] eqn:Hsf; try contradiction.
  - rewrite Hsf. exact I.
  - destruct (sf_cents_below (S754_finite s m e) k Hx ltac:(lia)) as [Hn Hd].
    pose proof (float_of_cents_below _ (k + 8) Hn Hd ltac:(lia)) as Hb.
    replace (k + 8 - 4) with (k + 4) in Hb by lia.
    destruct s; [|exact Hb].
    rewrite FloatAxioms.opp_spec. apply SFopp_below, Hb.
Qed.

End PrimBounds.
Import PrimBounds.

(** ** [calculate_change] returns *)

Lemma denominations_floats :
  Forall (fun d => exists df, denomination_float d df) DENOMINATIONS.
Proof.
  rewrite denominations_sorted.
  repeat constructor;
    match goal with
    | |- exists df, denomination_float (PyInt ?n) df =>
        let sf := eval vm_compute in (Prim2SF (float_of_nonneg n)) in
        match sf with
        | S754_finite false ?m ?e => exists (float_of_nonneg n), m, e
        end
    | |- exists df, denomination_float (PyFloat ?f) df =>
        let sf := eval vm_compute in (Prim2SF f) in
        match sf with
        | S754_finite false ?m ?e => exists f, m, e
        end
    end;
    (split; [vm_compute; reflexivity|]);
    (split; [vm_compute; split; discriminate|]);
    (split; [intros r; vm_compute; reflexivity|]);
    (split; [intros r; vm_compute; reflexivity|]);
    first [reflexivity|lia].
Qed.

Lemma Zdigits2_abs_lt z k : Zdigits2 z <= k -> Z.abs z < 2 ^ k.
Proof.
  intros Hd. rewrite Zdigits2_abs in Hd.
  eapply Z.lt_le_trans; [apply Zdigits2_lt_pow2; lia|].
  apply Z.pow_le_mono_r; [lia|exact Hd].
Qed.

(** One step of the loop on a remainder below [2^k]: it returns, with a
    remainder below [2^(k+21)]. *)
Lemma change_step_returns bd r d df k :
  denomination_float d df ->
  below_pow2 k (Prim2SF r) -> 0 <= k <= 950 ->
  exists bd' r',
    change_step (bd, r) d = Ok (bd', r') /\ below_pow2 (k + 21) (Prim2SF r').
Proof.
  intros (md & ed & Hdf & Hmag & Hdiv & Hge & Hkind) Hr Hk. unfold change_step.
  destruct (py_ge (PyFloat r) d).
  2:{ exists bd, r. split; [reflexivity|]. eapply below_pow2_mono; [exact Hr|lia]. }
  rewrite Hdiv. step_bind.
  assert (Hq : below_pow2 (k + 6) (Prim2SF (r / df))).
  { rewrite FloatAxioms.div_spec, Hdf.
    destruct (Prim2SF r) as [s|s| |s m e]; try contradiction; [exact I|].
    cbn [below_pow2] in Hr. apply (below_pow2_mono (k + 5 + 1)); [|lia].
    apply SFdiv_below; lia. }
  destruct (py_int_below _ _ Hq ltac:(lia)) as (c & -> & Hc). step_bind.
  pose proof (Zdigits2_abs_lt c _ Hc) as Hcabs.
  destruct d as [n|f].
  - cbn [int_mul]. step_bind. cbn [float_sub].
    assert (Hcn : Zdigits2 (c * n) <= k + 13).
    { apply Zdigits2_abs_le; [lia|]. rewrite Z.abs_mul.
      replace (k + 13) with ((k + 6) + 7) by lia. rewrite Z.pow_add_r by lia.
      apply Z.mul_lt_mono_nonneg;
        [apply Z.abs_nonneg|exact Hcabs|apply Z.abs_nonneg|change (2 ^ 7) with 128; lia]. }
    destruct (float_of_int_below _ _ Hcn ltac:(lia)) as (yf & -> & Hyf). step_bind.
    eexists _, _. split; [reflexivity|].
    apply (below_pow2_mono (k + 16 + 4)); [|lia].
    apply round2_below; [|lia].
    rewrite FloatAxioms.sub_spec. apply (below_pow2_mono (k + 14 + 2)); [|lia].
    apply SFsub_below;
      [eapply below_pow2_mono; [exact Hr|lia]|eapply below_pow2_mono; [exact Hyf|lia]|lia].
  - subst f. cbn [int_mul].
    destruct (float_of_int_below _ _ Hc ltac:(lia)) as (cf & -> & Hcf). step_bind.
    cbn [float_sub].
    eexists _, _. split; [reflexivity|].
    apply (below_pow2_mono (k + 17 + 4)); [|lia].
    apply round2_below; [|lia].
    rewrite FloatAxioms.sub_spec. apply (below_pow2_mono (k + 15 + 2)); [|lia].
    apply SFsub_below; [eapply below_pow2_mono; [exact Hr|lia]| |lia].
    rewrite FloatAxioms.mul_spec. apply (below_pow2_mono (k + 7 + 7 + 1)); [|lia].
    apply SFmul_below; [eapply below_pow2_mono; [exact Hcf|lia]| |lia].
    rewrite Hdf. simpl. change (Z.pos (digits2_pos md)) with (Zdigits2 (Z.pos md)). lia.
Qed.

Lemma change_loop_returns denoms : forall bd r k,
  Forall (fun d => exists df, denomination_float d df) denoms ->
  below_pow2 k (Prim2SF r) -> 0 <= k ->
  k + 21 * Z.of_nat (length denoms) <= 971 ->
  exists st', change_loop denoms (bd, r) = Ok st'.
Proof.
  induction denoms as [|d denoms IH]; intros bd r k Hd Hr Hk Hlen; [eexists; reflexivity|].
  apply Forall_cons_1 in Hd as [[df Hdf] Hd].
  cbn [length] in Hlen. cbn [change_loop].
  destruct (change_step_returns bd r d df k Hdf Hr ltac:(lia)) as (bd' & r' & -> & Hr').
  step_bind. apply (IH bd' r' (k + 21)); [exact Hd|exact Hr'|lia|lia].
Qed.

Lemma Zdigits2_mul_pow2 m n : 0 < m -> 0 <= n -> Zdigits2 (m * 2 ^ n) = Zdigits2 m + n.
Proof.
  intros Hm Hn. destruct (Zdigits2_bounds m Hm) as [Hlo Hhi].
  assert (0 < 2 ^ n) by (apply Z.pow_pos_nonneg; lia).
  pose proof (Zdigits2_nonneg m).
  assert (1 <= Zdigits2 m).
  { destruct m; simpl; lia. }
  apply Zdigits2_unique; [nia|]. split.
  - replace (Zdigits2 m + n - 1) with (Zdigits2 m - 1 + n) by lia.
    rewrite Z.pow_add_r by lia. nia.
  - rewrite Z.pow_add_r by lia. nia.
Qed.

(** A positive float below [CHANGE_BOUND] is below [2^665]. *)
Lemma below_change_bound (a : float) :
  (0.05 <=? a)%float = true -> (a <? CHANGE_BOUND)%float = true ->
  below_pow2 665 (Prim2SF a).
Proof.
  rewrite FloatAxioms.leb_spec, FloatAxioms.ltb_spec.
  pose proof (Prim2SF_valid a) as Va.
  pose proof (Prim2SF_valid CHANGE_BOUND) as Vb.
  let sf := eval vm_compute in (Prim2SF 0.05) in change (Prim2SF 0.05) with sf.
  revert Vb.
  let sf := eval vm_compute in (Prim2SF CHANGE_BOUND) in change (Prim2SF CHANGE_BOUND) with sf.
  intros Vb.
  destruct (Prim2SF a) as [s|s| |s ma ea]; try discriminate.
  - destruct s; discriminate.
  - destruct s; [discriminate|]. intros _ Hlt.
    match type of Vb with
    | valid_binary (S754_finite false ?mb ?eb) = true =>
        unfold SFltb in Hlt; rewrite (compare_finite_pos ma ea mb eb Va Vb) in Hlt;
        pose proof (aligned_lt_pow2 mb eb (Z.min ea eb) 665 ltac:(lia)
                      ltac:(vm_compute; discriminate)) as Hb;
        set (e0 := Z.min ea eb) in *;
        assert (Hma : Z.pos ma * 2 ^ (ea - e0) < 2 ^ (665 - e0))
          by (destruct (Z.compare_spec (Z.pos ma * 2 ^ (ea - e0)) (Z.pos mb * 2 ^ (eb - e0)));
              try discriminate; lia)
    end.
    simpl.
    assert (H0 : 0 <= 665 - e0).
    { destruct (Z_le_gt_dec 0 (665 - e0)); [assumption|].
      rewrite Z.pow_neg_r in Hma by lia.
      assert (0 < Z.pos ma * 2 ^ (ea - e0)).
      { apply Z.mul_pos_pos; [lia|apply Z.pow_pos_nonneg; unfold e0; lia]. }
      lia. }
    assert (Hd : Zdigits2 (Z.pos ma * 2 ^ (ea - e0)) <= 665 - e0).
    { apply Zdigits2_le; [|lia|exact Hma].
      apply Z.mul_nonneg_nonneg; [lia|apply Z.pow_nonneg; lia]. }
    rewrite Zdigits2_mul_pow2 in Hd by (unfold e0; lia).
    simpl in Hd. lia.
Qed.

Lemma calculate_change_total (amount : float) :
  (amount <? CHANGE_BOUND)%float = true -> exists bd, calculate_change amount = Ok bd.
Proof.
  intros Hlt. unfold calculate_change.
  destruct (0.05 <=? amount)%float eqn:Hreach.
  - destruct (change_loop_returns DENOMINATIONS [] amount 665 denominations_floats
                (below_change_bound _ Hreach Hlt) ltac:(lia)) as [st' ->].
    + rewrite denominations_sorted. simpl. lia.
    + step_bind. eauto.
  - rewrite (change_loop_nothing_reached amount DENOMINATIONS).
    + step_bind. eauto.
    + intros d. apply no_denomination_reached, Hreach.
Qed.

(** X4.  [calculate_change] returns a breakdown for every amount below
    [CHANGE_BOUND], which is 1e200, also for a negative one: no step
    of its loop overflows. So [return_change] returns a response for
    every session that has the counters of the application and a
    balance below that bound. *)
Theorem change_is_returned_below_bound :
  (forall amount,
     (amount <? CHANGE_BOUND)%float = true -> exists bd, calculate_change amount = Ok bd) /\
  (forall now st s,
     session st = Some s ->
     counters_ok (denominations_inserted s) ->
     (inserted_money s <? CHANGE_BOUND)%float = true ->
     exists r st', return_change now st = Ok (r, st')).
Proof.
  split; [exact calculate_change_total|].
  intros now st s Hs Hok Hlt.
  apply (return_change_returns now st s Hs Hok).
  intros _. apply calculate_change_total, Hlt.
Qed.

Lemma change_is_returned_below_bound_witness :
  calculate_change 123456789.99
    = Ok [(PyInt 100, 1234567); (PyInt 50, 1); (PyInt 25, 1); (PyInt 10, 1); (PyInt 1, 4);
          (PyFloat 0.5, 1); (PyFloat 0.25, 1); (PyFloat 0.1, 2)] /\
  exists r st', return_change ("2024-01-01", "10:00:00")%string state_rich = Ok (r, st').
Proof.
  split; [vm_compute; reflexivity|].
  exact (proj2 change_is_returned_below_bound ("2024-01-01", "10:00:00")%string state_rich
           {| inserted_money := 123456789.99; denominations_inserted := zero_counters;
              current_transaction := [] |}
           eq_refl zero_counters_ok eq_refl).
Defined.

(** *** The only error of [calculate_change] *)








(** ** The breakdown in the message and in the log *)

Lemma filter_all {A} (P : A -> Prop) `{!forall x, Decision (P x)} (l : list A) :
  Forall P l -> filter P l = l.
Proof.
  induction 1 as [|x l Hx _ IH]; [reflexivity|].
  rewrite filter_cons_True by exact Hx. rewrite IH. reflexivity.
Qed.

Lemma filter_none {A} (P : A -> Prop) `{!forall x, Decision (P x)} (l : list A) :
  Forall (fun x => ~ P x) l -> filter P l = [].
Proof.
  induction 1 as [|x l Hx _ IH]; [reflexivity|].
  rewrite filter_cons_False by exact Hx. exact IH.
Qed.

(** A breakdown of [calculate_change] is made of entries of the
    denominations of at least one unit followed by entries of the coins
    below one unit, all with a count of at least one. *)
Lemma breakdown_notes_then_coins amount bd :
  calculate_change amount = Ok bd ->
  exists bd1 bd2,
    bd = bd1 ++ bd2 /\
    Forall (fun dc => In dc.1 [PyInt 100; PyInt 50; PyInt 25; PyInt 20; PyInt 10; PyInt 5; PyInt 1]
                      /\ 1 <= dc.2) bd1 /\
    Forall (fun dc => In dc.1 [PyFloat 0.5; PyFloat 0.25; PyFloat 0.1; PyFloat 0.05]
                      /\ 1 <= dc.2) bd2.
Proof.
  intros Hbd. apply calculate_change_is_greedy in Hbd.
  pose proof (greedy_keys _ _ _ Hbd) as Hkeys.
  pose proof (greedy_counts _ _ _ Hbd) as Hcounts.
  rewrite denominations_sorted in Hkeys.
  change [PyInt 100; PyInt 50; PyInt 25; PyInt 20; PyInt 10; PyInt 5; PyInt 1;
          PyFloat 0.5; PyFloat 0.25; PyFloat 0.1; PyFloat 0.05]
    with ([PyInt 100; PyInt 50; PyInt 25; PyInt 20; PyInt 10; PyInt 5; PyInt 1]
          ++ [PyFloat 0.5; PyFloat 0.25; PyFloat 0.1; PyFloat 0.05]) in Hkeys.
  apply sublist_app_r in Hkeys as (l1 & l2 & Hsplit & Hl1 & Hl2).
  apply fmap_app_inv in Hsplit as (bd1 & bd2 & -> & -> & ->).
  apply Forall_app in Hcounts as [Hc1 Hc2].
  exists bd1, bd2. split; [reflexivity|]. split.
  - apply Forall_forall. intros dc Hin. split.
    + apply list_elem_of_In. eapply elem_of_sublist; [|exact Hl1].
      apply list_elem_of_fmap. exists dc. split; [reflexivity|exact Hin].
    + rewrite Forall_forall in Hc1. apply Hc1, Hin.
  - apply Forall_forall. intros dc Hin. split.
    + apply list_elem_of_In. eapply elem_of_sublist; [|exact Hl2].
      apply list_elem_of_fmap. exists dc. split; [reflexivity|exact Hin].
    + rewrite Forall_forall in Hc2. apply Hc2, Hin.
Qed.

Lemma logged_split bd1 bd2 :
  Forall (fun dc => In dc.1 [PyInt 100; PyInt 50; PyInt 25; PyInt 20; PyInt 10; PyInt 5; PyInt 1]
                    /\ 1 <= dc.2) bd1 ->
  Forall (fun dc => In dc.1 [PyFloat 0.5; PyFloat 0.25; PyFloat 0.1; PyFloat 0.05]
                    /\ 1 <= dc.2) bd2 ->
  logged_notes (bd1 ++ bd2) = bd1 /\ logged_coins (bd1 ++ bd2) = bd2.
Proof.
  intros H1 H2. unfold logged_notes, logged_coins. rewrite !filter_app.
  assert (Hpos : forall c, 1 <= c -> (0 <? c) = true) by (intros; apply Z.ltb_lt; lia).
  rewrite (filter_all _ bd1), (filter_none _ bd2), (filter_none _ bd1), (filter_all _ bd2).
  - rewrite app_nil_r. split; reflexivity.
  - eapply Forall_impl; [exact H2|]. intros [d c] [Hd Hc]. cbn [fst snd] in *.
    rewrite (Hpos c Hc).
    repeat (destruct Hd as [<-|Hd]; [vm_compute; exact I|]). contradiction.
  - eapply Forall_impl; [exact H1|]. intros [d c] [Hd Hc]. cbn [fst snd] in *.
    repeat (destruct Hd as [<-|Hd]; [vm_compute; tauto|]). contradiction.
  - eapply Forall_impl; [exact H2|]. intros [d c] [Hd Hc]. cbn [fst snd] in *.
    repeat (destruct Hd as [<-|Hd]; [vm_compute; tauto|]). contradiction.
  - eapply Forall_impl; [exact H1|]. intros [d c] [Hd Hc]. cbn [fst snd] in *.
    rewrite (Hpos c Hc).
    repeat (destruct Hd as [<-|Hd]; [vm_compute; exact I|]). contradiction.
Qed.

(** X6.  The row of the log loses nothing of a breakdown of
    [calculate_change]: the entries that it writes as notes, followed
    by those that it writes as coins, are the breakdown. *)
Theorem log_keeps_the_breakdown amount bd :
  calculate_change amount = Ok bd ->
  logged_notes bd ++ logged_coins bd = bd /\
  (forall now s entry,
     log_transaction now s bd = Ok entry ->
     change_returned_notes entry = repr_num_dict (logged_notes bd) /\
     change_returned_coins entry = repr_num_dict (logged_coins bd)).
Proof.
  intros Hbd. split.
  - destruct (breakdown_notes_then_coins _ _ Hbd) as (bd1 & bd2 & -> & H1 & H2).
    destruct (logged_split bd1 bd2 H1 H2) as [-> ->]. reflexivity.
  - intros now s entry Hlog.
    destruct (log_transaction_fields _ _ _ _ Hlog) as (? & ? & _ & _ & _ & _ & Hn & Hc & _).
    split; assumption.
Qed.

Lemma log_keeps_the_breakdown_witness :
  logged_notes [(PyInt 5, 1); (PyFloat 0.5, 1); (PyFloat 0.25, 1)] = [(PyInt 5, 1)] /\
  logged_notes [(PyInt 5, 1); (PyFloat 0.5, 1); (PyFloat 0.25, 1)]
    ++ logged_coins [(PyInt 5, 1); (PyFloat 0.5, 1); (PyFloat 0.25, 1)]
  = [(PyInt 5, 1); (PyFloat 0.5, 1); (PyFloat 0.25, 1)].
Proof.
  split; [vm_compute; reflexivity|].
  assert (H : calculate_change 5.75 = Ok [(PyInt 5, 1); (PyFloat 0.5, 1); (PyFloat 0.25, 1)])
    by (vm_compute; reflexivity).
  exact (proj1 (log_keeps_the_breakdown 5.75 _ H)).
Defined.





(** ** Sessions *)

(** X8.  Before [index] has initialised the session, [insert_money]
    with a valid amount, [return_change], and [purchase] of a product
    that is in stock raise [KeyError], which is answered by a 500, and
    nothing is written; [index] initialises the session and touches
    nothing else. *)
Theorem handlers_need_index st :
  session st = None ->
  (forall form field amount,
     form !! "amount"%string = Some field -> float_of_string field = Ok amount ->
     insert_money form st = Raise KeyError) /\
  (forall now, return_change now st = Raise KeyError) /\
  (forall form product_id qty product cost,
     purchase_fields form = Ok (product_id, qty) ->
     products st !! product_id = Some product ->
     qty <= quantity product ->
     float_mul_int (price product) qty = Ok cost ->
     purchase form st = Raise KeyError) /\
  status_of (Raise KeyError) = 500 /\
  index st = set_session st fresh_session /\
  index (index st) = index st.
Proof.
  intros Hs. split; [|split; [|split]].
  - intros form field amount Hfield Hparse. unfold insert_money, form_get, session_get.
    rewrite Hfield. step_bind. rewrite Hparse. step_bind. rewrite Hs. reflexivity.
  - intros now. unfold return_change, session_get. rewrite Hs. reflexivity.
  - intros form product_id qty product cost Hfields Hproduct Hstock Hcost.
    unfold purchase, session_get. rewrite Hfields, Hproduct.
    destruct (Z.ltb_spec (quantity product) qty); [lia|].
    rewrite Hcost. step_bind. rewrite Hs. reflexivity.
  - unfold index. rewrite Hs. repeat split.
Qed.

Lemma handlers_need_index_witness :
  insert_money (form_of [("amount", "50")]) boot_state = Raise KeyError /\
  return_change ("2024-01-01", "10:00:00")%string boot_state = Raise KeyError /\
  purchase two_sandos boot_state = Raise KeyError.
Proof.
  destruct (handlers_need_index boot_state eq_refl) as (Hi & Hr & Hp & _).
  split; [apply (Hi _ "50"%string 50%float); reflexivity|].
  split; [apply Hr|].
  apply (Hp _ 1 2 sando 30%float); try reflexivity. simpl. lia.
Defined.

(** X9.  After a call of [return_change] that returned, a second call
    answers the acknowledgement and changes nothing: no second row is
    written to the log. *)
Theorem return_change_twice now now' st r st' :
  return_change now st = Ok (r, st') ->
  return_change now' st' = Ok (ThankYou, st').
Proof.
  unfold return_change at 1.
  destruct (session_get st) as [s|e]; [|discriminate]. step_bind.
  assert (Hfresh : forall st0,
            return_change now' (set_session st0 fresh_session)
            = Ok (ThankYou, set_session st0 fresh_session)) by reflexivity.
  destruct (0 <? inserted_money s)%float.
  - destruct (calculate_change (inserted_money s)) as [bd|e]; [|discriminate]. step_bind.
    destruct (format_change_message bd) as [message|e]; [|discriminate]. step_bind.
    destruct (log_transaction now s bd) as [entry|e]; [|discriminate]. step_bind.
    intros [= _ <-]. apply Hfresh.
  - destruct (current_transaction s) as [|item items].
    + step_bind. intros [= _ <-]. apply Hfresh.
    + destruct (log_transaction now s []) as [entry|e]; [|discriminate]. step_bind.
      intros [= _ <-]. apply Hfresh.
Qed.

Lemma return_change_twice_witness :
  exists st',
    return_change ("2024-01-01", "10:00:00")%string state_55
    = Ok (ChangeReturned 55 ("Change breakdown:" ++ newline ++ "Notes: Rs 50: 1 note(s), Rs 5: 1 note(s)" ++ newline), st') /\
    return_change ("2024-01-01", "10:00:05")%string st' = Ok (ThankYou, st').
Proof.
  eexists. split; [vm_compute; reflexivity|].
  eapply (return_change_twice ("2024-01-01", "10:00:00")%string _ state_55).
  vm_compute. reflexivity.
Defined.






(** *** A balance that is not a number *)

Lemma is_nan_spec (x : float) : is_nan x = true <-> Prim2SF x = S754_nan.
Proof.
  unfold is_nan. rewrite FloatAxioms.eqb_spec.
  pose proof (Prim2SF_valid x) as V.
  destruct (Prim2SF x) as [s|s| |s m e]; simpl.
  - split; discriminate.
  - destruct s; split; discriminate.
  - split; reflexivity.
  - unfold SFeqb, SFcompare. destruct s.
    + rewrite Pos.compare_refl, Z.compare_refl. simpl. split; discriminate.
    + rewrite Pos.compare_refl, Z.compare_refl. simpl. split; discriminate.
Qed.






(** *** A purchase of nothing *)

Lemma SFmul_zero p :
  match p with S754_finite _ _ _ | S754_zero _ => True | _ => False end ->
  exists s, SF64mul p (S754_zero false) = S754_zero s.
Proof. destruct p as [s|s| |s m e]; simpl; intros H; try contradiction; eauto. Qed.

Lemma SFsub_zero a s :
  SFleb (S754_zero false) a = true ->
  SFltb a (S754_zero s) = false /\ SFeqb (SF64sub a (S754_zero s)) a = true.
Proof.
  destruct a as [sa|sa| |sa m e]; simpl; try discriminate.
  - intros _. split; [destruct sa, s; reflexivity|]. destruct sa, s; reflexivity.
  - destruct sa; [discriminate|]. intros _. split; reflexivity.
  - destruct sa; [discriminate|]. intros _. split; [destruct s; reflexivity|].
    unfold SFeqb, SFcompare. rewrite Z.compare_refl, Pos.compare_refl. reflexivity.
Qed.

Lemma is_finite_spec (x : float) :
  is_finite x = true ->
  match Prim2SF x with S754_finite _ _ _ | S754_zero _ => True | _ => False end.
Proof.
  unfold is_finite, is_infinity. intros H. apply negb_true_iff, orb_false_iff in H as [Hnan Hinf].
  rewrite FloatAxioms.eqb_spec, FloatAxioms.abs_spec in Hinf.
  change (Prim2SF infinity) with (S754_infinity false) in Hinf.
  assert (Hn : Prim2SF x <> S754_nan).
  { intros Hx. apply is_nan_spec in Hx. rewrite Hx in Hnan. discriminate. }
  destruct (Prim2SF x) as [s|s| |s m e]; try exact I.
  - discriminate Hinf.
  - contradiction.
Qed.

(** X12.  A purchase of the quantity 0 of a product whose stock is not
    negative and whose price is finite succeeds with any balance that
    is not negative, also with none: the stock and the balance keep
    their values and a line of quantity 0 is added to the purchases of
    the session. *)
Theorem purchase_zero_quantity form st s product_id product :
  purchase_fields form = Ok (product_id, 0) ->
  products st !! product_id = Some product ->
  session st = Some s ->
  0 <= quantity product ->
  is_finite (price product) = true ->
  (0 <=? inserted_money s)%float = true ->
  exists st' s' cost,
    purchase form st
      = Ok (Purchased 0 (name product) (inserted_money s') (quantity product), st') /\
    quantity <$> products st' !! product_id = Some (quantity product) /\
    session st' = Some s' /\
    (inserted_money s' =? inserted_money s)%float = true /\
    (cost =? 0)%float = true /\
    current_transaction s' =
      current_transaction s ++
        [{| item_product_id := product_id; item_name := name product; item_quantity := 0;
            item_price := price product; item_total := cost |}].
Proof.
  intros Hfields Hproduct Hs Hstock Hprice Hbal.
  unfold purchase. rewrite Hfields, Hproduct.
  destruct (Z.ltb_spec (quantity product) 0); [lia|].
  change (float_mul_int (price product) 0) with (Ok (price product * 0)%float : result float).
  step_bind. unfold session_get. rewrite Hs. step_bind.
  destruct (SFmul_zero _ (is_finite_spec _ Hprice)) as [sc Hcost].
  rewrite FloatAxioms.leb_spec, Prim2SF_zero in Hbal.
  destruct (SFsub_zero _ sc Hbal) as [Hlt Heq].
  assert (Hfunds : (inserted_money s <? price product * 0)%float = false).
  { rewrite FloatAxioms.ltb_spec, FloatAxioms.mul_spec, Prim2SF_zero, Hcost. exact Hlt. }
  rewrite Hfunds.
  eexists. eexists. exists (price product * 0)%float.
  replace (quantity (sold product 0)) with (quantity product) by (simpl; lia).
  split; [reflexivity|].
  cbn [products session inserted_money current_transaction].
  rewrite lookup_insert_eq. split; [simpl; f_equal; lia|]. split; [reflexivity|].
  split.
  { rewrite FloatAxioms.eqb_spec, FloatAxioms.sub_spec, FloatAxioms.mul_spec, Prim2SF_zero, Hcost.
    exact Heq. }
  split; [|reflexivity].
  rewrite FloatAxioms.eqb_spec, FloatAxioms.mul_spec, !Prim2SF_zero, Hcost.
  destruct sc; reflexivity.
Qed.

Lemma purchase_zero_quantity_witness :
  exists st' s' cost,
    purchase (form_of [("product_id", "1"); ("quantity", "0")]) initial_state
      = Ok (Purchased 0 "sando" (inserted_money s') 10, st') /\
    quantity <$> products st' !! 1 = Some 10 /\
    session st' = Some s' /\
    (inserted_money s' =? 0)%float = true /\
    (cost =? 0)%float = true /\
    current_transaction s' =
      [{| item_product_id := 1; item_name := "sando"; item_quantity := 0;
          item_price := 15; item_total := cost |}].
Proof.
  exact (purchase_zero_quantity (form_of [("product_id", "1"); ("quantity", "0")])
           initial_state fresh_session 1 sando
           eq_refl eq_refl eq_refl ltac:(simpl; lia) eq_refl eq_refl).
Defined.

(** *** The exceptions of [insert_money] and of [purchase] *)






(** ** The routes of the administrator *)













(** X18.  [create_tables] fills an empty table of products with the
    six sample products and leaves a table that has a product as it
    is; applied twice it does what it does once, and it never touches
    the transactions or the session. *)
Theorem create_tables_idempotent st :
  create_tables (create_tables st) = create_tables st /\
  (products st = ∅ ->
   products (create_tables st) = list_to_map sample_products /\
   size (products (create_tables st)) = 6%nat) /\
  (products st <> ∅ -> create_tables st = st) /\
  transactions (create_tables st) = transactions st /\
  session (create_tables st) = session st.
Proof.
  assert (Hsix : size (list_to_map sample_products : gmap Z Product) = 6%nat)
    by (vm_compute; reflexivity).
  assert (Hfull : forall st0, size (products st0) <> 0%nat -> create_tables st0 = st0).
  { intros st0 Hne. unfold create_tables.
    destruct (decide (size (products st0) = 0%nat)); [contradiction|reflexivity]. }
  assert (Hempty : forall st0, size (products st0) = 0%nat ->
            create_tables st0 = set_products st0 (list_to_map sample_products)).
  { intros st0 He. unfold create_tables.
    destruct (decide (size (products st0) = 0%nat)); [reflexivity|contradiction]. }
  destruct (decide (size (products st) = 0%nat)) as [He|Hne].
  - rewrite (Hempty st He). cbn [set_products products transactions session].
    split; [apply Hfull; cbn [set_products products]; rewrite Hsix; discriminate|].
    split; [intros _; split; [reflexivity|exact Hsix]|].
    split; [|split; reflexivity].
    intros Hne. apply map_size_empty_iff in He. contradiction.
  - rewrite (Hfull st Hne).
    split; [apply Hfull, Hne|]. split; [|repeat split].
    intros He. rewrite He in Hne. contradiction Hne. apply map_size_empty.
Qed.

Lemma size_sold (table : gmap Z Product) id p p' :
  table !! id = Some p -> size (<[id := p']> table) = size table.
Proof. intros H. apply map_size_insert_Some. eauto. Qed.

Lemma insert_money_frame form st :
  products (state_after st (insert_money form st)) = products st /\
  transactions (state_after st (insert_money form st)) = transactions st.
Proof.
  unfold insert_money.
  destruct (form_get form "amount") as [field|e]; [|split; reflexivity]. step_bind.
  destruct (float_of_string field) as [amount|e]; [|split; reflexivity]. step_bind.
  destruct (session_get st) as [s|e]; split; reflexivity.
Qed.

Lemma purchase_frame form st :
  size (products (state_after st (purchase form st))) = size (products st) /\
  transactions (state_after st (purchase form st)) = transactions st.
Proof.
  unfold purchase.
  destruct (purchase_fields form) as [[product_id qty]|e]; [|destruct e; split; reflexivity].
  destruct (products st !! product_id) as [product|] eqn:Hproduct; [|split; reflexivity].
  destruct (quantity product <? qty); [split; reflexivity|].
  destruct (float_mul_int (price product) qty) as [cost|e]; [|split; reflexivity]. step_bind.
  destruct (session_get st) as [s|e]; [|split; reflexivity]. step_bind.
  destruct (inserted_money s <? cost)%float; [split; reflexivity|].
  cbn [state_after products transactions]. split; [|reflexivity].
  eapply size_sold, Hproduct.
Qed.


Lemma update_product_frame form st :
  transactions (admin_state_after st (update_product form st)) = transactions st /\
  session (admin_state_after st (update_product form st)) = session st /\
  size (products (admin_state_after st (update_product form st))) = size (products st).
Proof.
  unfold update_product.
  destruct (update_fields form) as [[product_id updated]|e]; [|destruct e; repeat split].
  destruct (products st !! product_id) as [old|] eqn:Hold; [|repeat split].
  cbn [admin_state_after set_products products transactions session].
  split; [reflexivity|]. split; [reflexivity|]. eapply size_sold, Hold.
Qed.


(** ** Sequences of requests *)

Lemma zero_counters_uncounted : integer_keys_at_zero zero_counters.
Proof.
  split; [reflexivity|]. rewrite zero_counters_value.
  repeat (apply Forall_cons_2; [intros _; reflexivity|]). apply Forall_nil_2.
Qed.

(** With the integer keys at zero, no counter of a note is selected for
    the log. *)
Lemma select_inserted_notes_empty d :
  integer_keys_at_zero d ->
  select_inserted (fun f => float_ge_int f 1) d = Ok [].
Proof.
  intros [Hkeys Hzero]. rewrite zero_counters_value in Hkeys. simpl in Hkeys.
  do 11 (destruct d as [|[? ?] d]; [discriminate Hkeys|]).
  destruct d; [|discriminate Hkeys].
  injection Hkeys as -> -> -> -> -> -> -> -> -> -> ->.
  do 7 (apply Forall_cons_1 in Hzero as [Hz Hzero]; cbn [fst snd] in Hz;
        rewrite (Hz eq_refl); clear Hz).
  vm_compute. reflexivity.
Qed.

Lemma insert_money_uncounted form st :
  session_uncounted st -> session_uncounted (state_after st (insert_money form st)).
Proof.
  intros Hinv.
  destruct (insert_money form st) as [[r st']|e] eqn:Hrun; [|exact Hinv].
  cbn [state_after]. unfold session_uncounted in *.
  destruct (session st) as [s|] eqn:Hs.
  2:{ unfold insert_money, session_get in Hrun. rewrite Hs in Hrun.
      destruct (form_get form "amount"); [|discriminate]. step_bind in Hrun.
      destruct (float_of_string _); discriminate. }
  destruct (session st') as [s'|] eqn:Hs'; [|exact I].
  destruct Hinv as [Hkeys Hzero].
  pose proof (insert_money_keeps_keys _ _ _ _ _ _ Hs Hrun Hs') as Hkeys'.
  split; [congruence|].
  apply Forall_forall. intros [k v] Hin Hdigit. cbn [fst snd] in *.
  pose proof (insert_money_keeps_digit_keys _ _ _ _ _ _ k Hs Hrun Hs' Hdigit) as Hsame.
  assert (Hold : dict_get String.eqb (denominations_inserted s) k = Some 0).
  { assert (Hk : In k (map fst (denominations_inserted s))).
    { rewrite <- Hkeys'. apply in_map_iff. exists (k, v). split; [reflexivity|].
      apply list_elem_of_In, Hin. }
    clear - Hk Hzero Hdigit.
    induction (denominations_inserted s) as [|[k0 v0] d IH]; simpl in *; [contradiction|].
    apply Forall_cons_1 in Hzero as [Hz Hzero].
    destruct (String.eqb_spec k0 k) as [->|Hne].
    - f_equal. apply Hz, Hdigit.
    - destruct Hk as [->|Hk]; [contradiction|]. apply IH; assumption. }
  rewrite Hold in Hsame.
  assert (Hnodup : NoDup (map fst (denominations_inserted s'))).
  { rewrite Hkeys', Hkeys. rewrite zero_counters_value. simpl.
    apply (bool_decide_unpack _). vm_compute. exact I. }
  clear - Hin Hsame Hnodup.
  induction (denominations_inserted s') as [|[k0 v0] d IH]; simpl in *.
  - apply elem_of_nil in Hin. contradiction.
  - apply NoDup_cons in Hnodup as [Hfresh Hnodup].
    apply elem_of_cons in Hin as [[= <- <-]|Hin].
    + rewrite String.eqb_refl in Hsame. congruence.
    + destruct (String.eqb_spec k0 k) as [->|Hne].
      * exfalso. apply Hfresh. apply list_elem_of_fmap. exists (k, v). split; [reflexivity|exact Hin].
      * apply IH; assumption.
Qed.

(** [purchase] leaves the counters of the session as they are. *)
Lemma purchase_counters form st :
  session (state_after st (purchase form st)) = session st \/
  exists s s',
    session st = Some s /\ session (state_after st (purchase form st)) = Some s' /\
    denominations_inserted s' = denominations_inserted s.
Proof.
  unfold purchase.
  destruct (purchase_fields form) as [[product_id qty]|e]; [|destruct e; left; reflexivity].
  destruct (products st !! product_id) as [product|]; [|left; reflexivity].
  destruct (quantity product <? qty); [left; reflexivity|].
  destruct (float_mul_int (price product) qty) as [cost|e]; [|left; reflexivity]. step_bind.
  unfold session_get.
  destruct (session st) as [s|] eqn:Hs; [|left; cbn; exact Hs]. step_bind.
  destruct (inserted_money s <? cost)%float; [left; cbn; exact Hs|].
  right. exists s. eexists. split; [reflexivity|]. split; reflexivity.
Qed.

Lemma fresh_uncounted st : session_uncounted (set_session st fresh_session).
Proof. exact zero_counters_uncounted. Qed.

Lemma handle_uncounted req st :
  session_uncounted st -> session_uncounted (handle req st).
Proof.
  intros Hinv. destruct req as [|form|form|now|form|form|product_id]; cbn [handle].
  - unfold index. destruct (session st) eqn:Hs; [exact Hinv|apply fresh_uncounted].
  - apply insert_money_uncounted, Hinv.
  - destruct (purchase_counters form st) as [Hsame|(s & s' & Hs & Hs' & Hd)];
      unfold session_uncounted in *.
    + rewrite Hsame. exact Hinv.
    + rewrite Hs' , Hd. rewrite Hs in Hinv. exact Hinv.
  - unfold return_change.
    destruct (session_get st) as [s|e]; [|exact Hinv]. step_bind.
    destruct (0 <? inserted_money s)%float.
    + destruct (calculate_change (inserted_money s)) as [bd|e]; [|exact Hinv]. step_bind.
      destruct (format_change_message bd) as [message|e]; [|exact Hinv]. step_bind.
      destruct (log_transaction now s bd) as [entry|e]; [|exact Hinv]. step_bind.
      apply fresh_uncounted.
    + destruct (current_transaction s) as [|item items].
      * apply fresh_uncounted.
      * destruct (log_transaction now s []) as [entry|e]; [|exact Hinv]. step_bind.
        apply fresh_uncounted.
  - destruct (update_product_frame form st) as (_ & Hsession & _).
    unfold session_uncounted in *. rewrite Hsession. exact Hinv.
  - unfold add_product. destruct (add_fields form) as [p|e]; [exact Hinv|destruct e; exact Hinv].
  - unfold delete_product. destruct (products st !! product_id); exact Hinv.
Qed.

Lemma log_transaction_no_notes now s bd entry :
  integer_keys_at_zero (denominations_inserted s) ->
  log_transaction now s bd = Ok entry ->
  amount_inserted_notes entry = "{}"%string.
Proof.
  intros Hinv Hlog.
  destruct (log_transaction_fields _ _ _ _ Hlog) as (notes & coins & Hnotes & _ & -> & _).
  rewrite (select_inserted_notes_empty _ Hinv) in Hnotes. injection Hnotes as <-. reflexivity.
Qed.

Lemma handle_no_inserted_notes req st :
  session_uncounted st -> no_inserted_notes st -> no_inserted_notes (handle req st).
Proof.
  intros Hinv Hrows. destruct req as [|form|form|now|form|form|product_id]; cbn [handle].
  - unfold index. destruct (session st); exact Hrows.
  - unfold no_inserted_notes. rewrite (proj2 (insert_money_frame form st)). exact Hrows.
  - unfold no_inserted_notes. rewrite (proj2 (purchase_frame form st)). exact Hrows.
  - unfold return_change, session_get, session_uncounted in *.
    destruct (session st) as [s|]; [|exact Hrows]. step_bind.
    destruct (0 <? inserted_money s)%float.
    + destruct (calculate_change (inserted_money s)) as [bd|e]; [|exact Hrows]. step_bind.
      destruct (format_change_message bd) as [message|e]; [|exact Hrows]. step_bind.
      destruct (log_transaction now s bd) as [entry|e] eqn:Hlog; [|exact Hrows]. step_bind.
      cbn [state_after]. unfold no_inserted_notes. cbn [set_session add_transaction transactions].
      apply Forall_app. split; [exact Hrows|].
      apply Forall_cons_2; [|apply Forall_nil_2]. eapply log_transaction_no_notes; eassumption.
    + destruct (current_transaction s) as [|item items]; [exact Hrows|].
      destruct (log_transaction now s []) as [entry|e] eqn:Hlog; [|exact Hrows]. step_bind.
      cbn [state_after]. unfold no_inserted_notes. cbn [set_session add_transaction transactions].
      apply Forall_app. split; [exact Hrows|].
      apply Forall_cons_2; [|apply Forall_nil_2]. eapply log_transaction_no_notes; eassumption.
  - destruct (update_product_frame form st) as (Htx & _).
    unfold no_inserted_notes. rewrite Htx. exact Hrows.
  - unfold add_product. destruct (add_fields form) as [p|e]; [exact Hrows|destruct e; exact Hrows].
  - unfold delete_product. destruct (products st !! product_id); exact Hrows.
Qed.

Lemma run_no_inserted_notes reqs : forall st,
  session_uncounted st -> no_inserted_notes st -> no_inserted_notes (run reqs st).
Proof.
  induction reqs as [|req reqs IH]; intros st Hinv Hrows; [exact Hrows|].
  apply IH; [apply handle_uncounted, Hinv|apply handle_no_inserted_notes; assumption].
Qed.

(** X20.  Whatever the requests are, from the first visit of a client
    and an empty log on, no row that they add to the log shows an
    inserted note or coin of 10, 5 or 1: the text of its inserted
    notes is that of the empty dictionary. *)
Theorem log_never_shows_inserted_notes reqs st :
  session st = None ->
  transactions st = [] ->
  Forall (fun t => amount_inserted_notes t = "{}"%string) (transactions (run reqs st)).
Proof.
  intros Hs Htx. apply run_no_inserted_notes.
  - unfold session_uncounted. rewrite Hs. exact I.
  - unfold no_inserted_notes. rewrite Htx. constructor.
Qed.

Lemma log_never_shows_inserted_notes_witness :
  (fun t => (amount_inserted_notes t, change_returned_notes t, change_amount t))
    <$> transactions (run notes_session boot_state)
  = [("{}"%string, "{100: 1, 25: 1, 10: 1}"%string, 135%float)] /\
  Forall (fun t => amount_inserted_notes t = "{}"%string)
         (transactions (run notes_session boot_state)).
Proof.
  split; [vm_compute; reflexivity|].
  exact (log_never_shows_inserted_notes notes_session boot_state eq_refl eq_refl).
Defined.







(** *** The balance *)

Lemma SFadd_not_negative x y :
  SFltb x (S754_zero false) = false -> SFltb y (S754_zero false) = false ->
  SFltb (SF64add x y) (S754_zero false) = false.
Proof.
  destruct x as [sx|sx| |sx mx ex], y as [sy|sy| |sy my ey]; simpl;
    try reflexivity; try (destruct sx; (discriminate || reflexivity));
    try (destruct sy; (discriminate || reflexivity));
    try (destruct sx, sy; (discriminate || reflexivity)).
  destruct sx; [discriminate|]. destruct sy; [discriminate|]. intros _ _.
  apply not_lt_zero. unfold SF64add, SFadd. apply binary_normalize_nonneg.
  unfold cond_Zopp. lia.
Qed.

Lemma add_not_negative (a b : float) :
  (a <? 0)%float = false -> (b <? 0)%float = false -> (a + b <? 0)%float = false.
Proof.
  rewrite !FloatAxioms.ltb_spec, FloatAxioms.add_spec, Prim2SF_zero. apply SFadd_not_negative.
Qed.

Lemma SFsub_keeps_not_negative x y :
  valid_binary x = true -> valid_binary y = true ->
  SFltb x (S754_zero false) = false -> SFltb x y = false ->
  SFltb (SF64sub x y) (S754_zero false) = false.
Proof.
  intros Vx Vy Hx Hlt.
  destruct x as [sx|sx| |sx mx ex] eqn:Ex; try reflexivity.
  - apply SFsub_not_negative; try assumption; destruct sx; reflexivity.
  - destruct sx; [discriminate Hx|]. apply SFsub_not_negative; try assumption; reflexivity.
  - destruct sx; [discriminate Hx|]. apply SFsub_not_negative; try assumption; reflexivity.
Qed.

Lemma handle_balance_not_negative req st :
  inserts_no_negative req = true ->
  balance_not_negative st -> balance_not_negative (handle req st).
Proof.
  intros Hreq Hinv.
  destruct req as [|form|form|now|form|form|product_id]; cbn [handle].
  - unfold index. destruct (session st) eqn:Hs; [exact Hinv|reflexivity].
  - cbn [inserts_no_negative] in Hreq. unfold insert_money, form_get.
    destruct (form !! "amount"%string) as [field|]; [|exact Hinv]. step_bind.
    destruct (float_of_string field) as [amount|e]; [|exact Hinv]. step_bind.
    unfold session_get, balance_not_negative in *.
    destruct (session st) as [s|] eqn:Hs; [|cbn; rewrite Hs; exact I]. step_bind.
    cbn [state_after set_session session inserted_money].
    apply add_not_negative; [exact Hinv|]. apply negb_true_iff, Hreq.
  - unfold purchase.
    destruct (purchase_fields form) as [[product_id qty]|e]; [|destruct e; exact Hinv].
    destruct (products st !! product_id) as [product|]; [|exact Hinv].
    destruct (quantity product <? qty); [exact Hinv|].
    destruct (float_mul_int (price product) qty) as [cost|e]; [|exact Hinv]. step_bind.
    unfold session_get, balance_not_negative in *.
    destruct (session st) as [s|] eqn:Hs; [|cbn; rewrite Hs; exact I]. step_bind.
    destruct (inserted_money s <? cost)%float eqn:Hfunds; [cbn; rewrite Hs; exact Hinv|].
    cbn [state_after session inserted_money].
    rewrite FloatAxioms.ltb_spec, FloatAxioms.sub_spec, Prim2SF_zero.
    rewrite FloatAxioms.ltb_spec, Prim2SF_zero in Hinv. rewrite FloatAxioms.ltb_spec in Hfunds.
    apply SFsub_keeps_not_negative; try apply Prim2SF_valid; assumption.
  - unfold return_change.
    destruct (session_get st) as [s|e]; [|exact Hinv]. step_bind.
    destruct (0 <? inserted_money s)%float.
    + destruct (calculate_change (inserted_money s)) as [bd|e]; [|exact Hinv]. step_bind.
      destruct (format_change_message bd) as [message|e]; [|exact Hinv]. step_bind.
      destruct (log_transaction now s bd) as [entry|e]; [|exact Hinv]. step_bind.
      reflexivity.
    + destruct (current_transaction s) as [|item items]; [reflexivity|].
      destruct (log_transaction now s []) as [entry|e]; [|exact Hinv]. step_bind.
      reflexivity.
  - destruct (update_product_frame form st) as (_ & Hsession & _).
    unfold balance_not_negative in *. rewrite Hsession. exact Hinv.
  - unfold add_product. destruct (add_fields form) as [p|e]; [exact Hinv|destruct e; exact Hinv].
  - unfold delete_product. destruct (products st !! product_id); exact Hinv.
Qed.

(** X22.  As long as no amount below zero is inserted, the balance of
    the session is never below zero, whatever the requests are: the
    purchases, also those of a negative quantity, and the changes of
    the administrator do not take it below zero. *)
Theorem balance_never_negative reqs : forall st,
  forallb inserts_no_negative reqs = true ->
  balance_not_negative st ->
  balance_not_negative (run reqs st).
Proof.
  induction reqs as [|req reqs IH]; intros st Hreqs Hinv; [exact Hinv|].
  cbn [forallb] in Hreqs. apply andb_true_iff in Hreqs as [Hreq Hreqs].
  apply IH; [exact Hreqs|]. apply handle_balance_not_negative; assumption.
Qed.

Lemma balance_never_negative_witness :
  inserted_money <$> session (run (removelast notes_session) boot_state) = Some 135%float /\
  balance_not_negative (run (removelast notes_session) boot_state).
Proof.
  split; [vm_compute; reflexivity|].
  apply (balance_never_negative (removelast notes_session) boot_state); [|exact I].
  vm_compute. reflexivity.
Defined.

